(** * Cribbage hand counter: a shallow embedding of [cribPart.js]

    The scoring core of the program ([getCardValue], [parseCard],
    [formatCard], [scoreFifteens], [scorePairs], [getNumericRank],
    [scoreRuns], [scoreFlush], [scoreNobs], [scoreHand]) is translated
    function by function.  JavaScript values are modelled as follows.

    - numbers: [Z] (every number the scorer handles is a small integer);
      the 32-bit operators [<<] and [&] are written out with their
      wrap-around;
    - strings: lists of UTF-16 code units, so that [slice(-1)] removes one
      code unit, as it does in JavaScript (each suit symbol is one unit);
    - arrays: dense lists; [a[i]] outside the array is [undefined];
    - [null] / [undefined] card slots: [None];
    - a property access on [null] / [undefined] throws a [TypeError]:
      the evaluators live in an error monad [Exc];
    - objects used as dictionaries: insertion-ordered association lists,
      enumerated in the order of [Object.keys] (integer-like keys first,
      ascending; then the other keys in insertion order). *)

From Stdlib Require Import String Ascii.
From Stdlib Require Import ZArith List Bool Lia Permutation Sorted.
Import ListNotations.
Open Scope Z_scope.

(** ** JavaScript primitives *)

Module Js.

(** A string is its sequence of UTF-16 code units. *)
Definition jsstring := list Z.

(** ASCII literals. *)
Definition lit (s : string) : jsstring :=
  map (fun a => Z.of_N (N_of_ascii a)) (list_ascii_of_string s).

Fixpoint str_eqb (s t : jsstring) : bool :=
  match s, t with
  | [], [] => true
  | x :: s', y :: t' => (x =? y) && str_eqb s' t'
  | _, _ => false
  end.

(** Relative index of [slice]: negative indices count from the end. *)
Definition rel_index (len k : Z) : Z :=
  if k <? 0 then Z.max (len + k) 0 else Z.min k len.

(** [s.slice(start, stop)], for strings and arrays alike; [stop = None] is
    the one-argument call. *)
Definition slice {A : Type} (s : list A) (start : Z) (stop : option Z) : list A :=
  let len := Z.of_nat (length s) in
  let from := rel_index len start in
  let to := match stop with None => len | Some e => rel_index len e end in
  firstn (Z.to_nat (to - from)) (skipn (Z.to_nat from) s).

(** [a[i]]: [undefined] (here [None]) outside the array. *)
Definition index {A : Type} (a : list A) (i : Z) : option A :=
  if i <? 0 then None else nth_error a (Z.to_nat i).

(** Value of a decimal digit code unit. *)
Definition digit (u : Z) : option Z :=
  if (48 <=? u) && (u <=? 57) then Some (u - 48) else None.

Fixpoint digits (acc : Z) (s : jsstring) : Z :=
  match s with
  | [] => acc
  | u :: s' =>
      match digit u with
      | Some d => digits (10 * acc + d) s'
      | None => acc
      end
  end.

(** [parseInt(s)] on a string that starts with a decimal digit: the value of
    its leading digits.  (JavaScript yields [NaN] when there is no leading
    digit; the scorer only calls [parseInt] on the ranks 2..10, see
    [parseInt_rank] below, and the model returns 0 there.) *)
Definition parseInt (s : jsstring) : Z := digits 0 s.

(** ToInt32: wrap to a signed 32-bit integer. *)
Definition toInt32 (x : Z) : Z :=
  let m := x mod 2 ^ 32 in if m <? 2 ^ 31 then m else m - 2 ^ 32.

(** [a << b] *)
Definition shl (a b : Z) : Z := toInt32 (Z.shiftl (toInt32 a) (b mod 32)).

(** [a & b] *)
Definition band (a b : Z) : Z := Z.land (toInt32 a) (toInt32 b).

(** The integers [lo, lo+1, ..., hi-1] visited by
    [for (let i = lo; i < hi; i++)]. *)
Definition range (lo hi : Z) : list Z :=
  map (fun k => lo + Z.of_nat k) (seq 0 (Z.to_nat (hi - lo))).

(** Results of code that may throw. *)
Inductive Exc (A : Type) : Type :=
| Ok (a : A)
| TypeError.
Arguments Ok {A} a.
Arguments TypeError {A}.

Definition bind {A B : Type} (m : Exc A) (k : A -> Exc B) : Exc B :=
  match m with
  | Ok a => k a
  | TypeError => TypeError
  end.

(** A loop over [l] threading the state [s]; it stops at the first throw. *)
Fixpoint foldM {A S : Type} (f : S -> A -> Exc S) (l : list A) (s : S) : Exc S :=
  match l with
  | [] => Ok s
  | x :: l' => bind (f s x) (foldM f l')
  end.

(** [a.every(p)]: stops at the first element that fails [p]. *)
Fixpoint every {A : Type} (p : A -> Exc bool) (a : list A) : Exc bool :=
  match a with
  | [] => Ok true
  | x :: a' => bind (p x) (fun b => if b then every p a' else Ok false)
  end.

(** [a.find(p)]: the first element that satisfies [p], or [undefined]. *)
Fixpoint find {A : Type} (p : A -> Exc bool) (a : list A) : Exc (option A) :=
  match a with
  | [] => Ok None
  | x :: a' => bind (p x) (fun b => if b then Ok (Some x) else find p a')
  end.

(** [a.some(p)] on an array without holes, for a predicate that cannot
    throw. *)
Definition some {A : Type} (p : A -> bool) (a : list A) : bool := existsb p a.

(** Insertion sort with a numeric key: the result of
    [a.sort((x, y) => key(x) - key(y))]. *)
Fixpoint insert_by {A : Type} (key : A -> Z) (x : A) (l : list A) : list A :=
  match l with
  | [] => [x]
  | y :: l' => if key x - key y <=? 0 then x :: l else y :: insert_by key x l'
  end.

Fixpoint sort_by {A : Type} (key : A -> Z) (l : list A) : list A :=
  match l with
  | [] => []
  | x :: l' => insert_by key x (sort_by key l')
  end.

(** *** Objects used as dictionaries

    [K] is the type of the property keys; [key_index k] is [Some n] when the
    key's string is the canonical form of the array index [n] (such keys are
    enumerated first, in ascending order) and [None] otherwise. *)
Section Object.
Context {K V : Type}.
Variable key_eqb : K -> K -> bool.
Variable key_index : K -> option Z.

Definition obj := list (K * V).

(** [o[k]]: [undefined] when [k] is not a property of [o]. *)
Fixpoint get (o : obj) (k : K) : option V :=
  match o with
  | [] => None
  | (k', v) :: o' => if key_eqb k k' then Some v else get o' k
  end.

(** [o[k] = v]: an existing property keeps its place, a new one is added
    last. *)
Fixpoint set (o : obj) (k : K) (v : V) : obj :=
  match o with
  | [] => [(k, v)]
  | (k', v') :: o' =>
      if key_eqb k k' then (k', v) :: o' else (k', v') :: set o' k v
  end.

Definition is_index (e : K * V) : bool :=
  match key_index (fst e) with Some _ => true | None => false end.

Definition index_of (e : K * V) : Z :=
  match key_index (fst e) with Some n => n | None => 0 end.

(** [Object.entries(o)] *)
Definition entries (o : obj) : list (K * V) :=
  sort_by index_of (filter is_index o)
    ++ filter (fun e => negb (is_index e)) o.

(** [Object.keys(o)] *)
Definition keys (o : obj) : list K := map fst (entries o).
End Object.

End Js.

Import Js.

Declare Scope exc_scope.
Delimit Scope exc_scope with exc.
Notation "x <- m ;; k" := (bind m (fun x => k))
  (at level 61, m at next level, right associativity) : exc_scope.
Notation "' p <- m ;; k" := (bind m (fun x => match x with p => k end))
  (at level 61, p pattern, m at next level, right associativity) : exc_scope.
Open Scope exc_scope.

(** ** Cards *)

(** [{ rank: 'A'|'2'|...|'K', suit: '♠'|'♥'|'♦'|'♣' }] *)
Inductive Rank : Type :=
| RA | R2 | R3 | R4 | R5 | R6 | R7 | R8 | R9 | R10 | RJ | RQ | RK.

Inductive Suit : Type := Spades | Hearts | Diamonds | Clubs.

Record card : Type := { rank : Rank; suit : Suit }.

(** A card slot: a card, or [null]. *)
Definition slot := option card.

Definition RANKS : list Rank :=
  [RA; R2; R3; R4; R5; R6; R7; R8; R9; R10; RJ; RQ; RK].

Definition SUITS : list Suit := [Spades; Hearts; Diamonds; Clubs].

(** The string of a rank, as it stands in [RANKS]. *)
Definition rank_str (r : Rank) : jsstring :=
  match r with
  | RA => lit "A" | R2 => lit "2" | R3 => lit "3" | R4 => lit "4"
  | R5 => lit "5" | R6 => lit "6" | R7 => lit "7" | R8 => lit "8"
  | R9 => lit "9" | R10 => lit "10" | RJ => lit "J" | RQ => lit "Q"
  | RK => lit "K"
  end.

(** The string of a suit: one code unit, U+2660, U+2665, U+2666, U+2663. *)
Definition suit_str (s : Suit) : jsstring :=
  match s with
  | Spades => [9824] | Hearts => [9829] | Diamonds => [9830] | Clubs => [9827]
  end.

(** [===] on two rank strings, and on two suit strings. *)
Definition rank_eqb (r r' : Rank) : bool := str_eqb (rank_str r) (rank_str r').
Definition suit_eqb (s s' : Suit) : bool := str_eqb (suit_str s) (suit_str s').

(** [card.rank] and [card.suit] throw on [null]. *)
Definition get_rank (c : slot) : Exc Rank :=
  match c with Some c => Ok (rank c) | None => TypeError end.

Definition get_suit (c : slot) : Exc Suit :=
  match c with Some c => Ok (suit c) | None => TypeError end.

(** [getCardValue]: A = 1, 2-10 face value, J/Q/K = 10. *)
Definition getCardValue (c : slot) : Exc Z :=
  r <- get_rank c ;;
  if rank_eqb r RA then Ok 1
  else if existsb (rank_eqb r) [RJ; RQ; RK] then Ok 10
  else Ok (parseInt (rank_str r)).

(** [RANKS.includes(rank)] and [SUITS.includes(suit)], returning the member
    found. *)
Definition rank_of_str (s : jsstring) : option Rank :=
  List.find (fun r => str_eqb (rank_str r) s) RANKS.

Definition suit_of_str (s : jsstring) : option Suit :=
  List.find (fun u => str_eqb (suit_str u) s) SUITS.

(** [parseCard]; the argument [None] is a missing ([null] / [undefined])
    token, and the empty string is falsy too. *)
Definition parseCard (cardString : option jsstring) : slot :=
  match cardString with
  | None => None
  | Some [] => None
  | Some s =>
      let suit := slice s (-1) None in
      let rank := slice s 0 (Some (-1)) in
      match rank_of_str rank, suit_of_str suit with
      | Some r, Some u => Some {| rank := r; suit := u |}
      | _, _ => None
      end
  end.

(** [formatCard] *)
Definition formatCard (c : slot) : jsstring :=
  match c with
  | None => []
  | Some c => rank_str (rank c) ++ suit_str (suit c)
  end.

(** ** The five evaluators *)

(** An element of an array of slots: [undefined] (outside the array) and
    [null] are both the absent card. *)
Definition slot_at (a : list slot) (i : Z) : slot :=
  match index a i with Some c => c | None => None end.

Record FifteensReport : Type :=
  { fifteens_points : Z; combinations : list (list jsstring) }.

(** Body of the inner loop of [scoreFifteens]: card [i] joins the
    combination when bit [i] of [mask] is set. *)
Definition combo_step (cards : list slot) (mask : Z) (st : list slot * Z) (i : Z)
  : Exc (list slot * Z) :=
  let '(combo, sum) := st in
  if band mask (shl 1 i) =? 0 then Ok (combo, sum)
  else
    v <- getCardValue (slot_at cards i) ;;
    Ok (combo ++ [slot_at cards i], sum + v).

(** Body of the outer loop of [scoreFifteens]: one subset of the cards. *)
Definition mask_step (cards : list slot) (st : Z * list (list jsstring)) (mask : Z)
  : Exc (Z * list (list jsstring)) :=
  let n := Z.of_nat (length cards) in
  let '(totalPoints, combinations) := st in
  '(combo, sum) <- foldM (combo_step cards mask) (range 0 n) ([], 0) ;;
  if sum =? 15
  then Ok (totalPoints + 2, combinations ++ [map formatCard combo])
  else Ok (totalPoints, combinations).

(** [scoreFifteens]: all combinations that sum to 15. *)
Definition scoreFifteens (cards : list slot) : Exc FifteensReport :=
  let n := Z.of_nat (length cards) in
  '(totalPoints, combinations) <-
    foldM (mask_step cards) (range 1 (shl 1 n)) (0, []) ;;
  Ok {| fifteens_points := totalPoints; combinations := combinations |}.

Record PairsReport : Type :=
  { pairs_points : Z; pairs_list : list jsstring }.

(** The rank strings that are array indices: '2' to '10'. *)
Definition rank_index (r : Rank) : option Z :=
  if existsb (rank_eqb r) [RA; RJ; RQ; RK] then None
  else Some (parseInt (rank_str r)).

(** [x || d] on a possibly undefined number. *)
Definition or_default (x : option Z) (d : Z) : Z :=
  match x with
  | Some n => if n =? 0 then d else n
  | None => d
  end.

(** One step of the loop over [Object.entries(rankCounts)]. *)
Definition pairs_step (st : Z * list jsstring) (e : Rank * Z) : Z * list jsstring :=
  let '(totalPoints, pairs) := st in
  let '(rank, count) := e in
  if count >=? 2 then
    let '(points, pairs) :=
      if count =? 2 then
        (2, pairs ++ [lit "Pair of " ++ rank_str rank ++ lit "s"])
      else if count =? 3 then
        (6, pairs ++ [lit "Three " ++ rank_str rank ++ lit "s"])
      else if count =? 4 then
        (12, pairs ++ [lit "Four " ++ rank_str rank ++ lit "s"])
      else (0, pairs) in
    (totalPoints + points, pairs)
  else (totalPoints, pairs).

(** Body of the counting loop of [scorePairs]:
    [rankCounts[card.rank] = (rankCounts[card.rank] || 0) + 1]. *)
Definition count_step (rankCounts : list (Rank * Z)) (card : slot)
  : Exc (list (Rank * Z)) :=
  r <- get_rank card ;;
  Ok (set rank_eqb rankCounts r
        (or_default (get rank_eqb rankCounts r) 0 + 1)).

(** [scorePairs]: 2 for a pair, 6 for three of a kind, 12 for four. *)
Definition scorePairs (cards : list slot) : Exc PairsReport :=
  rankCounts <- foldM count_step cards [] ;;
  let '(totalPoints, pairs) :=
    fold_left pairs_step (entries rank_index rankCounts) (0, []) in
  Ok {| pairs_points := totalPoints; pairs_list := pairs |}.

(** [getNumericRank]: A = 1, 2-10 face value, J = 11, Q = 12, K = 13. *)
Definition getNumericRank (c : slot) : Exc Z :=
  r <- get_rank c ;;
  if rank_eqb r RA then Ok 1
  else if rank_eqb r RJ then Ok 11
  else if rank_eqb r RQ then Ok 12
  else if rank_eqb r RK then Ok 13
  else Ok (parseInt (rank_str r)).

Record BestRun : Type :=
  { best_length : Z; best_multiplier : Z; best_ranks : list Z }.

Record Run : Type :=
  { run_length : Z; run_multiplier : Z; run_cards : list jsstring }.

Record RunsReport : Type :=
  { runs_points : Z; runs_list : list Run }.

(** The keys of [rankGroups] are the numeric ranks; written as strings they
    are array indices, and [Number] reads them back. *)
Definition num_index (k : Z) : option Z := if 0 <=? k then Some k else None.

(** [rankGroups[rank].length], [...rankGroups[rank]]: throws when the group
    is [undefined]. *)
Definition group_of (rankGroups : list (Z * list slot)) (rank : option Z)
  : Exc (list slot) :=
  match rank with
  | Some rank =>
      match get Z.eqb rankGroups rank with
      | Some g => Ok g
      | None => TypeError
      end
  | None => TypeError
  end.

(** [ranks[i + len - 1] === ranks[i] + (len - 1)] *)
Definition window (len : Z) (ranks : list Z) (i : Z) : bool :=
  match index ranks (i + (len - 1)), index ranks i with
  | Some hi, Some lo => hi =? lo + (len - 1)
  | _, _ => false
  end.

(** Body of the loop over [j] that multiplies the sizes of the groups of
    the window that starts at [i]. *)
Definition mult_step (ranks : list Z) (rankGroups : list (Z * list slot)) (i : Z)
  (st : Z * list Z) (j : Z) : Exc (Z * list Z) :=
  let '(multiplier, runRanks) := st in
  let rank := index ranks (i + j) in
  g <- group_of rankGroups rank ;;
  Ok (multiplier * Z.of_nat (length g),
      runRanks ++ match rank with Some r => [r] | None => [] end).

Definition multiplier_of (len : Z) (ranks : list Z)
  (rankGroups : list (Z * list slot)) (i : Z) : Exc (Z * list Z) :=
  foldM (mult_step ranks rankGroups i) (range 0 len) (1, []).

(** Body of the loop over the windows of [len] ranks. *)
Definition pass_step (len : Z) (ranks : list Z) (rankGroups : list (Z * list slot))
  (st : option BestRun * Z) (i : Z) : Exc (option BestRun * Z) :=
  let '(bestRun, bestLength) := st in
  if window len ranks i then
    '(multiplier, runRanks) <- multiplier_of len ranks rankGroups i ;;
    if len >? bestLength
    then Ok (Some {| best_length := len; best_multiplier := multiplier;
                     best_ranks := runRanks |}, len)
    else Ok (bestRun, bestLength)
  else Ok (bestRun, bestLength).

(** The loop that looks for runs of [len] (5, 4, 3 in the source, written
    out three times). *)
Definition run_pass (len : Z) (ranks : list Z) (rankGroups : list (Z * list slot))
  (st : option BestRun * Z) : Exc (option BestRun * Z) :=
  foldM (pass_step len ranks rankGroups)
    (range 0 (Z.of_nat (length ranks) - len + 1)) st.

(** [runCards.push(...rankGroups[rank])] *)
Definition collect_step (rankGroups : list (Z * list slot))
  (runCards : list slot) (rank : Z) : Exc (list slot) :=
  g <- group_of rankGroups (Some rank) ;;
  Ok (runCards ++ g).

(** The report built from the best run. *)
Definition report_run (rankGroups : list (Z * list slot)) (bestRun : BestRun)
  : Exc RunsReport :=
  runCards <- foldM (collect_step rankGroups) (best_ranks bestRun) [] ;;
  let totalPoints := best_length bestRun * best_multiplier bestRun in
  Ok {| runs_points := totalPoints;
        runs_list := [ {| run_length := best_length bestRun;
                          run_multiplier := best_multiplier bestRun;
                          run_cards := map formatCard runCards |} ] |}.

(** The part of [scoreRuns] after [ranks] is computed. *)
Definition longest_run (ranks : list Z) (rankGroups : list (Z * list slot))
  : Exc RunsReport :=
  let st : option BestRun * Z := (None, 0) in
  st <- (if Z.of_nat (length ranks) >=? 5
         then run_pass 5 ranks rankGroups st else Ok st) ;;
  st <- (if (snd st <? 4) && (Z.of_nat (length ranks) >=? 4)
         then run_pass 4 ranks rankGroups st else Ok st) ;;
  st <- (if (snd st <? 3) && (Z.of_nat (length ranks) >=? 3)
         then run_pass 3 ranks rankGroups st else Ok st) ;;
  match fst st with
  | None => Ok {| runs_points := 0; runs_list := [] |}
  | Some bestRun => report_run rankGroups bestRun
  end.

(** The grouping loop of [scoreRuns]. *)
Definition group_step (rankGroups : list (Z * list slot)) (card : slot)
  : Exc (list (Z * list slot)) :=
  rank <- getNumericRank card ;;
  let rankGroups :=
    match get Z.eqb rankGroups rank with
    | None => set Z.eqb rankGroups rank []
    | Some _ => rankGroups
    end in
  g <- group_of rankGroups (Some rank) ;;
  Ok (set Z.eqb rankGroups rank (g ++ [card])).

(** [scoreRuns]: the longest run, multiplied by the duplicates. *)
Definition scoreRuns (cards : list slot) : Exc RunsReport :=
  if Z.of_nat (length cards) <? 3
  then Ok {| runs_points := 0; runs_list := [] |}
  else
    rankGroups <- foldM group_step cards [] ;;
    let ranks := sort_by (fun a => a) (keys num_index rankGroups) in
    longest_run ranks rankGroups.

Record FlushReport : Type := { flush_points : Z }.

(** [cutCard && cutCard.suit === firstSuit] *)
Definition cut_matches (cutCard : slot) (firstSuit : Suit) : bool :=
  match cutCard with
  | Some c => suit_eqb (suit c) firstSuit
  | None => false
  end.

(** [scoreFlush]: hand flush = 4, with the cut matching = 5, a crib flush
    requires all 5. *)
Definition scoreFlush (cards : list slot) (isCrib : bool) : Exc FlushReport :=
  if Z.of_nat (length cards) <? 4 then Ok {| flush_points := 0 |}
  else
    let handCards := slice cards 0 (Some 4) in
    let cutCard := slot_at cards 4 in
    firstSuit <- get_suit (slot_at handCards 0) ;;
    isHandFlush <-
      every (fun card => s <- get_suit card ;; Ok (suit_eqb s firstSuit))
        handCards ;;
    if negb isHandFlush then Ok {| flush_points := 0 |}
    else if isCrib then
      if cut_matches cutCard firstSuit then Ok {| flush_points := 5 |}
      else Ok {| flush_points := 0 |}
    else if cut_matches cutCard firstSuit then Ok {| flush_points := 5 |}
    else Ok {| flush_points := 4 |}.

Record NobsReport : Type :=
  { nobs_points : Z; nobs_card : option jsstring }.

(** [scoreNobs]: a jack in hand matching the cut suit = 1 point. *)
Definition scoreNobs (cards : list slot) : Exc NobsReport :=
  if Z.of_nat (length cards) <? 5
  then Ok {| nobs_points := 0; nobs_card := None |}
  else
    let handCards := slice cards 0 (Some 4) in
    match slot_at cards 4 with
    | None => Ok {| nobs_points := 0; nobs_card := None |}
    | Some cutCard =>
        jackInHand <-
          find (fun card => r <- get_rank card ;; Ok (rank_eqb r RJ))
            handCards ;;
        match jackInHand with
        | Some (Some jack) =>
            if suit_eqb (suit jack) (suit cutCard)
            then Ok {| nobs_points := 1;
                       nobs_card := Some (formatCard (Some jack)) |}
            else Ok {| nobs_points := 0; nobs_card := None |}
        | _ => Ok {| nobs_points := 0; nobs_card := None |}
        end
    end.

(** ** The main scoring function *)

Record HandReport : Type :=
  { total : Z;
    fifteens : FifteensReport;
    pairs : PairsReport;
    runs : RunsReport;
    flush : FlushReport;
    nobs : NobsReport }.

(** [!c] on a slot. *)
Definition absent (c : slot) : bool :=
  match c with None => true | Some _ => false end.

(** [scoreHand]; [cards = None] is a missing argument, and the result
    [Ok None] is the [null] the function returns for a hand it does not
    score. *)
Definition scoreHand (cards : option (list slot)) (isCrib : bool)
  : Exc (option HandReport) :=
  match cards with
  | None => Ok None
  | Some cards =>
      if negb (Z.of_nat (length cards) =? 5) || some absent cards then Ok None
      else
        fifteens <- scoreFifteens cards ;;
        pairs <- scorePairs cards ;;
        runs <- scoreRuns cards ;;
        flush <- scoreFlush cards isCrib ;;
        nobs <- scoreNobs cards ;;
        let total :=
          fifteens_points fifteens + pairs_points pairs + runs_points runs
          + flush_points flush + nobs_points nobs in
        Ok (Some {| total := total; fifteens := fifteens; pairs := pairs;
                    runs := runs; flush := flush; nobs := nobs |})
  end.

(** ** Arrays with holes

    The evaluators take their arrays as lists of slots: every index below
    the length holds an element.  A JavaScript array may also have holes
    ([new Array(5)], [[a, b, c, d, ,]]): indices below its length that hold
    no element.  Reading a hole gives [undefined]; [some] does not visit
    it. *)
Module Sparse.

(** An index below the length of an array: a hole, or an element. *)
Inductive Cell : Type :=
| Hole
| Elem (c : slot).

(** [a[i]] at an index below the length. *)
Definition read (x : Cell) : slot :=
  match x with
  | Hole => None
  | Elem c => c
  end.

(** [a.some(p)]: the holes are skipped. *)
Definition some (p : slot -> bool) (a : list Cell) : bool :=
  existsb (fun x => match x with Hole => false | Elem c => p c end) a.

(** [scoreHand] on an array that may have holes.  [scoreFifteens] uses
    [cards.length] and [cards[i]] only, so that it takes the array as the
    list of what its indices read.  Past the guard the array has 5 indices,
    and [scoreFifteens] reads each of them (the mask [1 << i] reads index
    [i]) and throws on [undefined]: when it returns, the array has no hole
    (lemma [scoreFifteens_reads_holes]), and the evaluators after it get
    the list of its elements. *)
Definition scoreHand (cards : option (list Cell)) (isCrib : bool)
  : Exc (option HandReport) :=
  match cards with
  | None => Ok None
  | Some cards =>
      if negb (Z.of_nat (length cards) =? 5) || some absent cards then Ok None
      else
        fifteens <- scoreFifteens (map read cards) ;;
        pairs <- scorePairs (map read cards) ;;
        runs <- scoreRuns (map read cards) ;;
        flush <- scoreFlush (map read cards) isCrib ;;
        nobs <- scoreNobs (map read cards) ;;
        let total :=
          fifteens_points fifteens + pairs_points pairs + runs_points runs
          + flush_points flush + nobs_points nobs in
        Ok (Some {| total := total; fifteens := fifteens; pairs := pairs;
                    runs := runs; flush := flush; nobs := nobs |})
  end.

End Sparse.

(** ** Test hands of the source *)

Definition card_of (r : Rank) (s : Suit) : card := {| rank := r; suit := s |}.
Definition mk (r : Rank) (s : Suit) : slot := Some (card_of r s).

Definition test1 : list slot :=
  [mk R5 Spades; mk R5 Hearts; mk R5 Diamonds; mk RJ Clubs; mk R5 Clubs].
Definition test2 : list slot :=
  [mk R3 Spades; mk R3 Hearts; mk R4 Spades; mk R5 Spades; mk R6 Spades].
Definition test3 : list slot :=
  [mk R3 Spades; mk R3 Hearts; mk R3 Diamonds; mk R4 Spades; mk R5 Spades].
Definition test5 : list slot :=
  [mk RA Spades; mk R2 Spades; mk R3 Spades; mk R4 Spades; mk R5 Hearts].

(** The array [[5♠, 5♥, 5♦, J♣, ,]]: four cards and a hole, length 5. *)
Definition hole_at_cut : list Sparse.Cell :=
  [Sparse.Elem (mk R5 Spades); Sparse.Elem (mk R5 Hearts);
   Sparse.Elem (mk R5 Diamonds); Sparse.Elem (mk RJ Clubs); Sparse.Hole].

(** The hand of five present cards. *)
Definition hand (c0 c1 c2 c3 c4 : card) : list slot :=
  [Some c0; Some c1; Some c2; Some c3; Some c4].

(** ** Specification-side notions *)

(** fifteenValue: A = 1, 2..10 = face, J/Q/K = 10. *)
Definition fifteenValue (r : Rank) : Z :=
  match r with
  | RA => 1 | R2 => 2 | R3 => 3 | R4 => 4 | R5 => 5 | R6 => 6 | R7 => 7
  | R8 => 8 | R9 => 9 | R10 => 10 | RJ => 10 | RQ => 10 | RK => 10
  end.

(** sequenceValue: A = 1, ..., 10 = 10, J = 11, Q = 12, K = 13. *)
Definition sequenceValue (r : Rank) : Z :=
  match r with
  | RA => 1 | R2 => 2 | R3 => 3 | R4 => 4 | R5 => 5 | R6 => 6 | R7 => 7
  | R8 => 8 | R9 => 9 | R10 => 10 | RJ => 11 | RQ => 12 | RK => 13
  end.

(** The rank part and the suit part of a token. *)
Definition rank_part (token : jsstring) : jsstring := slice token 0 (Some (-1)).
Definition suit_part (token : jsstring) : jsstring := slice token (-1) None.

(** The subsets of a list, as sublists; the subsets of the tail come in the
    same order, each followed by itself with the head added. *)
Fixpoint subsets {A : Type} (l : list A) : list (list A) :=
  match l with
  | [] => [[]]
  | x :: l' => flat_map (fun s => [s; x :: s]) (subsets l')
  end.

Definition nonempty {A : Type} (s : list A) : bool :=
  match s with [] => false | _ :: _ => true end.

Definition nonempty_subsets {A : Type} (l : list A) : list (list A) :=
  filter nonempty (subsets l).

Definition zsum (l : list Z) : Z := fold_right Z.add 0 l.

(** Sum of the fifteenValues of a set of cards. *)
Definition fifteen_sum (s : list card) : Z :=
  zsum (map (fun c => fifteenValue (rank c)) s).

(** The subsets that sum to 15, in the order in which the source visits
    them. *)
Definition fifteen_subsets (cs : list card) : list (list card) :=
  filter (fun s => fifteen_sum s =? 15) (nonempty_subsets cs).

(** Number of non-empty subsets of the cards whose sum is exactly 15. *)
Definition count_fifteens (cs : list card) : Z :=
  Z.of_nat (length (fifteen_subsets cs)).

(** The elements of [l] selected by the bits [k], [k+1], ... of [mask]. *)
Fixpoint pick_from {A : Type} (mask k : Z) (l : list A) : list A :=
  match l with
  | [] => []
  | x :: l' =>
      if Z.testbit mask k then x :: pick_from mask (k + 1) l'
      else pick_from mask (k + 1) l'
  end.

(** The qualifying masks among a list of masks. *)
Definition fifteen_masks (cs : list card) (masks : list Z) : list Z :=
  filter (fun mask => fifteen_sum (pick_from mask 0 cs) =? 15) masks.

(** Number of cards of rank [r]. *)
Definition rank_count (r : Rank) (cs : list card) : Z :=
  Z.of_nat (length (filter (fun c => rank_eqb (rank c) r) cs)).

(** Points of a rank that appears [k] times: 0, 0, 2, 6, 12 for
    k = 0, 1, 2, 3, 4.  (A rank can appear 5 times only when a card is
    repeated; no label and no points are given then.) *)
Definition pair_table (k : Z) : Z :=
  match k with
  | 2 => 2
  | 3 => 6
  | 4 => 12
  | _ => 0
  end.

(** The dictionary [o] holds the rank counts of the cards [cs]. *)
Definition counts_ok (o : list (Rank * Z)) (cs : list card) : Prop :=
  NoDup (map fst o) /\
  forall r, get rank_eqb o r
            = if rank_count r cs =? 0 then None else Some (rank_count r cs).

(** The sequence values of the cards. *)
Definition seq_values (cs : list card) : list Z :=
  map (fun c => sequenceValue (rank c)) cs.

(** The cards whose sequence value is [v], in the order of the hand. *)
Definition value_group (v : Z) (cs : list card) : list card :=
  filter (fun c => sequenceValue (rank c) =? v) cs.

(** Number of cards whose sequence value is [v]. *)
Definition value_count (v : Z) (cs : list card) : Z :=
  Z.of_nat (length (value_group v cs)).

(** The values [s], [s+1], ..., [s+L-1] all occur among the cards: a run of
    [L] consecutive distinct sequence values that starts at [s]. *)
Definition is_run (cs : list card) (s L : Z) : Prop :=
  forall k, 0 <= k < L -> In (s + k) (seq_values cs).

(** Product of the duplicate counts of the values of the run. *)
Definition run_product (cs : list card) (s L : Z) : Z :=
  fold_right Z.mul 1 (map (fun k => value_count (s + k) cs) (range 0 L)).

(** The dictionary [o] holds the groups of the cards [cs]. *)
Definition groups_ok (o : list (Z * list slot)) (cs : list card) : Prop :=
  NoDup (map fst o) /\
  forall v, get Z.eqb o v
            = match value_group v cs with
              | [] => None
              | g => Some (map Some g)
              end.

(** The report of a run of [L] values that starts at [s]: [L] times the
    product of the duplicate counts, and the cards of the run. *)
Definition run_report (cs : list card) (s L : Z) : RunsReport :=
  {| runs_points := L * run_product cs s L;
     runs_list :=
       [ {| run_length := L;
            run_multiplier := run_product cs s L;
            run_cards :=
              map formatCard
                (flat_map (fun k => map Some (value_group (s + k) cs))
                   (range 0 L)) |} ] |}.

Definition no_run_report : RunsReport := {| runs_points := 0; runs_list := [] |}.

(** The first window of [len] consecutive ranks, as the loop finds it. *)
Definition first_window (len : Z) (ranks : list Z) : option Z :=
  if Z.of_nat (length ranks) >=? len
  then List.find (window len ranks) (range 0 (Z.of_nat (length ranks) - len + 1))
  else None.

(** What [longest_run] reports for the window of [len] ranks at [i]. *)
Definition report_window (len : Z) (ranks : list Z)
  (rankGroups : list (Z * list slot)) (i : Z) : Exc RunsReport :=
  '(multiplier, runRanks) <- multiplier_of len ranks rankGroups i ;;
  report_run rankGroups
    {| best_length := len; best_multiplier := multiplier;
       best_ranks := runRanks |}.

(** What the runs evaluator may report for the cards [cs]: nothing, when no
    three consecutive sequence values occur; otherwise a run of the greatest
    length [L] that occurs. *)
Definition run_outcome (cs : list card) (rep : RunsReport) : Prop :=
  (rep = no_run_report /\ forall s, ~ is_run cs s 3) \/
  (exists s L, 3 <= L /\ is_run cs s L /\ (forall s', ~ is_run cs s' (L + 1)) /\
               rep = run_report cs s L).

(** The first Jack among the hand cards, which is the one [find] returns. *)
Definition first_jack (handCards : list card) : option card :=
  List.find (fun c => rank_eqb (rank c) RJ) handCards.

(** The nobs report as the source computes it: only the first Jack of the
    hand is compared with the cut card. *)
Definition nobs_of (handCards : list card) (cutCard : card) : NobsReport :=
  match first_jack handCards with
  | Some jack =>
      if suit_eqb (suit jack) (suit cutCard)
      then {| nobs_points := 1; nobs_card := Some (formatCard (Some jack)) |}
      else {| nobs_points := 0; nobs_card := None |}
  | None => {| nobs_points := 0; nobs_card := None |}
  end.

(** The four hand cards share one suit. *)
Definition hand_flush (c0 c1 c2 c3 : card) : Prop :=
  suit c1 = suit c0 /\ suit c2 = suit c0 /\ suit c3 = suit c0.

(** An input that [scoreHand] does not score: missing, not of length 5, or
    with an absent slot. *)
Definition not_scorable (input : option (list slot)) : Prop :=
  match input with
  | None => True
  | Some cards => length cards <> 5%nat \/ In None cards
  end.

(** An array, possibly with holes, that the guard of [scoreHand] rejects:
    missing, not of length 5, or with a [null] element. *)
Definition rejected (input : option (list Sparse.Cell)) : Prop :=
  match input with
  | None => True
  | Some cards => length cards <> 5%nat \/ In (Sparse.Elem None) cards
  end.

(** An array of length 5 with a hole and without a [null] element. *)
Definition holed (input : option (list Sparse.Cell)) : Prop :=
  exists cards,
    input = Some cards /\ length cards = 5%nat /\
    ~ In (Sparse.Elem None) cards /\ In Sparse.Hole cards.

(** An array of five cards, without holes. *)
Definition complete (input : option (list Sparse.Cell)) : Prop :=
  exists c0 c1 c2 c3 c4,
    input = Some (map Sparse.Elem (hand c0 c1 c2 c3 c4)).

(** The hand with which the source's nobs evaluator overlooks a Jack:
    J♠ J♥ 2♣ 3♣, cut 4♥. *)
Definition two_jacks : list slot :=
  [mk RJ Spades; mk RJ Hearts; mk R2 Clubs; mk R3 Clubs; mk R4 Hearts].

(** A selection in progress: the first slot is still empty. *)
Definition first_missing : list slot :=
  [None; mk R5 Hearts; mk R5 Diamonds; mk RJ Clubs; mk R5 Clubs].

(** The cards of the double-run test of the source, 3♠ 3♥ 4♠ 5♠ 6♠. *)
Definition double_run : list card :=
  [card_of R3 Spades; card_of R3 Hearts; card_of R4 Spades; card_of R5 Spades;
   card_of R6 Spades].

(** * The rest of the program *)

(** ** The deck *)

(** [DECK]: for each rank, for each suit, the card is pushed. *)
Definition DECK : list card :=
  fold_left
    (fun deck rank =>
       fold_left (fun deck suit => deck ++ [ {| rank := rank; suit := suit |} ])
         SUITS deck)
    RANKS [].

(** The strings of a list are pairwise different. *)
Fixpoint distinct_tokens (l : list jsstring) : bool :=
  match l with
  | [] => true
  | x :: l' => negb (existsb (str_eqb x) l') && distinct_tokens l'
  end.

(** [s] is a subsequence of [l]: some of the elements of [l], in their
    order. *)
Inductive Subseq {A : Type} : list A -> list A -> Prop :=
| Subseq_nil : Subseq [] []
| Subseq_skip (x : A) (s l : list A) : Subseq s l -> Subseq s (x :: l)
| Subseq_take (x : A) (s l : list A) : Subseq s l -> Subseq (x :: s) (x :: l).

(** The label of a rank held [k] times, if any. *)
Definition pair_label (r : Rank) (k : Z) : list jsstring :=
  if k =? 2 then [lit "Pair of " ++ rank_str r ++ lit "s"]
  else if k =? 3 then [lit "Three " ++ rank_str r ++ lit "s"]
  else if k =? 4 then [lit "Four " ++ rank_str r ++ lit "s"]
  else [].

(** Thirty-one fives of spades. *)
Definition thirty_one_fives : list slot := repeat (mk R5 Spades) 31.

(** Number of subsequences of the cards whose fifteen-values sum to [t]. *)
Definition count_sum (t : Z) (l : list card) : nat :=
  length (filter (fun s => fifteen_sum s =? t) (subsets l)).

(** ** The page

    The interface part of the program keeps the selection in the global
    [selectedCards] and writes to the document.  The document is modelled by
    the parts of it that the program reads or writes: the children of
    [#deckGrid], the [.card-slot] elements, the texts shown in
    [#handDisplay], [#cutDisplay] and [#totalScore], the content of
    [#scoreBreakdown], the value of the checked mode radio, and the classes
    [no-blur] (on [.container]) and [mondor-state] (on [body]).  The
    elements that the program looks up by id are taken to exist. *)

From Stdlib Require DecimalString.

(** [String(n)] for an integer [n]. *)
Definition num_str (n : Z) : jsstring :=
  lit (DecimalString.NilZero.string_of_int (Z.to_int n)).

(** [a.join(sep)] on an array of strings. *)
Fixpoint join (sep : jsstring) (a : list jsstring) : jsstring :=
  match a with
  | [] => []
  | x :: a' =>
      match a' with
      | [] => x
      | _ :: _ => x ++ sep ++ join sep a'
      end
  end.

(** [a.forEach((x, index) => ...)] building one result for each element;
    [i] is the index of the first element. *)
Fixpoint map_index {A B : Type} (f : Z -> A -> B) (i : Z) (l : list A) : list B :=
  match l with
  | [] => []
  | x :: l' => f i x :: map_index f (i + 1) l'
  end.

(** [a[i] = v] on an array of slots.  A negative [i] names a property that
    is not an element, and the elements stay as they are; past the end the
    array grows, and the slots in between are holes, which read as
    [undefined]. *)
Definition store (a : list slot) (i : Z) (v : slot) : list slot :=
  if i <? 0 then a
  else if i <? Z.of_nat (length a)
  then firstn (Z.to_nat i) a ++ v :: skipn (S (Z.to_nat i)) a
  else a ++ repeat None (Z.to_nat i - length a) ++ [v].

(** A child of [#deckGrid]: a suit header (its text, and whether its class
    is [red] rather than [black]), or a deck card: [dataset.card], the
    class [red] rather than [black], the texts of its rank and suit
    children, the card that its click listener passes to
    [handleCardClick], and whether it has the class [disabled]. *)
Inductive GridEl : Type :=
| SuitHeader (text : jsstring) (red : bool)
| DeckCard (token : jsstring) (red : bool) (rankText suitText : jsstring)
    (card : card) (disabled : bool).

(** The content of a [.card-slot] element after [updateSlots]: the card
    display with its text, and the remove button, whose listener calls
    [removeCardFromSlot(index)]; or the placeholder with its text. *)
Inductive SlotContent : Type :=
| CardDisplay (text : jsstring) (removeIndex : Z)
| SlotPlaceholder (text : jsstring).

(** A [.card-slot] element: whether it has the class [selected], and its
    content. *)
Record SlotEl : Type := { slot_selected : bool; slot_content : SlotContent }.

(** An element made by [createBreakdownItem]: the texts of its label and
    details, and, when it has an [.item-combos] child, the texts of the
    [<div>]s of that child. *)
Record Item : Type :=
  { item_label : jsstring;
    item_details : jsstring;
    item_combos : option (list jsstring) }.

(** The content of [#scoreBreakdown]: the message that asks for 5 cards,
    the message for a hand of 0 points (two constant [innerHTML] strings of
    the source), or the items appended. *)
Inductive Breakdown : Type :=
| SelectAllMessage
| MondorMessage
| Children (items : list Item).

Record Page : Type :=
  { selectedCards : list slot;
    deckGrid : list GridEl;
    cardSlots : list SlotEl;
    handDisplay : list jsstring;
    cutDisplay : list jsstring;
    modeValue : option jsstring;
    noBlur : bool;
    mondorState : bool;
    totalScore : jsstring;
    scoreBreakdown : Breakdown }.

Definition set_selectedCards (p : Page) (v : list slot) : Page :=
  {| selectedCards := v; deckGrid := deckGrid p; cardSlots := cardSlots p;
     handDisplay := handDisplay p; cutDisplay := cutDisplay p;
     modeValue := modeValue p; noBlur := noBlur p;
     mondorState := mondorState p; totalScore := totalScore p;
     scoreBreakdown := scoreBreakdown p |}.

Definition set_deckGrid (p : Page) (v : list GridEl) : Page :=
  {| selectedCards := selectedCards p; deckGrid := v; cardSlots := cardSlots p;
     handDisplay := handDisplay p; cutDisplay := cutDisplay p;
     modeValue := modeValue p; noBlur := noBlur p;
     mondorState := mondorState p; totalScore := totalScore p;
     scoreBreakdown := scoreBreakdown p |}.

Definition set_cardSlots (p : Page) (v : list SlotEl) : Page :=
  {| selectedCards := selectedCards p; deckGrid := deckGrid p; cardSlots := v;
     handDisplay := handDisplay p; cutDisplay := cutDisplay p;
     modeValue := modeValue p; noBlur := noBlur p;
     mondorState := mondorState p; totalScore := totalScore p;
     scoreBreakdown := scoreBreakdown p |}.

Definition set_displays (p : Page) (hand cut : list jsstring) : Page :=
  {| selectedCards := selectedCards p; deckGrid := deckGrid p;
     cardSlots := cardSlots p; handDisplay := hand; cutDisplay := cut;
     modeValue := modeValue p; noBlur := noBlur p;
     mondorState := mondorState p; totalScore := totalScore p;
     scoreBreakdown := scoreBreakdown p |}.

Definition set_modeValue (p : Page) (v : option jsstring) : Page :=
  {| selectedCards := selectedCards p; deckGrid := deckGrid p;
     cardSlots := cardSlots p; handDisplay := handDisplay p;
     cutDisplay := cutDisplay p; modeValue := v; noBlur := noBlur p;
     mondorState := mondorState p; totalScore := totalScore p;
     scoreBreakdown := scoreBreakdown p |}.

(** Both classes are always added or removed together. *)
Definition set_classes (p : Page) (v : bool) : Page :=
  {| selectedCards := selectedCards p; deckGrid := deckGrid p;
     cardSlots := cardSlots p; handDisplay := handDisplay p;
     cutDisplay := cutDisplay p; modeValue := modeValue p; noBlur := v;
     mondorState := v; totalScore := totalScore p;
     scoreBreakdown := scoreBreakdown p |}.

Definition set_totalScore (p : Page) (v : jsstring) : Page :=
  {| selectedCards := selectedCards p; deckGrid := deckGrid p;
     cardSlots := cardSlots p; handDisplay := handDisplay p;
     cutDisplay := cutDisplay p; modeValue := modeValue p; noBlur := noBlur p;
     mondorState := mondorState p; totalScore := v;
     scoreBreakdown := scoreBreakdown p |}.

Definition set_scoreBreakdown (p : Page) (v : Breakdown) : Page :=
  {| selectedCards := selectedCards p; deckGrid := deckGrid p;
     cardSlots := cardSlots p; handDisplay := handDisplay p;
     cutDisplay := cutDisplay p; modeValue := modeValue p; noBlur := noBlur p;
     mondorState := mondorState p; totalScore := totalScore p;
     scoreBreakdown := v |}.

(** [new Set(selectedCards.filter(c => c).map(formatCard))] and its [has]. *)
Definition usedCards (selected : list slot) : list jsstring :=
  map formatCard (filter (fun c => negb (absent c)) selected).

Definition has (set : list jsstring) (x : jsstring) : bool :=
  existsb (str_eqb x) set.

(** [suit === '♥' || suit === '♦'] *)
Definition is_red (s : Suit) : bool := suit_eqb s Hearts || suit_eqb s Diamonds.

(** [updateAvailableCards]: a deck card is disabled when its token is the
    token of a selected card. *)
Definition updateAvailableCards (p : Page) : Page :=
  let used := usedCards (selectedCards p) in
  set_deckGrid p
    (map (fun el =>
            match el with
            | SuitHeader text red => SuitHeader text red
            | DeckCard token red rankText suitText card _ =>
                DeckCard token red rankText suitText card (has used token)
            end)
       (deckGrid p)).

(** [cardsBySuit[card.suit].push(card)] *)
Definition deal_step (cardsBySuit : list (Suit * list card)) (c : card)
  : Exc (list (Suit * list card)) :=
  match get suit_eqb cardsBySuit (suit c) with
  | Some cards => Ok (set suit_eqb cardsBySuit (suit c) (cards ++ [c]))
  | None => TypeError
  end.

(** The body of the loops over [RANKS] and [SUITS] of [initializeDeck]:
    the card of rank [r] and suit [s] gets its element. *)
Definition grid_step (cardsBySuit : list (Suit * list card)) (r : Rank)
  (grid : list GridEl) (s : Suit) : Exc (list GridEl) :=
  match get suit_eqb cardsBySuit s with
  | None => TypeError
  | Some cards =>
      match List.find (fun c => rank_eqb (rank c) r) cards with
      | Some card =>
          Ok (grid ++ [DeckCard (formatCard (Some card)) (is_red (suit card))
                         (rank_str (rank card)) (suit_str (suit card))
                         card false])
      | None => Ok grid
      end
  end.

(** The children that [initializeDeck] gives to the emptied grid: the cards
    of [DECK] are sorted by suit; the four suit headers come first, then
    the cards row by row, one card of each suit in a row. *)
Definition deck_grid : Exc (list GridEl) :=
  let cardsBySuit : list (Suit * list card) :=
    [(Spades, []); (Hearts, []); (Diamonds, []); (Clubs, [])] in
  cardsBySuit <- foldM deal_step DECK cardsBySuit ;;
  let headers := map (fun s => SuitHeader (suit_str s) (is_red s)) SUITS in
  foldM (fun grid r => foldM (grid_step cardsBySuit r) SUITS grid)
    RANKS headers.

(** [initializeDeck]; [updateAvailableCards] ends it. *)
Definition initializeDeck (p : Page) : Exc Page :=
  grid <- deck_grid ;;
  Ok (updateAvailableCards (set_deckGrid p grid)).

(** [updateSlots]: every slot element shows the card of its index, or its
    placeholder. *)
Definition updateSlots (p : Page) : Page :=
  set_cardSlots p
    (map_index
       (fun index (_ : SlotEl) =>
          match slot_at (selectedCards p) index with
          | Some card =>
              {| slot_selected := true;
                 slot_content := CardDisplay (formatCard (Some card)) index |}
          | None =>
              {| slot_selected := false;
                 slot_content :=
                   SlotPlaceholder
                     (if index <? 4 then lit "Card " ++ num_str (index + 1)
                      else lit "Cut Card") |}
          end)
       0 (cardSlots p)).

(** [createBreakdownItem].  [combinations] is [None] for the default
    [null]; the callers pass arrays of arrays of strings, for which
    [Array.isArray(combinations[0])] holds, so that each inner array gets a
    [<div>] with the text ["Run k: ..."]. *)
Definition createBreakdownItem (label details : jsstring)
  (combinations : option (list (list jsstring))) : Item :=
  {| item_label := label;
     item_details := details;
     item_combos :=
       match combinations with
       | Some (c :: cs) =>
           Some (map_index
                   (fun idx comboSet =>
                      lit "Run " ++ num_str (idx + 1) ++ lit ": "
                      ++ join (lit ", ") comboSet)
                   0 (c :: cs))
       | _ => None
       end |}.

(** The description of a run in the breakdown. *)
Definition run_description (run : Run) : jsstring :=
  if run_multiplier run >? 1
  then lit "Run of " ++ num_str (run_length run) ++ lit " ("
       ++ num_str (run_multiplier run) ++ lit "x multiplier)"
  else lit "Run of " ++ num_str (run_length run).

(** The items that [updateScore] appends to the breakdown, in order. *)
Definition breakdown_items (score : HandReport) (isCrib : bool) : list Item :=
  (if fifteens_points (fifteens score) >? 0
   then [createBreakdownItem
           (lit "Fifteens: " ++ num_str (fifteens_points (fifteens score))
            ++ lit " points")
           (num_str (Z.of_nat (length (combinations (fifteens score))))
            ++ lit " combination(s)")
           (Some (combinations (fifteens score)))]
   else [])
  ++ (if pairs_points (pairs score) >? 0
      then [createBreakdownItem
              (lit "Pairs: " ++ num_str (pairs_points (pairs score))
               ++ lit " points")
              (join (lit ", ") (pairs_list (pairs score)))
              None]
      else [])
  ++ (if runs_points (runs score) >? 0
      then [createBreakdownItem
              (lit "Runs: " ++ num_str (runs_points (runs score))
               ++ lit " points")
              (join (lit ", ") (map run_description (runs_list (runs score))))
              (Some (map run_cards (runs_list (runs score))))]
      else [])
  ++ (if flush_points (flush score) >? 0
      then [createBreakdownItem
              (lit "Flush: " ++ num_str (flush_points (flush score))
               ++ lit " points")
              (if isCrib then lit "All 5 cards same suit"
               else if flush_points (flush score) =? 5
                    then lit "Hand + cut same suit"
                    else lit "Hand flush")
              None]
      else [])
  ++ (if nobs_points (nobs score) >? 0
      then [createBreakdownItem
              (lit "Nobs: " ++ num_str (nobs_points (nobs score))
               ++ lit " point")
              (lit "Jack "
               ++ match nobs_card (nobs score) with
                  | Some card => card
                  | None => lit "undefined"
                  end
               ++ lit " matches cut suit")
              None]
      else []).

(** [updateScore].  It throws when no mode radio is checked. *)
Definition updateScore (p : Page) : Exc Page :=
  match modeValue p with
  | None => TypeError
  | Some value =>
      let isCrib := str_eqb value (lit "crib") in
      let allSelected := forallb (fun c => negb (absent c)) (selectedCards p) in
      if negb allSelected then
        Ok (set_classes
              (set_scoreBreakdown (set_totalScore p (lit "0")) SelectAllMessage)
              false)
      else
        score <- scoreHand (Some (selectedCards p)) isCrib ;;
        match score with
        | None => Ok (set_classes (set_totalScore p (lit "0")) false)
        | Some score =>
            let p := set_totalScore p (num_str (total score)) in
            let p := set_classes p (total score =? 0) in
            let p := set_scoreBreakdown p (Children (breakdown_items score isCrib)) in
            if total score =? 0
            then Ok (set_scoreBreakdown p MondorMessage)
            else Ok p
        end
  end.

(** The first part of [updateDisplay]: the hand display gets the tokens of
    the cards of the slots 0 to 3, the cut display the token of the card of
    slot 4. *)
Definition displayed (p : Page) : Page :=
  let shown (i : Z) : list jsstring :=
    match slot_at (selectedCards p) i with
    | Some card => [formatCard (Some card)]
    | None => []
    end in
  set_displays p (flat_map shown (range 0 4)) (shown 4).

(** [updateDisplay]: the displays, then the score. *)
Definition updateDisplay (p : Page) : Exc Page := updateScore (displayed p).

(** The first index [i] with [selectedCards[i] === null], or -1. *)
Fixpoint first_null (a : list slot) (i : Z) : Z :=
  match a with
  | [] => -1
  | None :: _ => i
  | Some _ :: a' => first_null a' (i + 1)
  end.

(** The three updates that end every change of the selection. *)
Definition refresh (p : Page) : Exc Page :=
  updateDisplay (updateAvailableCards (updateSlots p)).

(** [handleCardClick] *)
Definition handleCardClick (card : card) (p : Page) : Exc Page :=
  let cardValue := formatCard (Some card) in
  if has (usedCards (selectedCards p)) cardValue then Ok p
  else
    let slotIndex := first_null (selectedCards p) 0 in
    let slotIndex :=
      if slotIndex =? -1 then Z.of_nat (length (selectedCards p)) - 1
      else slotIndex in
    refresh (set_selectedCards p (store (selectedCards p) slotIndex (Some card))).

(** [removeCardFromSlot] *)
Definition removeCardFromSlot (index : Z) (p : Page) : Exc Page :=
  refresh (set_selectedCards p (store (selectedCards p) index None)).

(** [reset] *)
Definition reset (p : Page) : Exc Page :=
  refresh (set_classes (set_selectedCards p [None; None; None; None; None]) false).

(** The [DOMContentLoaded] listener: the deck and the slots are drawn. *)
Definition load (p : Page) : Exc Page :=
  p <- initializeDeck p ;;
  Ok (updateSlots p).

(** What the user does.  A deck card is clicked (its listener passes its
    card); a card is taken out of a slot, by the remove button of the slot
    or by a click on the slot, which both call [removeCardFromSlot] for a
    slot that holds a card; the reset button is clicked; a mode radio is
    checked. *)
Inductive Event : Type :=
| ClickCard (card : card)
| RemoveCard (index : Z)
| ClickReset
| ChangeMode (value : jsstring).

(** The listener that runs on an event.  [RemoveCard] has no listener to
    run when the slot holds no card. *)
Definition handle (e : Event) (p : Page) : Exc Page :=
  match e with
  | ClickCard card => handleCardClick card p
  | RemoveCard index =>
      match slot_at (selectedCards p) index with
      | Some _ => removeCardFromSlot index p
      | None => Ok p
      end
  | ClickReset => reset p
  | ChangeMode value => updateScore (set_modeValue p (Some value))
  end.

(** The page after a sequence of events. *)
Definition run (es : list Event) (p : Page) : Exc Page :=
  foldM (fun p e => handle e p) es p.

(** The element of a deck card that is not disabled. *)
Definition deck_card_el (c : card) : GridEl :=
  DeckCard (formatCard (Some c)) (is_red (suit c)) (rank_str (rank c))
    (suit_str (suit c)) c false.

(** The selection is made of 5 slots, and no card is in two of them. *)
Definition well_selected (selected : list slot) : Prop :=
  length selected = 5%nat /\
  forall i j c,
    nth_error selected i = Some (Some c) ->
    nth_error selected j = Some (Some c) -> i = j.

(** Every deck card of the grid carries the token of its card, and is
    disabled exactly when its card is selected. *)
Definition deck_shows (p : Page) : Prop :=
  forall token red rankText suitText c disabled,
    In (DeckCard token red rankText suitText c disabled) (deckGrid p) ->
    token = formatCard (Some c) /\
    (disabled = true <-> In (Some c) (selectedCards p)).

(** The slot elements, the hand display and the cut display show the
    selection. *)
Definition slots_show (p : Page) : Prop :=
  (forall k el,
      nth_error (cardSlots p) k = Some el ->
      match slot_at (selectedCards p) (Z.of_nat k) with
      | Some c =>
          slot_selected el = true /\
          slot_content el = CardDisplay (formatCard (Some c)) (Z.of_nat k)
      | None =>
          slot_selected el = false /\
          slot_content el
          = SlotPlaceholder
              (if (k <? 4)%nat
               then lit "Card " ++ num_str (Z.of_nat k + 1)
               else lit "Cut Card")
      end) /\
  handDisplay p
  = map formatCard (filter (fun c => negb (absent c)) (firstn 4 (selectedCards p))) /\
  cutDisplay p
  = map formatCard (filter (fun c => negb (absent c))
                      (firstn 1 (skipn 4 (selectedCards p)))).

(** What [updateScore] leaves alone. *)
Definition same_document (p p' : Page) : Prop :=
  selectedCards p' = selectedCards p /\ deckGrid p' = deckGrid p /\
  cardSlots p' = cardSlots p /\ handDisplay p' = handDisplay p /\
  cutDisplay p' = cutDisplay p /\ modeValue p' = modeValue p.

(** The page shows the score of the selection: "0" and the request for 5
    cards while a slot is empty; otherwise the total of [scoreHand], with
    the items of the rules that score, or the message and the classes of a
    hand worth nothing. *)
Definition score_shows (p : Page) : Prop :=
  exists value,
    modeValue p = Some value /\
    (In None (selectedCards p) ->
     totalScore p = lit "0" /\ scoreBreakdown p = SelectAllMessage /\
     noBlur p = false /\ mondorState p = false) /\
    (~ In None (selectedCards p) ->
     exists rep,
       scoreHand (Some (selectedCards p)) (str_eqb value (lit "crib"))
       = Ok (Some rep) /\
       totalScore p = num_str (total rep) /\
       noBlur p = (total rep =? 0) /\ mondorState p = (total rep =? 0) /\
       scoreBreakdown p
       = if total rep =? 0 then MondorMessage
         else Children (breakdown_items rep (str_eqb value (lit "crib")))).

(** The event runs the updates: it is not a click on a card that is
    selected already, nor on a slot without a card. *)
Definition effective (e : Event) (p : Page) : Prop :=
  match e with
  | ClickCard c => ~ In (Some c) (selectedCards p)
  | RemoveCard index => slot_at (selectedCards p) index <> None
  | ClickReset => True
  | ChangeMode _ => True
  end.

(** The event changes the selection (or resets it). *)
Definition selecting (e : Event) (p : Page) : Prop :=
  match e with
  | ChangeMode _ => False
  | _ => effective e p
  end.

(** The slot that [handleCardClick] fills: the first empty one, or the last
    one when none is empty. *)
Definition target_slot (selected : list slot) : Z :=
  let slotIndex := first_null selected 0 in
  if slotIndex =? -1 then Z.of_nat (length selected) - 1 else slotIndex.

(** The grid that [initializeDeck] draws: the four suit headers, then the
    52 cards in the order of [DECK]. *)
Definition deck_elements : list GridEl :=
  map (fun s => SuitHeader (suit_str s) (is_red s)) SUITS
  ++ map deck_card_el DECK.

(** The cards of the deck-card elements of a grid, in order. *)
Definition grid_cards (grid : list GridEl) : list card :=
  flat_map (fun el =>
              match el with
              | SuitHeader _ _ => []
              | DeckCard _ _ _ _ c _ => [c]
              end)
    grid.

(** What holds of the page whatever the user does: the selection has 5
    slots without a repeated card, a mode is checked, and the grid offers
    the cards of [DECK] and shows which of them are taken. *)
Definition page_ok (p : Page) : Prop :=
  modeValue p <> None /\ well_selected (selectedCards p) /\ deck_shows p /\
  grid_cards (deckGrid p) = DECK.


(** A document before the listeners run: nothing drawn, five slot elements,
    the mode [hand] checked; the selection is the initial value of
    [selectedCards]. *)
Definition blank_page : Page :=
  {| selectedCards := [None; None; None; None; None];
     deckGrid := [];
     cardSlots :=
       repeat {| slot_selected := false; slot_content := SlotPlaceholder [] |} 5;
     handDisplay := [];
     cutDisplay := [];
     modeValue := Some (lit "hand");
     noBlur := false;
     mondorState := false;
     totalScore := lit "0";
     scoreBreakdown := Children [] |}.

(** [blank_page] once the [DOMContentLoaded] listener has run. *)
Definition start_page : Page :=
  updateSlots (updateAvailableCards (set_deckGrid blank_page deck_elements)).

(** A grid without its [disabled] classes. *)
Definition grid_frame (grid : list GridEl) : list GridEl :=
  map (fun el =>
         match el with
         | SuitHeader text red => SuitHeader text red
         | DeckCard token red rankText suitText card _ =>
             DeckCard token red rankText suitText card false
         end)
    grid.

(** The selection and the checked mode after an event, read off the
    listeners. *)
Definition next_selection (e : Event) (selected : list slot) : list slot :=
  match e with
  | ClickCard c =>
      if has (usedCards selected) (formatCard (Some c)) then selected
      else store selected (target_slot selected) (Some c)
  | RemoveCard index =>
      match slot_at selected index with
      | Some _ => store selected index None
      | None => selected
      end
  | ClickReset => [None; None; None; None; None]
  | ChangeMode _ => selected
  end.

Definition next_mode (e : Event) (mode : option jsstring) : option jsstring :=
  match e with
  | ChangeMode value => Some value
  | _ => mode
  end.

(** [start_page] after a click on the reset button. *)
Definition ready_page : Page :=
  Eval vm_compute in
    match reset start_page with
    | Ok p => p
    | TypeError => start_page
    end.
(** ** Basic facts *)

Lemma rank_eqb_eq (r r' : Rank) : rank_eqb r r' = true <-> r = r'.
Proof.
  destruct r, r'; split; intro H;
    first [reflexivity | discriminate H | (vm_compute in H; discriminate H)].
Qed.

Lemma suit_eqb_eq (s s' : Suit) : suit_eqb s s' = true <-> s = s'.
Proof.
  destruct s, s'; split; intro H;
    first [reflexivity | discriminate H | (vm_compute in H; discriminate H)].
Qed.

Lemma rank_eqb_refl (r : Rank) : rank_eqb r r = true.
Proof. now apply rank_eqb_eq. Qed.

Lemma suit_eqb_refl (s : Suit) : suit_eqb s s = true.
Proof. now apply suit_eqb_eq. Qed.

Lemma rank_eqb_neq (r r' : Rank) : rank_eqb r r' = false <-> r <> r'.
Proof.
  rewrite <- rank_eqb_eq. destruct (rank_eqb r r'); split; congruence.
Qed.

Lemma suit_eqb_neq (s s' : Suit) : suit_eqb s s' = false <-> s <> s'.
Proof.
  rewrite <- suit_eqb_eq. destruct (suit_eqb s s'); split; congruence.
Qed.

Lemma str_eqb_eq (s t : jsstring) : str_eqb s t = true <-> s = t.
Proof.
  revert t; induction s as [|x s IH]; intros [|y t]; simpl; split;
    try congruence; try reflexivity.
  - intros H. apply andb_true_iff in H as [Hx Hs].
    apply Z.eqb_eq in Hx. apply IH in Hs. congruence.
  - intros H. injection H as -> ->. rewrite Z.eqb_refl. now apply IH.
Qed.

(** [parseInt] is only ever applied to the ranks 2..10, whose strings are
    digit strings. *)
Lemma parseInt_rank (r : Rank) :
  rank_index r <> None -> parseInt (rank_str r) = sequenceValue r.
Proof. destruct r; vm_compute; congruence. Qed.

Lemma getCardValue_present (c : card) :
  getCardValue (Some c) = Ok (fifteenValue (rank c)).
Proof. destruct c as [[] s]; reflexivity. Qed.

Lemma getNumericRank_present (c : card) :
  getNumericRank (Some c) = Ok (sequenceValue (rank c)).
Proof. destruct c as [[] s]; reflexivity. Qed.

(** ** Card tokens *)

Lemma rank_of_str_some (s : jsstring) (r : Rank) :
  rank_of_str s = Some r -> s = rank_str r.
Proof.
  unfold rank_of_str. intros H. apply find_some in H as [_ H].
  apply str_eqb_eq in H. congruence.
Qed.

Lemma suit_of_str_some (s : jsstring) (u : Suit) :
  suit_of_str s = Some u -> s = suit_str u.
Proof.
  unfold suit_of_str. intros H. apply find_some in H as [_ H].
  apply str_eqb_eq in H. congruence.
Qed.

Lemma rank_of_str_none (s : jsstring) :
  ~ In s (map rank_str RANKS) -> rank_of_str s = None.
Proof.
  intros H. destruct (rank_of_str s) as [r|] eqn:E; [|reflexivity].
  exfalso. apply H. apply rank_of_str_some in E as ->.
  apply in_map. destruct r; simpl; tauto.
Qed.

Lemma suit_of_str_none (s : jsstring) :
  ~ In s (map suit_str SUITS) -> suit_of_str s = None.
Proof.
  intros H. destruct (suit_of_str s) as [u|] eqn:E; [|reflexivity].
  exfalso. apply H. apply suit_of_str_some in E as ->.
  apply in_map. destruct u; simpl; tauto.
Qed.

(** C10. Parsing the formatted token of a card gives the card back, for each
    of the 13 ranks (the two-character rank 10 included) and 4 suits; and
    [parseCard] returns the absent value for every token whose rank part
    (all but the last code unit) is not one of the 13 rank strings or whose
    suit part (the last code unit) is not one of the 4 suit strings, for the
    empty token and for the missing token. *)
Theorem parseCard_formatCard_roundtrip :
  (forall c : card, parseCard (Some (formatCard (Some c))) = Some c) /\
  (forall token : jsstring,
      ~ In (rank_part token) (map rank_str RANKS) \/
      ~ In (suit_part token) (map suit_str SUITS) ->
      parseCard (Some token) = None) /\
  parseCard (Some []) = None /\
  parseCard None = None.
Proof.
  split; [|split; [|split; reflexivity]].
  - intros [[] []]; reflexivity.
  - intros [|u token] H; [reflexivity|].
    unfold parseCard. fold (rank_part (u :: token)). fold (suit_part (u :: token)).
    destruct H as [H|H].
    + now rewrite (rank_of_str_none _ H).
    + rewrite (suit_of_str_none _ H).
      now destruct (rank_of_str (rank_part (u :: token))).
Qed.

Lemma parseCard_formatCard_roundtrip_witness :
  (~ In (rank_part (lit "1" ++ suit_str Spades)) (map rank_str RANKS) \/
   ~ In (suit_part (lit "1" ++ suit_str Spades)) (map suit_str SUITS)) /\
  parseCard (Some (lit "1" ++ suit_str Spades)) = None.
Proof.
  assert (H : ~ In (rank_part (lit "1" ++ suit_str Spades)) (map rank_str RANKS) \/
              ~ In (suit_part (lit "1" ++ suit_str Spades)) (map suit_str SUITS)).
  { left. vm_compute. intuition discriminate. }
  split; [exact H|].
  exact (proj1 (proj2 parseCard_formatCard_roundtrip) _ H).
Defined.

(** ** Loops *)

Lemma range_nil (lo hi : Z) : hi <= lo -> range lo hi = [].
Proof.
  intros H. unfold range. replace (Z.to_nat (hi - lo)) with 0%nat by lia.
  reflexivity.
Qed.

Lemma range_cons (lo hi : Z) : lo < hi -> range lo hi = lo :: range (lo + 1) hi.
Proof.
  intros H. unfold range.
  replace (Z.to_nat (hi - lo)) with (S (Z.to_nat (hi - (lo + 1)))) by lia.
  simpl. f_equal; [lia|].
  rewrite <- seq_shift, map_map. apply map_ext. intros k. lia.
Qed.

Lemma in_range (lo hi x : Z) : In x (range lo hi) <-> lo <= x < hi.
Proof.
  unfold range. rewrite in_map_iff. split.
  - intros (k & <- & Hk). apply in_seq in Hk. lia.
  - intros H. exists (Z.to_nat (x - lo)). split; [lia|].
    apply in_seq. lia.
Qed.

(** ** Bit tests *)

Lemma toInt32_small (x : Z) : 0 <= x < 2 ^ 31 -> toInt32 x = x.
Proof.
  intros H. unfold toInt32. rewrite Z.mod_small by lia.
  destruct (Z.ltb_spec x (2 ^ 31)); lia.
Qed.

Lemma shl_1 (k : Z) : 0 <= k <= 30 -> shl 1 k = 2 ^ k.
Proof.
  intros H. unfold shl. rewrite (toInt32_small 1) by lia.
  rewrite Z.mod_small by lia. rewrite Z.shiftl_1_l.
  apply toInt32_small. split; [apply Z.pow_nonneg; lia|].
  apply Z.pow_lt_mono_r; lia.
Qed.

Lemma land_pow2 (a k : Z) :
  0 <= k -> Z.land a (2 ^ k) = if Z.testbit a k then 2 ^ k else 0.
Proof.
  intros Hk. apply Z.bits_inj'. intros n Hn.
  rewrite Z.land_spec, Z.pow2_bits_eqb by lia.
  destruct (Z.eqb_spec k n) as [->|Hne].
  - destruct (Z.testbit a n); [now rewrite Z.pow2_bits_true|now rewrite Z.bits_0].
  - rewrite andb_false_r. destruct (Z.testbit a k).
    + rewrite Z.pow2_bits_false; auto.
    + now rewrite Z.bits_0.
Qed.

Lemma bit_test (mask k : Z) :
  0 <= mask < 2 ^ 31 -> 0 <= k <= 30 ->
  (band mask (shl 1 k) =? 0) = negb (Z.testbit mask k).
Proof.
  intros Hm Hk. unfold band. rewrite shl_1 by lia.
  rewrite (toInt32_small mask) by lia.
  rewrite toInt32_small
    by (split; [apply Z.pow_nonneg; lia|apply Z.pow_lt_mono_r; lia]).
  rewrite land_pow2 by lia.
  destruct (Z.testbit mask k); simpl; [|reflexivity].
  apply Z.eqb_neq. pose proof (Z.pow_pos_nonneg 2 k). lia.
Qed.

(** ** Fifteens *)

Lemma slot_at_present (pre suf : list card) (c : card) :
  slot_at (map Some (pre ++ c :: suf)) (Z.of_nat (length pre)) = Some c.
Proof.
  unfold slot_at, index.
  destruct (Z.ltb_spec (Z.of_nat (length pre)) 0) as [H|_]; [lia|].
  rewrite Nat2Z.id, map_app, nth_error_app2 by (rewrite length_map; lia).
  rewrite length_map, Nat.sub_diag. reflexivity.
Qed.

(** The inner loop, on a hand without absent cards, collects the cards
    selected by the mask. *)
Lemma combo_loop (mask : Z) (suf pre : list card) (combo : list slot) (sum : Z) :
  0 <= mask < 2 ^ 31 -> (length (pre ++ suf) <= 31)%nat ->
  foldM (combo_step (map Some (pre ++ suf)) mask)
    (range (Z.of_nat (length pre)) (Z.of_nat (length (pre ++ suf))))
    (combo, sum)
  = Ok (combo ++ map Some (pick_from mask (Z.of_nat (length pre)) suf),
        sum + fifteen_sum (pick_from mask (Z.of_nat (length pre)) suf)).
Proof.
  intros Hm. revert pre combo sum.
  induction suf as [|c suf IH]; intros pre combo sum Hlen.
  - rewrite app_nil_r, range_nil by lia. simpl.
    now rewrite app_nil_r, Z.add_0_r.
  - rewrite length_app in Hlen. simpl in Hlen.
    rewrite range_cons by (rewrite length_app; simpl; lia).
    cbn [foldM]. unfold combo_step at 1.
    rewrite bit_test by lia.
    rewrite slot_at_present, getCardValue_present.
    assert (E : pre ++ c :: suf = (pre ++ [c]) ++ suf)
      by now rewrite <- app_assoc.
    assert (El : Z.of_nat (length pre) + 1 = Z.of_nat (length (pre ++ [c])))
      by (rewrite length_app; simpl; lia).
    cbn [pick_from].
    destruct (Z.testbit mask (Z.of_nat (length pre))); cbn [negb bind].
    + rewrite E, El, IH by (rewrite !length_app; simpl; lia).
      f_equal. f_equal.
      * now rewrite <- app_assoc.
      * unfold fifteen_sum. simpl. lia.
    + rewrite E, El, IH by (rewrite !length_app; simpl; lia).
      reflexivity.
Qed.

Lemma combo_loop_all (mask : Z) (cs : list card) :
  0 <= mask < 2 ^ 31 -> (length cs <= 31)%nat ->
  foldM (combo_step (map Some cs) mask)
    (range 0 (Z.of_nat (length (map Some cs)))) ([], 0)
  = Ok (map Some (pick_from mask 0 cs), fifteen_sum (pick_from mask 0 cs)).
Proof.
  intros Hm Hl. rewrite length_map.
  exact (combo_loop mask cs [] [] 0 Hm Hl).
Qed.

Lemma mask_loop (cs : list card) (masks : list Z) (totalPoints : Z)
  (combinations : list (list jsstring)) :
  (length cs <= 31)%nat ->
  (forall mask, In mask masks -> 0 <= mask < 2 ^ 31) ->
  foldM (mask_step (map Some cs)) masks (totalPoints, combinations)
  = Ok (totalPoints + 2 * Z.of_nat (length (fifteen_masks cs masks)),
        combinations
          ++ map (fun mask => map formatCard (map Some (pick_from mask 0 cs)))
               (fifteen_masks cs masks)).
Proof.
  intros Hl. revert totalPoints combinations.
  induction masks as [|mask masks IH]; intros totalPoints combinations Hm.
  - simpl. now rewrite Z.add_0_r, app_nil_r.
  - cbn [foldM]. unfold mask_step at 1.
    rewrite combo_loop_all by (auto using in_eq).
    cbn [bind fifteen_masks filter].
    destruct (fifteen_sum (pick_from mask 0 cs) =? 15); cbn [bind];
      rewrite IH by (intros; apply Hm; now right).
    + unfold fifteen_masks. f_equal. f_equal; [simpl length; lia|].
      now rewrite <- app_assoc.
    + reflexivity.
Qed.

(** *** Masks and subsets *)

Lemma range_snoc (lo hi : Z) : lo <= hi -> range lo (hi + 1) = range lo hi ++ [hi].
Proof.
  intros H. unfold range.
  replace (Z.to_nat (hi + 1 - lo)) with (S (Z.to_nat (hi - lo))) by lia.
  rewrite seq_S, map_app. simpl. do 2 f_equal. lia.
Qed.

Lemma range_double (z : Z) :
  0 <= z -> range 0 (2 * z) = flat_map (fun m => [2 * m; 2 * m + 1]) (range 0 z).
Proof.
  revert z. apply natlike_ind.
  - reflexivity.
  - intros z Hz IH.
    replace (2 * Z.succ z) with (2 * z + 1 + 1) by lia.
    rewrite !range_snoc by lia. rewrite IH.
    unfold Z.succ. rewrite range_snoc by lia.
    rewrite flat_map_app. simpl. now rewrite <- app_assoc.
Qed.

Lemma pick_from_shift {A : Type} (l : list A) (m k : Z) (b : bool) :
  0 <= k -> pick_from (2 * m + Z.b2z b) (k + 1) l = pick_from m k l.
Proof.
  revert k. induction l as [|x l IH]; intros k Hk; [reflexivity|].
  cbn [pick_from]. rewrite IH by lia.
  change (k + 1) with (Z.succ k) at 1.
  now rewrite Z.testbit_succ_r by lia.
Qed.

Lemma pick_from_even {A : Type} (x : A) (l : list A) (m : Z) :
  pick_from (2 * m) 0 (x :: l) = pick_from m 0 l.
Proof.
  cbn [pick_from]. rewrite Z.testbit_even_0.
  replace (2 * m) with (2 * m + Z.b2z false) by (simpl; lia).
  now apply pick_from_shift.
Qed.

Lemma pick_from_odd {A : Type} (x : A) (l : list A) (m : Z) :
  pick_from (2 * m + 1) 0 (x :: l) = x :: pick_from m 0 l.
Proof.
  cbn [pick_from]. rewrite Z.testbit_odd_0. f_equal.
  change (2 * m + 1) with (2 * m + Z.b2z true).
  now apply pick_from_shift.
Qed.

Lemma pick_from_0 {A : Type} (l : list A) (k : Z) : pick_from 0 k l = [].
Proof.
  revert k. induction l as [|x l IH]; intros k; [reflexivity|].
  cbn [pick_from]. now rewrite Z.testbit_0_l.
Qed.

Lemma pick_double {A : Type} (x : A) (l : list A) (masks : list Z) :
  map (fun m => pick_from m 0 (x :: l))
    (flat_map (fun m => [2 * m; 2 * m + 1]) masks)
  = flat_map (fun s => [s; x :: s]) (map (fun m => pick_from m 0 l) masks).
Proof.
  induction masks as [|m masks IH]; [reflexivity|].
  cbn [flat_map map app]. now rewrite pick_from_even, pick_from_odd, IH.
Qed.

(** The masks 0 .. 2^n - 1 enumerate the subsets of n cards, in the order of
    [subsets]. *)
Lemma masks_subsets {A : Type} (l : list A) :
  map (fun m => pick_from m 0 l) (range 0 (2 ^ Z.of_nat (length l))) = subsets l.
Proof.
  induction l as [|x l IH]; [reflexivity|].
  cbn [length subsets]. rewrite Nat2Z.inj_succ, Z.pow_succ_r by lia.
  rewrite range_double by (apply Z.pow_nonneg; lia).
  now rewrite pick_double, IH.
Qed.

Lemma filter_map_comm {A B : Type} (f : A -> B) (p : B -> bool) (l : list A) :
  filter p (map f l) = map f (filter (fun x => p (f x)) l).
Proof.
  induction l as [|x l IH]; [reflexivity|].
  simpl. rewrite IH. now destruct (p (f x)).
Qed.

Lemma filter_filter_imp {A : Type} (p q : A -> bool) (l : list A) :
  (forall x, p x = true -> q x = true) ->
  filter p (filter q l) = filter p l.
Proof.
  intros H. induction l as [|x l IH]; [reflexivity|].
  simpl. destruct (q x) eqn:Eq; simpl; rewrite IH; [reflexivity|].
  destruct (p x) eqn:Ep; [|reflexivity].
  apply H in Ep. congruence.
Qed.

Lemma fifteen_masks_subsets (cs : list card) :
  map (fun m => pick_from m 0 cs)
    (fifteen_masks cs (range 1 (2 ^ Z.of_nat (length cs))))
  = fifteen_subsets cs.
Proof.
  unfold fifteen_subsets, nonempty_subsets.
  rewrite filter_filter_imp by (intros [|c s] H; [discriminate H|reflexivity]).
  rewrite <- masks_subsets, filter_map_comm.
  rewrite (range_cons 0) by (apply Z.pow_pos_nonneg; lia).
  cbn [filter]. rewrite pick_from_0. reflexivity.
Qed.

Lemma scoreFifteens_present (cs : list card) :
  (length cs <= 30)%nat ->
  scoreFifteens (map Some cs)
  = Ok {| fifteens_points := 2 * Z.of_nat (length (fifteen_subsets cs));
          combinations :=
            map (fun s => map formatCard (map Some s)) (fifteen_subsets cs) |}.
Proof.
  intros Hl. unfold scoreFifteens.
  rewrite length_map, shl_1 by lia.
  rewrite mask_loop.
  - cbn [bind]. rewrite <- fifteen_masks_subsets.
    rewrite length_map, map_map. reflexivity.
  - lia.
  - intros mask H. apply in_range in H.
    assert (2 ^ Z.of_nat (length cs) < 2 ^ 31) by (apply Z.pow_lt_mono_r; lia).
    lia.
Qed.

(** ** Dictionaries *)

Section ObjectFacts.
Context {K V : Type}.
Variable key_eqb : K -> K -> bool.
Hypothesis key_eqb_eq : forall k k', key_eqb k k' = true <-> k = k'.

Lemma key_eqb_refl (k : K) : key_eqb k k = true.
Proof. now apply key_eqb_eq. Qed.

Lemma get_set (o : list (K * V)) (k k' : K) (v : V) :
  get key_eqb (set key_eqb o k v) k'
  = if key_eqb k' k then Some v else get key_eqb o k'.
Proof.
  induction o as [|[k0 v0] o IH]; simpl; [reflexivity|].
  destruct (key_eqb k k0) eqn:E0; simpl.
  - apply key_eqb_eq in E0 as ->. now destruct (key_eqb k' k0).
  - rewrite IH. destruct (key_eqb k' k0) eqn:E1; [|reflexivity].
    apply key_eqb_eq in E1 as ->.
    destruct (key_eqb k0 k) eqn:E2; [|reflexivity].
    apply key_eqb_eq in E2 as ->. now rewrite key_eqb_refl in E0.
Qed.

Lemma get_none (o : list (K * V)) (k : K) :
  get key_eqb o k = None <-> ~ In k (map fst o).
Proof.
  induction o as [|[k0 v0] o IH]; simpl; [tauto|].
  destruct (key_eqb k k0) eqn:E.
  - apply key_eqb_eq in E as ->. split; [discriminate|tauto].
  - rewrite IH. split; [|tauto].
    intros H [->|H']; [now rewrite key_eqb_refl in E|tauto].
Qed.

Lemma in_keys_set (o : list (K * V)) (k k' : K) (v : V) :
  In k' (map fst (set key_eqb o k v)) <-> k' = k \/ In k' (map fst o).
Proof.
  induction o as [|[k0 v0] o IH]; simpl; [intuition congruence|].
  destruct (key_eqb k k0) eqn:E; simpl.
  - apply key_eqb_eq in E as ->. intuition congruence.
  - rewrite IH. tauto.
Qed.

Lemma NoDup_keys_set (o : list (K * V)) (k : K) (v : V) :
  NoDup (map fst o) -> NoDup (map fst (set key_eqb o k v)).
Proof.
  induction o as [|[k0 v0] o IH]; simpl; intros H.
  - constructor; [tauto|constructor].
  - destruct (key_eqb k k0) eqn:E; simpl; [exact H|].
    inversion H as [|? ? Hin Hnd]; subst. constructor; [|now apply IH].
    rewrite in_keys_set. intros [->|H']; [|tauto].
    now rewrite key_eqb_refl in E.
Qed.

Lemma get_in (o : list (K * V)) (k : K) (v : V) :
  NoDup (map fst o) -> In (k, v) o -> get key_eqb o k = Some v.
Proof.
  induction o as [|[k0 v0] o IH]; simpl; intros Hnd Hin; [tauto|].
  inversion Hnd as [|? ? Hn Hnd']; subst.
  destruct Hin as [Heq|Hin].
  - injection Heq as -> ->. now rewrite key_eqb_refl.
  - destruct (key_eqb k k0) eqn:E; [|now apply IH].
    apply key_eqb_eq in E as ->. exfalso. apply Hn.
    change k0 with (fst (k0, v)). now apply in_map.
Qed.
End ObjectFacts.

(** *** Sorting and enumeration order *)

Lemma insert_by_perm {A : Type} (key : A -> Z) (x : A) (l : list A) :
  Permutation (insert_by key x l) (x :: l).
Proof.
  induction l as [|y l IH]; simpl; [reflexivity|].
  destruct (key x - key y <=? 0); [reflexivity|].
  rewrite IH. apply perm_swap.
Qed.

Lemma sort_by_perm {A : Type} (key : A -> Z) (l : list A) :
  Permutation (sort_by key l) l.
Proof.
  induction l as [|x l IH]; simpl; [reflexivity|].
  rewrite insert_by_perm. now apply perm_skip.
Qed.

Lemma filter_split_perm {A : Type} (p : A -> bool) (l : list A) :
  Permutation (filter p l ++ filter (fun x => negb (p x)) l) l.
Proof.
  induction l as [|x l IH]; simpl; [reflexivity|].
  destruct (p x); simpl.
  - now apply perm_skip.
  - rewrite <- Permutation_middle. now apply perm_skip.
Qed.

Lemma entries_perm {K V : Type} (key_index : K -> option Z) (o : list (K * V)) :
  Permutation (entries key_index o) o.
Proof.
  unfold entries. rewrite sort_by_perm. apply filter_split_perm.
Qed.

Lemma zsum_perm (l l' : list Z) : Permutation l l' -> zsum l = zsum l'.
Proof. induction 1; simpl; lia. Qed.

Lemma zsum_app (l l' : list Z) : zsum (l ++ l') = zsum l + zsum l'.
Proof. induction l as [|x l IH]; simpl; lia. Qed.

(** A sum over the keys of a dictionary is a sum over any duplicate-free
    list that contains them, when the other members contribute nothing. *)
Lemma zsum_keys {K : Type} (g : K -> Z) (ks : list K) :
  forall R : list K,
    NoDup ks -> NoDup R -> incl ks R ->
    (forall r, In r R -> ~ In r ks -> g r = 0) ->
    zsum (map g ks) = zsum (map g R).
Proof.
  induction ks as [|k ks IH]; intros R Hks HR Hincl Hzero.
  - simpl. clear HR Hincl. induction R as [|r R IHR]; [reflexivity|].
    simpl. rewrite (Hzero r) by (simpl; tauto).
    rewrite <- IHR; [reflexivity|]. intros r' Hr'. apply Hzero. now right.
  - inversion Hks as [|? ? Hk Hks']; subst.
    destruct (in_split k R) as (R1 & R2 & ->); [apply Hincl; now left|].
    rewrite map_app, zsum_app. simpl.
    rewrite (IH (R1 ++ R2)).
    + rewrite map_app, zsum_app. lia.
    + assumption.
    + now apply NoDup_remove_1 in HR.
    + intros x Hx. assert (Hx' : In x (R1 ++ k :: R2)) by (apply Hincl; now right).
      apply in_app_or in Hx' as [Hx'|[->|Hx']]; [apply in_or_app; tauto|tauto|apply in_or_app; tauto].
    + intros r Hr Hnr. apply Hzero.
      * apply in_app_or in Hr. apply in_or_app. simpl. tauto.
      * intros [->|Hr']; [|tauto].
        apply NoDup_remove_2 in HR. tauto.
Qed.

(** ** Pairs *)

Lemma rank_count_snoc (r : Rank) (cs : list card) (c : card) :
  rank_count r (cs ++ [c])
  = rank_count r cs + (if rank_eqb (rank c) r then 1 else 0).
Proof.
  unfold rank_count. rewrite filter_app, length_app. simpl.
  destruct (rank_eqb (rank c) r); simpl; lia.
Qed.

Lemma rank_count_nonneg (r : Rank) (cs : list card) : 0 <= rank_count r cs.
Proof. unfold rank_count. lia. Qed.

Lemma count_loop (suf : list card) :
  forall (pre : list card) (o : list (Rank * Z)),
    counts_ok o pre ->
    exists o', foldM count_step (map Some suf) o = Ok o' /\
               counts_ok o' (pre ++ suf).
Proof.
  induction suf as [|c suf IH]; intros pre o Ho.
  - exists o. now rewrite app_nil_r.
  - cbn [map foldM]. unfold count_step at 1. cbn [get_rank bind].
    replace (pre ++ c :: suf) with ((pre ++ [c]) ++ suf)
      by now rewrite <- app_assoc.
    apply IH. destruct Ho as [Hnd Hget]. split.
    + now apply NoDup_keys_set; [apply rank_eqb_eq|].
    + intros r. rewrite (get_set rank_eqb rank_eqb_eq), rank_count_snoc.
      rewrite (Hget (rank c)).
      pose proof (rank_count_nonneg r pre).
      pose proof (rank_count_nonneg (rank c) pre).
      destruct (rank_eqb r (rank c)) eqn:E.
      * apply rank_eqb_eq in E as ->. rewrite rank_eqb_refl.
        destruct (Z.eqb_spec (rank_count (rank c) pre) 0) as [E0|E0];
          cbn [or_default].
        -- rewrite E0. reflexivity.
        -- destruct (Z.eqb_spec (rank_count (rank c) pre) 0); [lia|].
           destruct (Z.eqb_spec (rank_count (rank c) pre + 1) 0); [lia|].
           reflexivity.
      * assert (E' : rank_eqb (rank c) r = false).
        { destruct (rank_eqb (rank c) r) eqn:E'; [|reflexivity].
          apply rank_eqb_eq in E'. subst r. now rewrite rank_eqb_refl in E. }
        rewrite E', Z.add_0_r. apply Hget.
Qed.

Lemma pair_table_spec (k : Z) :
  pair_table k
  = if k =? 2 then 2 else if k =? 3 then 6 else if k =? 4 then 12 else 0.
Proof.
  destruct k as [|p|p]; try reflexivity.
  destruct p as [[p|p|]|[p|p|]|]; try reflexivity; destruct p; reflexivity.
Qed.

Lemma pairs_fold (es : list (Rank * Z)) (totalPoints : Z) (pairs : list jsstring) :
  fst (fold_left pairs_step es (totalPoints, pairs))
  = totalPoints + zsum (map (fun e => pair_table (snd e)) es).
Proof.
  revert totalPoints pairs.
  induction es as [|[r k] es IH]; intros totalPoints pairs.
  - simpl. lia.
  - cbn [fold_left map zsum fold_right snd]. fold (zsum (map (fun e => pair_table (snd e)) es)).
    rewrite pair_table_spec. unfold pairs_step at 2.
    destruct (Z.geb_spec k 2) as [Hge|Hlt].
    + destruct (Z.eqb_spec k 2); [rewrite IH; lia|].
      destruct (Z.eqb_spec k 3); [rewrite IH; lia|].
      destruct (Z.eqb_spec k 4); rewrite IH; lia.
    + destruct (Z.eqb_spec k 2); [lia|].
      destruct (Z.eqb_spec k 3); [lia|].
      destruct (Z.eqb_spec k 4); [lia|].
      rewrite IH. lia.
Qed.

Lemma NoDup_RANKS : NoDup RANKS.
Proof.
  unfold RANKS. repeat (constructor; [simpl; intuition discriminate|]).
  constructor.
Qed.

Lemma in_RANKS (r : Rank) : In r RANKS.
Proof. destruct r; simpl; tauto. Qed.

Lemma scorePairs_present (cs : list card) :
  exists rep,
    scorePairs (map Some cs) = Ok rep /\
    pairs_points rep = zsum (map (fun r => pair_table (rank_count r cs)) RANKS).
Proof.
  destruct (count_loop cs [] []) as (o & Ho & Hnd & Hget).
  { split; [constructor|]. intros r. reflexivity. }
  cbn [app] in Hget. unfold scorePairs. rewrite Ho. cbn [bind].
  destruct (fold_left pairs_step (entries rank_index o) (0, []))
    as [totalPoints pairs] eqn:E.
  eexists. split; [reflexivity|]. cbn [pairs_points].
  change totalPoints with (fst (totalPoints, pairs)).
  rewrite <- E, pairs_fold, Z.add_0_l.
  rewrite (zsum_perm _ (map (fun e => pair_table (snd e)) o))
    by (apply Permutation_map, entries_perm).
  rewrite <- (zsum_keys (fun r => pair_table (rank_count r cs)) (map fst o)).
  - rewrite map_map. f_equal. apply map_ext_in. intros [r k] Hin.
    apply (get_in rank_eqb rank_eqb_eq _ _ _ Hnd) in Hin.
    rewrite Hget in Hin. simpl. revert Hin.
    destruct (rank_count r cs =? 0); intros Hin; [discriminate|].
    injection Hin as <-. reflexivity.
  - exact Hnd.
  - exact NoDup_RANKS.
  - intros r _. apply in_RANKS.
  - intros r _ Hr. apply (get_none rank_eqb rank_eqb_eq) in Hr.
    rewrite Hget in Hr. revert Hr.
    destruct (Z.eqb_spec (rank_count r cs) 0) as [->|]; [reflexivity|discriminate].
Qed.

(** ** Runs *)

(** *** The grouping loop *)

Lemma value_group_snoc (v : Z) (cs : list card) (c : card) :
  value_group v (cs ++ [c])
  = value_group v cs ++ (if sequenceValue (rank c) =? v then [c] else []).
Proof. unfold value_group. now rewrite filter_app. Qed.

Lemma group_loop (suf : list card) :
  forall (pre : list card) (o : list (Z * list slot)),
    groups_ok o pre ->
    exists o', foldM group_step (map Some suf) o = Ok o' /\
               groups_ok o' (pre ++ suf).
Proof.
  induction suf as [|c suf IH]; intros pre o Ho.
  - exists o. now rewrite app_nil_r.
  - cbn [map foldM]. unfold group_step at 1.
    rewrite getNumericRank_present. cbn [bind].
    replace (pre ++ c :: suf) with ((pre ++ [c]) ++ suf)
      by now rewrite <- app_assoc.
    destruct Ho as [Hnd Hget].
    set (v := sequenceValue (rank c)).
    assert (Hstep : forall o1 g,
               NoDup (map fst o1) ->
               (forall w, w <> v -> get Z.eqb o1 w = get Z.eqb o w) ->
               get Z.eqb o1 v = Some (map Some g) ->
               g = value_group v pre ->
               exists o', bind (bind (group_of o1 (Some v))
                                  (fun g => Ok (set Z.eqb o1 v (g ++ [Some c]))))
                            (foldM group_step (map Some suf)) = Ok o' /\
                          groups_ok o' ((pre ++ [c]) ++ suf)).
    { intros o1 g Hnd1 Hother Hv Hg. unfold group_of. rewrite Hv. cbn [bind].
      apply IH. split.
      - now apply NoDup_keys_set; [apply Z.eqb_eq|].
      - intros w. rewrite (get_set Z.eqb Z.eqb_eq), value_group_snoc.
        fold v.
        destruct (Z.eqb_spec w v) as [->|Hne].
        + rewrite Z.eqb_refl, <- Hg.
          destruct g; simpl; rewrite ?map_app; reflexivity.
        + destruct (Z.eqb_spec v w) as [Heq|_]; [congruence|].
          rewrite app_nil_r, Hother by assumption. apply Hget. }
    specialize (Hget v) as Hv.
    destruct (get Z.eqb o v) as [g0|] eqn:E.
    + destruct (value_group v pre) as [|c' g] eqn:Eg; [discriminate|].
      injection Hv as ->.
      apply (Hstep o (c' :: g)); auto.
    + destruct (value_group v pre) as [|c' g] eqn:Eg; [|discriminate].
      apply (Hstep (set Z.eqb o v []) []); auto.
      * now apply NoDup_keys_set; [apply Z.eqb_eq|].
      * intros w Hw. rewrite (get_set Z.eqb Z.eqb_eq).
        now destruct (Z.eqb_spec w v).
      * rewrite (get_set Z.eqb Z.eqb_eq). now rewrite Z.eqb_refl.
Qed.

Lemma in_seq_values_group (v : Z) (cs : list card) :
  In v (seq_values cs) <-> value_group v cs <> [].
Proof.
  unfold seq_values, value_group. rewrite in_map_iff. split.
  - intros (c & <- & Hc) H.
    assert (Hin : In c (filter (fun c0 => sequenceValue (rank c0) =? sequenceValue (rank c)) cs))
      by (apply filter_In; split; [assumption|apply Z.eqb_refl]).
    rewrite H in Hin. exact Hin.
  - intros H.
    destruct (filter (fun c => sequenceValue (rank c) =? v) cs) as [|c g] eqn:E;
      [congruence|].
    assert (Hin : In c (filter (fun c => sequenceValue (rank c) =? v) cs))
      by (rewrite E; now left).
    apply filter_In in Hin as [Hin Hv]. apply Z.eqb_eq in Hv. eauto.
Qed.

(** *** The sorted ranks *)

Lemma insert_by_sorted (x : Z) (l : list Z) :
  Sorted Z.le l -> Sorted Z.le (insert_by (fun a => a) x l).
Proof.
  induction 1 as [|y l Hs IH Hhd]; simpl.
  - repeat constructor.
  - destruct (Z.leb_spec (x - y) 0).
    + constructor; [now constructor|]. constructor. lia.
    + constructor; [exact IH|].
      destruct l as [|z l]; simpl.
      * constructor. lia.
      * inversion Hhd; subst.
        destruct (x - z <=? 0); constructor; lia.
Qed.

Lemma sort_by_sorted (l : list Z) : Sorted Z.le (sort_by (fun a => a) l).
Proof.
  induction l as [|x l IH]; simpl; [constructor|].
  now apply insert_by_sorted.
Qed.

Lemma sorted_strict (l : list Z) : Sorted Z.le l -> NoDup l -> Sorted Z.lt l.
Proof.
  induction 1 as [|x l Hs IH Hhd]; intros Hnd; [constructor|].
  inversion Hnd as [|? ? Hx Hnd']; subst.
  constructor; [now apply IH|].
  destruct Hhd as [|y l Hxy]; constructor.
  assert (x <> y) by (intros ->; apply Hx; now left). lia.
Qed.


(** *** The three passes *)

Lemma foldM_ok {A S : Type} (f : S -> A -> Exc S) (l : list A) :
  (forall s x, In x l -> exists s', f s x = Ok s') ->
  forall s, exists s', foldM f l s = Ok s'.
Proof.
  induction l as [|x l IH]; intros Hf s; simpl; [eauto|].
  destruct (Hf s x) as (s' & ->); [now left|]. simpl.
  apply IH. intros s0 y Hy. apply Hf. now right.
Qed.

Lemma index_some {A : Type} (l : list A) (i : Z) :
  0 <= i < Z.of_nat (length l) -> exists x, index l i = Some x /\ In x l.
Proof.
  intros H. unfold index. destruct (Z.ltb_spec i 0); [lia|].
  destruct (nth_error l (Z.to_nat i)) as [x|] eqn:E.
  - exists x. split; [reflexivity|]. eapply nth_error_In; eauto.
  - apply nth_error_None in E. lia.
Qed.

Section Passes.
Variable ranks : list Z.
Variable rankGroups : list (Z * list slot).
Hypothesis groups : forall v, In v ranks -> exists g, get Z.eqb rankGroups v = Some g.

Lemma multiplier_of_ok (len i : Z) :
  0 <= i -> i + len <= Z.of_nat (length ranks) ->
  exists r, multiplier_of len ranks rankGroups i = Ok r.
Proof.
  intros Hi Hlen. apply foldM_ok. intros [m rs] j Hj.
  apply in_range in Hj. unfold mult_step.
  destruct (index_some ranks (i + j)) as (v & -> & Hv); [lia|].
  destruct (groups v Hv) as (g & Hg). unfold group_of. rewrite Hg.
  simpl. eauto.
Qed.

Lemma pass_stable (len : Z) (ws : list Z) (best : option BestRun) :
  (forall i, In i ws -> 0 <= i /\ i + len <= Z.of_nat (length ranks)) ->
  foldM (pass_step len ranks rankGroups) ws (best, len) = Ok (best, len).
Proof.
  induction ws as [|i ws IH]; intros Hws; [reflexivity|].
  cbn [foldM]. unfold pass_step at 1.
  destruct (window len ranks i).
  - destruct (multiplier_of_ok len i) as ([m rs] & ->);
      [apply Hws; now left..|].
    cbn [bind]. rewrite Z.gtb_ltb, Z.ltb_irrefl. cbn [bind].
    apply IH. intros j Hj. apply Hws. now right.
  - cbn [bind]. apply IH. intros j Hj. apply Hws. now right.
Qed.

Lemma pass_first (len : Z) (ws : list Z) (best : option BestRun) (bl : Z) :
  bl < len ->
  (forall i, In i ws -> 0 <= i /\ i + len <= Z.of_nat (length ranks)) ->
  foldM (pass_step len ranks rankGroups) ws (best, bl)
  = match List.find (window len ranks) ws with
    | Some i =>
        '(multiplier, runRanks) <- multiplier_of len ranks rankGroups i ;;
        Ok (Some {| best_length := len; best_multiplier := multiplier;
                    best_ranks := runRanks |}, len)
    | None => Ok (best, bl)
    end.
Proof.
  intros Hbl. induction ws as [|i ws IH]; intros Hws; [reflexivity|].
  cbn [foldM List.find]. unfold pass_step at 1.
  destruct (window len ranks i).
  - destruct (multiplier_of_ok len i) as ([m rs] & ->);
      [apply Hws; now left..|].
    cbn [bind]. destruct (Z.gtb_spec len bl); [|lia]. cbn [bind].
    apply pass_stable. intros j Hj. apply Hws. now right.
  - cbn [bind]. apply IH. intros j Hj. apply Hws. now right.
Qed.

Lemma run_pass_first (len : Z) (best : option BestRun) (bl : Z) :
  bl < len -> 0 <= len ->
  run_pass len ranks rankGroups (best, bl)
  = match List.find (window len ranks)
            (range 0 (Z.of_nat (length ranks) - len + 1)) with
    | Some i =>
        '(multiplier, runRanks) <- multiplier_of len ranks rankGroups i ;;
        Ok (Some {| best_length := len; best_multiplier := multiplier;
                    best_ranks := runRanks |}, len)
    | None => Ok (best, bl)
    end.
Proof.
  intros Hbl Hlen. unfold run_pass. apply pass_first; [assumption|].
  intros i Hi. apply in_range in Hi. lia.
Qed.

(** [longest_run] reports the first window of 5 ranks; failing that, the
    first window of 4; failing that, the first window of 3. *)
Lemma longest_run_windows :
  longest_run ranks rankGroups
  = match first_window 5 ranks with
    | Some i => report_window 5 ranks rankGroups i
    | None =>
        match first_window 4 ranks with
        | Some i => report_window 4 ranks rankGroups i
        | None =>
            match first_window 3 ranks with
            | Some i => report_window 3 ranks rankGroups i
            | None => Ok no_run_report
            end
        end
    end.
Proof.
  assert (Hfound : forall len i,
             0 <= len ->
             List.find (window len ranks)
               (range 0 (Z.of_nat (length ranks) - len + 1)) = Some i ->
             exists m rs, multiplier_of len ranks rankGroups i = Ok (m, rs)).
  { intros len i Hlen H. apply find_some in H as [H _]. apply in_range in H.
    destruct (multiplier_of_ok len i) as ([m rs] & E); [lia..|]. eauto. }
  unfold longest_run, first_window, report_window.
  destruct (Z.of_nat (length ranks) >=? 5) eqn:E5.
  - rewrite run_pass_first by lia.
    destruct (List.find (window 5 ranks) _) as [i|] eqn:F5.
    + destruct (Hfound 5 i) as (m & rs & ->); [lia|assumption|].
      cbn [bind snd fst]. reflexivity.
    + cbn [bind snd fst]. change (0 <? 4) with true. change (0 <? 3) with true.
      cbn [andb].
      destruct (Z.of_nat (length ranks) >=? 4) eqn:E4; [|lia].
      rewrite run_pass_first by lia.
      destruct (List.find (window 4 ranks) _) as [i|] eqn:F4.
      * destruct (Hfound 4 i) as (m & rs & ->); [lia|assumption|].
        cbn [bind snd fst]. reflexivity.
      * cbn [bind snd fst andb].
        destruct (Z.of_nat (length ranks) >=? 3) eqn:E3; [|lia].
        rewrite run_pass_first by lia.
        destruct (List.find (window 3 ranks) _) as [i|] eqn:F3.
        -- destruct (Hfound 3 i) as (m & rs & ->); [lia|assumption|].
           cbn [bind snd fst]. reflexivity.
        -- reflexivity.
  - cbn [bind snd fst]. change (0 <? 4) with true. change (0 <? 3) with true.
    cbn [andb].
    destruct (Z.of_nat (length ranks) >=? 4) eqn:E4.
    + rewrite run_pass_first by lia.
      destruct (List.find (window 4 ranks) _) as [i|] eqn:F4.
      * destruct (Hfound 4 i) as (m & rs & ->); [lia|assumption|].
        cbn [bind snd fst]. reflexivity.
      * cbn [bind snd fst andb].
        destruct (Z.of_nat (length ranks) >=? 3) eqn:E3; [|lia].
        rewrite run_pass_first by lia.
        destruct (List.find (window 3 ranks) _) as [i|] eqn:F3.
        -- destruct (Hfound 3 i) as (m & rs & ->); [lia|assumption|].
           cbn [bind snd fst]. reflexivity.
        -- reflexivity.
    + cbn [bind snd fst andb].
      destruct (Z.of_nat (length ranks) >=? 3) eqn:E3.
      * rewrite run_pass_first by lia.
        destruct (List.find (window 3 ranks) _) as [i|] eqn:F3.
        -- destruct (Hfound 3 i) as (m & rs & ->); [lia|assumption|].
           cbn [bind snd fst]. reflexivity.
        -- reflexivity.
      * reflexivity.
Qed.
End Passes.

(** *** Runs in a sorted list of ranks *)

Lemma sorted_nth_lt (l : list Z) :
  Sorted Z.lt l ->
  forall i j, (i < j < length l)%nat -> nth i l 0 < nth j l 0.
Proof.
  intros Hs. apply Sorted_StronglySorted in Hs; [|exact Z.lt_trans].
  induction Hs as [|x l Hs IH Hall]; intros i j Hij; [simpl in Hij; lia|].
  destruct j as [|j]; [lia|]. simpl in Hij.
  destruct i as [|i]; simpl.
  - rewrite Forall_forall in Hall. apply Hall. apply nth_In. lia.
  - apply IH. lia.
Qed.

(** The values of a run sit next to each other in the sorted ranks. *)
Lemma run_window (l : list Z) (s : Z) (L : nat) :
  Sorted Z.lt l -> (1 <= L)%nat ->
  (forall k, (k < L)%nat -> In (s + Z.of_nat k) l) ->
  exists i, (i + L <= length l)%nat /\
            forall k, (k < L)%nat -> nth (i + k) l 0 = s + Z.of_nat k.
Proof.
  intros Hs. induction L as [|L IH]; intros HL Hrun; [lia|].
  destruct (Nat.eq_dec L 0) as [->|HL0].
  - destruct (In_nth l (s + Z.of_nat 0) 0 (Hrun 0%nat ltac:(lia))) as (i & Hi & Hn).
    exists i. split; [lia|]. intros k Hk. replace k with 0%nat by lia.
    now rewrite Nat.add_0_r.
  - destruct IH as (i & Hi & Hn); [lia|intros k Hk; apply Hrun; lia|].
    destruct (In_nth l (s + Z.of_nat L) 0 (Hrun L ltac:(lia))) as (m & Hm & Hnm).
    pose proof (Hn (L - 1)%nat ltac:(lia)) as Hlast.
    assert (Hgt : (i + (L - 1) < m)%nat).
    { destruct (Nat.lt_trichotomy m (i + (L - 1))) as [Hlt|[Heq|Hgt]];
        [|subst m; lia|exact Hgt].
      pose proof (sorted_nth_lt l Hs m (i + (L - 1))%nat ltac:(lia)). lia. }
    exists i. split; [lia|]. intros k Hk.
    destruct (Nat.eq_dec k L) as [->|Hne]; [|apply Hn; lia].
    pose proof (sorted_nth_lt l Hs (i + (L - 1)) (i + L)%nat ltac:(lia)) as Hlo.
    destruct (Nat.eq_dec m (i + L)) as [->|Hm']; [exact Hnm|].
    pose proof (sorted_nth_lt l Hs (i + L)%nat m ltac:(lia)) as Hhi.
    lia.
Qed.

Lemma run_window_Z (l : list Z) (s L : Z) :
  Sorted Z.lt l -> 1 <= L ->
  (forall k, 0 <= k < L -> In (s + k) l) ->
  exists i, (i + Z.to_nat L <= length l)%nat /\
            forall k, (k < Z.to_nat L)%nat -> nth (i + k) l 0 = s + Z.of_nat k.
Proof.
  intros Hs HL Hrun. apply run_window; [assumption|lia|].
  intros k Hk. apply Hrun. lia.
Qed.

(** *** The search, rank by rank *)

(** Evaluation of the closed parts of a goal: loop ranges, array accesses
    at known positions, length tests. *)
Ltac closed_eval :=
  repeat match goal with
  | |- context [range ?a ?b] =>
      let r := eval vm_compute in (range a b) in
      progress change (range a b) with r
  | |- context [index ?l ?i] =>
      let r := eval vm_compute in (index l i) in
      progress change (index l i) with r
  | |- context [Z.of_nat (length ?l) >=? ?k] =>
      let r := eval vm_compute in (Z.of_nat (length l) >=? k) in
      progress change (Z.of_nat (length l) >=? k) with r
  | |- context [?a - 1] =>
      let r := eval vm_compute in (a - 1) in
      progress change (a - 1) with r
  end.

(** Turns the search for the first window into tests on the ranks. *)
Ltac eval_windows :=
  unfold first_window, window; closed_eval; cbn [List.find]; closed_eval;
  cbv beta iota.

(** Case analysis on the window test that is evaluated next. *)
Ltac split_window :=
  match goal with
  | |- context [if ?x =? ?y then _ else _] => destruct (Z.eqb_spec x y)
  end.

(** The order facts of a sorted list of known length. *)
Ltac sorted_inv :=
  repeat match goal with
  | H : Sorted _ (_ :: _) |- _ => inversion H; clear H; subst
  | H : HdRel _ _ (_ :: _) |- _ => inversion H; clear H; subst
  | H : Sorted _ [] |- _ => clear H
  | H : HdRel _ _ [] |- _ => clear H
  end.

(** Runs the multiplier loop and the card collection of a found window. *)
Ltac eval_report :=
  unfold report_window, multiplier_of, report_run; closed_eval;
  repeat (cbn [foldM bind mult_step collect_step group_of best_ranks
               best_length best_multiplier app];
          unfold collect_step, group_of;
          closed_eval;
          repeat match goal with
          | H : get Z.eqb _ ?v = Some _ |- context [get Z.eqb _ ?v] => rewrite H
          end).

(** Names the values [x + k] of a run by the ranks they are equal to. *)
Ltac rename_ranks x :=
  repeat match goal with
  | |- context [x + ?k] =>
      match goal with
      | v : Z |- _ => replace (x + k) with v by lia
      end
  end.

(** Refutes a run of [L] values, from the positions of its values in the
    sorted ranks (hypothesis [Hrun]). *)
Ltac no_run Hrun L :=
  let Hr := fresh "Hr" in
  let i := fresh "i" in
  let Hi := fresh "Hi" in
  let Hn := fresh "Hn" in
  intros Hr;
  destruct (Hrun _ L ltac:(lia) Hr) as (i & Hi & Hn);
  let n := eval vm_compute in (Z.to_nat L) in
  change (Z.to_nat L) with n in *;
  cbn [length] in Hi;
  pose proof (Hn 0%nat); pose proof (Hn 1%nat); pose proof (Hn 2%nat);
  pose proof (Hn 3%nat); pose proof (Hn 4%nat);
  destruct i as [|[|[|i]]]; cbn [nth Nat.add] in *; lia.

(** The leaf in which the source reports the run of [L] values at [x]. *)
Ltac found Hin Hrun x L :=
  eval_report;
  eexists; split; [reflexivity|];
  right; exists x, L;
  split; [lia|];
  split; [intros k Hk; apply Hin; simpl; lia|];
  split; [intros s'; no_run Hrun (L + 1)|];
  unfold run_report, run_product, value_count; closed_eval;
  cbn [map flat_map fold_right app];
  rename_ranks x;
  rewrite ?length_map, <- ?app_assoc, ?app_nil_r, ?Z.mul_1_l, ?Z.mul_1_r,
    ?Z.mul_assoc;
  reflexivity.

(** The leaf in which the source finds no run. *)
Ltac not_found Hrun :=
  eexists; split; [reflexivity|];
  left; split; [reflexivity|];
  intros s; no_run Hrun 3.

(** The group of every rank at hand. *)
Ltac group_facts Hget :=
  repeat match goal with
  | v : Z |- _ =>
      lazymatch goal with
      | H : get Z.eqb _ v = Some _ |- _ => fail
      | _ => pose proof (Hget v ltac:(simpl; tauto))
      end
  end.

Lemma longest_run_spec (cs : list card) (ranks : list Z) (G : list (Z * list slot)) :
  Sorted Z.lt ranks -> (length ranks <= 5)%nat ->
  (forall v, In v ranks <-> In v (seq_values cs)) ->
  (forall v, In v ranks -> get Z.eqb G v = Some (map Some (value_group v cs))) ->
  exists rep, longest_run ranks G = Ok rep /\ run_outcome cs rep.
Proof.
  intros Hs Hlen Hin Hget.
  rewrite longest_run_windows by (intros v Hv; rewrite Hget; eauto).
  assert (Hrun : forall s L, 1 <= L -> is_run cs s L ->
            exists i, (i + Z.to_nat L <= length ranks)%nat /\
              forall k, (k < Z.to_nat L)%nat -> nth (i + k) ranks 0 = s + Z.of_nat k).
  { intros s L HL Hr. apply run_window_Z; [assumption..|].
    intros k Hk. apply Hin. now apply Hr. }
  destruct ranks as [|a [|b [|c [|d [|e [|f ranks]]]]]]; [..|simpl in Hlen; lia];
    sorted_inv; group_facts Hget; eval_windows.
  - not_found Hrun.
  - not_found Hrun.
  - not_found Hrun.
  - split_window; cbv iota; [found Hin Hrun a 3|not_found Hrun].
  - split_window; cbv iota; [found Hin Hrun a 4|].
    split_window; cbv iota; [found Hin Hrun a 3|].
    split_window; cbv iota; [found Hin Hrun b 3|not_found Hrun].
  - split_window; cbv iota; [found Hin Hrun a 5|].
    split_window; cbv iota; [found Hin Hrun a 4|].
    split_window; cbv iota; [found Hin Hrun b 4|].
    split_window; cbv iota; [found Hin Hrun a 3|].
    split_window; cbv iota; [found Hin Hrun b 3|].
    split_window; cbv iota; [found Hin Hrun c 3|not_found Hrun].
Qed.

Lemma is_run_prefix (cs : list card) (s L L' : Z) :
  L' <= L -> is_run cs s L -> is_run cs s L'.
Proof. intros H Hr k Hk. apply Hr. lia. Qed.

(** Two runs of the greatest length among at most 5 cards start at the same
    value: if they overlap or touch they form a longer run, and if they do
    not they need 6 distinct values. *)
Lemma longest_run_unique (cs : list card) (s s' L : Z) :
  (length cs <= 5)%nat -> 3 <= L ->
  is_run cs s L -> is_run cs s' L -> (forall t, ~ is_run cs t (L + 1)) ->
  s = s'.
Proof.
  intros Hlen HL Hs Hs' Hmax.
  assert (Hlt : forall a b, a < b -> is_run cs a L -> is_run cs b L -> False).
  { intros a b Hab Ha Hb.
    destruct (Z_le_gt_dec b (a + L)) as [Hov|Hgap].
    - apply (Hmax a). intros k Hk.
      destruct (Z_lt_le_dec k L) as [Hk'|Hk']; [apply Ha; lia|].
      replace (a + k) with (b + (a + L - b)) by lia. apply Hb. lia.
    - assert (Hnd : NoDup [a + 0; a + 1; a + 2; b + 0; b + 1; b + 2]).
      { repeat (constructor; [simpl; lia|]). constructor. }
      assert (Hincl : incl [a + 0; a + 1; a + 2; b + 0; b + 1; b + 2]
                        (seq_values cs)).
      { intros v Hv. simpl in Hv.
        destruct Hv as [<-|[<-|[<-|[<-|[<-|[<-|[]]]]]]];
          first [apply Ha; lia | apply Hb; lia]. }
      pose proof (NoDup_incl_length Hnd Hincl) as Hle.
      unfold seq_values in Hle. rewrite length_map in Hle. simpl in Hle. lia. }
  destruct (Z.lt_trichotomy s s') as [H|[H|H]]; [|exact H|].
  - exfalso. exact (Hlt s s' H Hs Hs').
  - exfalso. exact (Hlt s' s H Hs' Hs).
Qed.

Lemma scoreRuns_present (cs : list card) :
  length cs = 5%nat ->
  exists rep, scoreRuns (map Some cs) = Ok rep /\ run_outcome cs rep.
Proof.
  intros Hlen. unfold scoreRuns. rewrite length_map, Hlen.
  change (Z.of_nat 5 <? 3) with false. cbv iota.
  destruct (group_loop cs [] []) as (G & HG & Hnd & Hget).
  { split; [constructor|]. intros v. reflexivity. }
  cbn [app] in Hget. rewrite HG. cbn [bind].
  set (ranks := sort_by (fun a => a) (keys num_index G)).
  assert (Hperm : Permutation ranks (map fst G)).
  { unfold ranks, keys. rewrite sort_by_perm.
    apply Permutation_map, entries_perm. }
  assert (Hin : forall v, In v ranks <-> In v (seq_values cs)).
  { intros v. rewrite in_seq_values_group. split.
    - intros Hv Hnil. apply (Permutation_in _ Hperm) in Hv.
      apply (get_none Z.eqb Z.eqb_eq G v); [|exact Hv].
      now rewrite Hget, Hnil.
    - intros Hv. apply (Permutation_in _ (Permutation_sym Hperm)).
      destruct (in_dec Z.eq_dec v (map fst G)) as [Hi|Hni]; [exact Hi|].
      apply (get_none Z.eqb Z.eqb_eq) in Hni. rewrite Hget in Hni.
      destruct (value_group v cs); [congruence|discriminate]. }
  assert (Hnd' : NoDup ranks)
    by (apply (Permutation_NoDup (Permutation_sym Hperm)), Hnd).
  apply longest_run_spec.
  - apply sorted_strict; [apply sort_by_sorted|exact Hnd'].
  - replace 5%nat with (length (seq_values cs))
      by (unfold seq_values; now rewrite length_map).
    apply NoDup_incl_length; [exact Hnd'|]. intros v Hv. now apply Hin.
  - exact Hin.
  - intros v Hv. rewrite Hget. apply Hin, in_seq_values_group in Hv.
    destruct (value_group v cs); [congruence|reflexivity].
Qed.

(** ** Flush and nobs *)

Lemma hand_slice (s0 s1 s2 s3 s4 : slot) :
  slice [s0; s1; s2; s3; s4] 0 (Some 4) = [s0; s1; s2; s3].
Proof. reflexivity. Qed.

Lemma hand_cut (s0 s1 s2 s3 s4 : slot) : slot_at [s0; s1; s2; s3; s4] 4 = s4.
Proof. reflexivity. Qed.

Lemma hand_first (s0 s1 s2 s3 : slot) : slot_at [s0; s1; s2; s3] 0 = s0.
Proof. reflexivity. Qed.

Lemma suit_eqb_spec (s s' : Suit) : reflect (s = s') (suit_eqb s s').
Proof.
  destruct (suit_eqb s s') eqn:E; constructor.
  - now apply suit_eqb_eq.
  - now apply suit_eqb_neq.
Qed.

(** The flush evaluator on five slots whose hand cards are present; the cut
    card may be absent. *)
Lemma scoreFlush_hand (c0 c1 c2 c3 : card) (cut : slot) (isCrib : bool) :
  scoreFlush [Some c0; Some c1; Some c2; Some c3; cut] isCrib
  = Ok {| flush_points :=
            if suit_eqb (suit c1) (suit c0) && suit_eqb (suit c2) (suit c0)
               && suit_eqb (suit c3) (suit c0)
            then if cut_matches cut (suit c0) then 5
                 else if isCrib then 0 else 4
            else 0 |}.
Proof.
  unfold scoreFlush. change (Z.of_nat (length _) <? 4) with false. cbv iota.
  rewrite hand_slice, hand_cut, hand_first.
  cbn [get_suit bind every]. rewrite suit_eqb_refl.
  destruct (suit_eqb (suit c1) (suit c0)); [|reflexivity].
  destruct (suit_eqb (suit c2) (suit c0)); [|reflexivity].
  destruct (suit_eqb (suit c3) (suit c0)); [|reflexivity].
  cbn [negb andb].
  destruct isCrib, (cut_matches cut (suit c0)); reflexivity.
Qed.

(** The nobs evaluator on a hand of five present cards. *)
Lemma scoreNobs_hand (c0 c1 c2 c3 c4 : card) :
  scoreNobs (hand c0 c1 c2 c3 c4) = Ok (nobs_of [c0; c1; c2; c3] c4).
Proof.
  unfold scoreNobs, hand, nobs_of, first_jack.
  change (Z.of_nat (length _) <? 5) with false. cbv iota.
  rewrite hand_slice, hand_cut.
  cbn [find get_rank bind List.find].
  destruct (rank_eqb (rank c0) RJ); cbn [bind];
    [now destruct (suit_eqb (suit c0) (suit c4))|].
  destruct (rank_eqb (rank c1) RJ); cbn [bind];
    [now destruct (suit_eqb (suit c1) (suit c4))|].
  destruct (rank_eqb (rank c2) RJ); cbn [bind];
    [now destruct (suit_eqb (suit c2) (suit c4))|].
  destruct (rank_eqb (rank c3) RJ); cbn [bind];
    [now destruct (suit_eqb (suit c3) (suit c4))|reflexivity].
Qed.

(** ** Absent cards *)

Lemma foldM_error {A S : Type} (f : S -> A -> Exc S) (l : list A) (x : A) :
  In x l -> (forall s, f s x = TypeError) ->
  forall s, foldM f l s = TypeError.
Proof.
  intros Hin Hx. induction l as [|y l IH]; intros s; [destruct Hin|].
  cbn [foldM]. destruct Hin as [->|Hin].
  - now rewrite Hx.
  - destruct (f s y); cbn [bind]; [now apply IH|reflexivity].
Qed.

Lemma scorePairs_absent (cards : list slot) :
  In None cards -> scorePairs cards = TypeError.
Proof.
  intros H. unfold scorePairs.
  now rewrite (foldM_error count_step cards None H).
Qed.

Lemma scoreRuns_absent (cards : list slot) :
  (3 <= length cards)%nat -> In None cards -> scoreRuns cards = TypeError.
Proof.
  intros Hlen H. unfold scoreRuns.
  destruct (Z.ltb_spec (Z.of_nat (length cards)) 3); [lia|].
  now rewrite (foldM_error group_step cards None H).
Qed.

Lemma five_slots (cards : list slot) :
  length cards = 5%nat ->
  exists s0 s1 s2 s3 s4, cards = [s0; s1; s2; s3; s4].
Proof.
  destruct cards as [|s0 [|s1 [|s2 [|s3 [|s4 [|s5 l]]]]]]; try discriminate.
  intros _. now exists s0, s1, s2, s3, s4.
Qed.

Lemma scoreFifteens_absent (cards : list slot) :
  length cards = 5%nat -> In None cards -> scoreFifteens cards = TypeError.
Proof.
  intros Hlen H. destruct (five_slots cards Hlen) as (s0 & s1 & s2 & s3 & s4 & ->).
  unfold scoreFifteens. change (shl 1 (Z.of_nat (length _))) with 32.
  assert (Hmask : exists mask i,
             In mask (range 1 32) /\ In i (range 0 5) /\
             (band mask (shl 1 i) =? 0) = false /\
             slot_at [s0; s1; s2; s3; s4] i = None).
  { destruct H as [<-|[<-|[<-|[<-|[<-|[]]]]]].
    - exists 1, 0. now vm_compute; intuition.
    - exists 2, 1. now vm_compute; intuition.
    - exists 4, 2. now vm_compute; intuition.
    - exists 8, 3. now vm_compute; intuition.
    - exists 16, 4. now vm_compute; intuition. }
  destruct Hmask as (mask & i & Hm & Hi & Hbit & Hnone).
  rewrite (foldM_error _ _ mask Hm); [reflexivity|].
  intros [totalPoints combinations]. unfold mask_step.
  change (Z.of_nat (length _)) with 5.
  rewrite (foldM_error _ _ i Hi); [reflexivity|].
  intros [combo sum]. unfold combo_step. now rewrite Hbit, Hnone.
Qed.

(** ** The top-level scorer *)

Lemma scoreHand_present (c0 c1 c2 c3 c4 : card) (isCrib : bool) :
  exists f p r fl n,
    scoreFifteens (hand c0 c1 c2 c3 c4) = Ok f /\
    scorePairs (hand c0 c1 c2 c3 c4) = Ok p /\
    scoreRuns (hand c0 c1 c2 c3 c4) = Ok r /\
    scoreFlush (hand c0 c1 c2 c3 c4) isCrib = Ok fl /\
    scoreNobs (hand c0 c1 c2 c3 c4) = Ok n /\
    scoreHand (Some (hand c0 c1 c2 c3 c4)) isCrib
    = Ok (Some {| total := fifteens_points f + pairs_points p + runs_points r
                           + flush_points fl + nobs_points n;
                  fifteens := f; pairs := p; runs := r; flush := fl;
                  nobs := n |}).
Proof.
  pose proof (scoreFifteens_present [c0; c1; c2; c3; c4]) as Hf.
  destruct (scorePairs_present [c0; c1; c2; c3; c4]) as (p & Hp & _).
  destruct (scoreRuns_present [c0; c1; c2; c3; c4] eq_refl) as (r & Hr & _).
  pose proof (scoreFlush_hand c0 c1 c2 c3 (Some c4) isCrib) as Hfl.
  pose proof (scoreNobs_hand c0 c1 c2 c3 c4) as Hn.
  change (map Some [c0; c1; c2; c3; c4]) with (hand c0 c1 c2 c3 c4) in *.
  change [Some c0; Some c1; Some c2; Some c3; Some c4]
    with (hand c0 c1 c2 c3 c4) in *.
  specialize (Hf ltac:(simpl; lia)).
  do 5 eexists. repeat (split; [eassumption|]).
  unfold scoreHand. change (Z.of_nat (length _) =? 5) with true.
  cbn [negb orb some absent existsb hand].
  fold (hand c0 c1 c2 c3 c4). rewrite Hf, Hp, Hr, Hfl, Hn. reflexivity.
Qed.

Lemma present_slots (cards : list slot) :
  length cards = 5%nat -> ~ In None cards ->
  exists c0 c1 c2 c3 c4, cards = hand c0 c1 c2 c3 c4.
Proof.
  intros Hlen Hnone.
  destruct (five_slots cards Hlen) as (s0 & s1 & s2 & s3 & s4 & ->).
  destruct s0 as [c0|]; [|exfalso; apply Hnone; simpl; tauto].
  destruct s1 as [c1|]; [|exfalso; apply Hnone; simpl; tauto].
  destruct s2 as [c2|]; [|exfalso; apply Hnone; simpl; tauto].
  destruct s3 as [c3|]; [|exfalso; apply Hnone; simpl; tauto].
  destruct s4 as [c4|]; [|exfalso; apply Hnone; simpl; tauto].
  now exists c0, c1, c2, c3, c4.
Qed.

Lemma some_absent (cards : list slot) : some absent cards = true <-> In None cards.
Proof.
  unfold some. rewrite existsb_exists. split.
  - intros ([c|] & Hin & Hc); [discriminate|exact Hin].
  - intros H. exists None. now split.
Qed.

Lemma scoreHand_not_scorable (input : option (list slot)) (isCrib : bool) :
  not_scorable input -> scoreHand input isCrib = Ok None.
Proof.
  destruct input as [cards|]; [|reflexivity]. intros [Hlen|Hnone]; unfold scoreHand.
  - destruct (Z.eqb_spec (Z.of_nat (length cards)) 5); [lia|reflexivity].
  - apply some_absent in Hnone. rewrite Hnone. now rewrite orb_true_r.
Qed.

(** ** The test hands of the source *)

Example test1_scores_29 :
  exists rep,
    scoreHand (Some test1) false = Ok (Some rep) /\
    total rep = 29 /\ fifteens_points (fifteens rep) = 16 /\
    pairs_points (pairs rep) = 12 /\ runs_points (runs rep) = 0 /\
    flush_points (flush rep) = 0 /\ nobs_points (nobs rep) = 1.
Proof. eexists. split; [vm_compute; reflexivity|]. repeat split. Qed.

Example test3_triple_run :
  exists rep,
    scoreHand (Some test3) false = Ok (Some rep) /\
    pairs_points (pairs rep) = 6 /\ runs_points (runs rep) = 9 /\
    map (fun r => (run_length r, run_multiplier r)) (runs_list (runs rep))
    = [(3, 3)].
Proof. eexists. split; [vm_compute; reflexivity|]. repeat split. Qed.

Example test5_flush :
  scoreFlush test5 false = Ok {| flush_points := 4 |} /\
  scoreFlush test5 true = Ok {| flush_points := 0 |}.
Proof. split; reflexivity. Qed.

(** * The claims *)

(** C1. The claim asks for 1 point whenever any of the 4 hand cards is a
    Jack of the cut card's suit.  [scoreNobs] compares only the first Jack
    of the hand with the cut card ([scoreNobs_hand]): on J♠ J♥ 2♣ 3♣ with
    cut 4♥ the hand holds the Jack of hearts, the cut is a heart, and the
    evaluator returns 0 points. *)
Theorem scoreNobs_overlooks_matching_jack :
  (exists jack cut,
      In (Some jack) (slice two_jacks 0 (Some 4)) /\
      slot_at two_jacks 4 = Some cut /\
      rank jack = RJ /\ suit jack = suit cut) /\
  scoreNobs two_jacks = Ok {| nobs_points := 0; nobs_card := None |}.
Proof.
  split; [|reflexivity].
  exists (card_of RJ Hearts), (card_of R4 Hearts).
  repeat split. simpl. tauto.
Qed.

(** C2, as stated, fails: on 3♠ 3♥ 4♠ 5♠ with cut 6♠ in hand mode the scorer
    does not return total 15 with fifteens 0, pairs 2, runs 8, flush 5 and
    nobs 0. *)
Lemma scenario_B_is_not_15 :
  ~ exists rep,
      scoreHand (Some test2) false = Ok (Some rep) /\
      total rep = 15 /\
      fifteens_points (fifteens rep) = 0 /\
      pairs_points (pairs rep) = 2 /\
      runs_points (runs rep) = 8 /\
      flush_points (flush rep) = 5 /\
      nobs_points (nobs rep) = 0.
Proof.
  intros (rep & H & Ht & _). vm_compute in H. injection H as <-.
  discriminate Ht.
Qed.

(** C2, amended. On 3♠ 3♥ 4♠ 5♠ with cut 6♠ in hand mode the scorer returns
    total 14: fifteens 4 (3+3+4+5 and 4+5+6), pairs 2, runs 8 (one run of
    length 4 with multiplier 2), flush 0 (the hand holds 3♥) and nobs 0. *)
Theorem scenario_B_scores_14 :
  exists rep,
    scoreHand (Some test2) false = Ok (Some rep) /\
    total rep = 14 /\
    fifteens_points (fifteens rep) = 4 /\
    pairs_points (pairs rep) = 2 /\
    runs_points (runs rep) = 8 /\
    map (fun r => (run_length r, run_multiplier r)) (runs_list (runs rep))
    = [(4, 2)] /\
    flush_points (flush rep) = 0 /\
    nobs_points (nobs rep) = 0.
Proof.
  eexists. split; [vm_compute; reflexivity|]. repeat split.
Qed.

(** C3, as stated, fails: with the first slot absent, none of the fifteens,
    pairs and runs evaluators returns a result. *)
Lemma sub_evaluators_throw_on_absent_card :
  length first_missing = 5%nat /\ In None first_missing /\
  ~ ((exists f, scoreFifteens first_missing = Ok f /\ fifteens_points f = 0) /\
     (exists p, scorePairs first_missing = Ok p /\ pairs_points p = 0) /\
     (exists r, scoreRuns first_missing = Ok r /\ runs_points r = 0) /\
     (exists fl, scoreFlush first_missing false = Ok fl /\ flush_points fl = 0) /\
     (exists n, scoreNobs first_missing = Ok n /\ nobs_points n = 0)).
Proof.
  split; [reflexivity|]. split; [simpl; tauto|].
  intros [(f & Hf & _) _]. vm_compute in Hf. discriminate Hf.
Qed.

(** C3, amended. On a 5-slot input with an absent slot the fifteens, pairs
    and runs evaluators throw.  The flush and nobs evaluators tolerate an
    absent cut card: when the 4 hand cards are present and the cut is
    absent, flush scores 4 for a hand flush in hand mode and 0 otherwise,
    and nobs scores 0 whenever the cut is absent; flush throws when the
    first hand slot is absent, and so does nobs when the cut is present.
    The top-level scorer returns its null result for every such input. *)
Theorem sub_evaluators_on_absent_cards (cards : list slot) (isCrib : bool) :
  length cards = 5%nat -> In None cards ->
  scoreFifteens cards = TypeError /\
  scorePairs cards = TypeError /\
  scoreRuns cards = TypeError /\
  (slot_at cards 4 = None ->
   scoreNobs cards = Ok {| nobs_points := 0; nobs_card := None |}) /\
  (forall c0 c1 c2 c3, cards = [Some c0; Some c1; Some c2; Some c3; None] ->
   scoreFlush cards isCrib
   = Ok {| flush_points :=
             if suit_eqb (suit c1) (suit c0) && suit_eqb (suit c2) (suit c0)
                && suit_eqb (suit c3) (suit c0)
             then if isCrib then 0 else 4
             else 0 |}) /\
  (slot_at cards 0 = None -> scoreFlush cards isCrib = TypeError) /\
  (slot_at cards 0 = None -> slot_at cards 4 <> None ->
   scoreNobs cards = TypeError) /\
  scoreHand (Some cards) isCrib = Ok None.
Proof.
  intros Hlen Hnone.
  split; [now apply scoreFifteens_absent|].
  split; [now apply scorePairs_absent|].
  split; [apply scoreRuns_absent; [lia|assumption]|].
  destruct (five_slots cards Hlen) as (s0 & s1 & s2 & s3 & s4 & ->).
  split; [|split; [|split; [|split]]].
  - rewrite hand_cut. intros ->. reflexivity.
  - intros c0 c1 c2 c3 E. rewrite E. apply scoreFlush_hand.
  - change (slot_at [s0; s1; s2; s3; s4] 0) with s0. intros ->. reflexivity.
  - change (slot_at [s0; s1; s2; s3; s4] 0) with s0. rewrite hand_cut.
    intros -> H4. destruct s4 as [c4|]; [reflexivity|congruence].
  - apply scoreHand_not_scorable. now right.
Qed.

Lemma sub_evaluators_on_absent_cards_witness :
  length first_missing = 5%nat /\ In None first_missing /\
  scoreFifteens first_missing = TypeError /\
  scoreHand (Some first_missing) true = Ok None.
Proof.
  assert (Hlen : length first_missing = 5%nat) by reflexivity.
  assert (Hnone : In None first_missing) by (simpl; tauto).
  split; [exact Hlen|]. split; [exact Hnone|].
  pose proof (sub_evaluators_on_absent_cards first_missing true Hlen Hnone) as H.
  split; [exact (proj1 H)|].
  exact (proj2 (proj2 (proj2 (proj2 (proj2 (proj2 (proj2 H))))))).
Defined.

(** C4. For every 5-card hand the runs evaluator returns a report.  It
    scores 0 when no 3 consecutive sequence values occur among the cards.
    Otherwise it reports one run only, the longest: for every run of [L]
    consecutive values that occurs, with [L] at least 3 and no run of
    [L + 1] values occurring, the report holds that run alone, with length
    [L], the product of the duplicate counts of its values as multiplier,
    and [L] times that product as points. *)
Theorem scoreRuns_longest_run (c0 c1 c2 c3 c4 : card) :
  let cs := [c0; c1; c2; c3; c4] in
  exists rep,
    scoreRuns (hand c0 c1 c2 c3 c4) = Ok rep /\
    ((forall s, ~ is_run cs s 3) ->
     rep = {| runs_points := 0; runs_list := [] |}) /\
    (forall s L, 3 <= L ->
       is_run cs s L -> (forall s', ~ is_run cs s' (L + 1)) ->
       runs_points rep = L * run_product cs s L /\
       rep = run_report cs s L).
Proof.
  intros cs.
  destruct (scoreRuns_present cs eq_refl) as (rep & Hrep & Hout).
  exists rep. split; [exact Hrep|].
  destruct Hout as [[-> Hno]|(s0 & L0 & HL0 & Hr0 & Hmax0 & ->)]; split.
  - reflexivity.
  - intros s L HL Hs _. exfalso. apply (Hno s).
    apply (is_run_prefix cs s L); [lia|exact Hs].
  - intros Hno. exfalso. apply (Hno s0).
    apply (is_run_prefix cs s0 L0); [lia|exact Hr0].
  - intros s L HL Hs Hmax.
    assert (L0 = L).
    { destruct (Z.lt_trichotomy L0 L) as [Hlt|[Heq|Hgt]]; [|exact Heq|].
      - exfalso. apply (Hmax0 s).
        apply (is_run_prefix cs s L); [lia|exact Hs].
      - exfalso. apply (Hmax s0).
        apply (is_run_prefix cs s0 L0); [lia|exact Hr0]. }
    subst L0.
    assert (s0 = s)
      by (apply (longest_run_unique cs s0 s L); auto; simpl; lia).
    subst s0. split; reflexivity.
Qed.

Lemma scoreRuns_longest_run_witness :
  is_run double_run 3 4 /\
  (forall s, ~ is_run double_run s (4 + 1)) /\
  exists rep,
    scoreRuns test2 = Ok rep /\
    runs_points rep = 4 * run_product double_run 3 4.
Proof.
  assert (H4 : is_run double_run 3 4).
  { intros k Hk.
    cbv [double_run seq_values map rank card_of sequenceValue In]. lia. }
  assert (H5 : forall s, ~ is_run double_run s (4 + 1)).
  { intros s H. pose proof (H 0 ltac:(lia)) as A.
    pose proof (H 4 ltac:(lia)) as B.
    cbv [double_run seq_values map rank card_of sequenceValue In] in A, B. lia. }
  split; [exact H4|]. split; [exact H5|].
  destruct (scoreRuns_longest_run (card_of R3 Spades) (card_of R3 Hearts)
              (card_of R4 Spades) (card_of R5 Spades) (card_of R6 Spades))
    as (rep & Hrep & _ & HB).
  destruct (HB 3 4 ltac:(lia) H4 H5) as (Hp & _).
  exists rep. split; [exact Hrep|exact Hp].
Defined.

(** C5. For every 5-card hand the fifteens evaluator returns a report whose
    points are even and equal 2 times the number of non-empty subsets of
    the 5 cards whose fifteenValues sum to exactly 15; the subsets counted
    are all 31 non-empty ones, of every size from 1 to 5. *)
Theorem scoreFifteens_counts_subsets (c0 c1 c2 c3 c4 : card) :
  let cs := [c0; c1; c2; c3; c4] in
  exists rep,
    scoreFifteens (hand c0 c1 c2 c3 c4) = Ok rep /\
    fifteens_points rep = 2 * count_fifteens cs /\
    Z.even (fifteens_points rep) = true /\
    length (nonempty_subsets cs) = 31%nat /\
    map (fun k => length (filter (fun s => Nat.eqb (length s) k)
                            (nonempty_subsets cs)))
      [1; 2; 3; 4; 5]%nat
    = [5; 10; 10; 5; 1]%nat.
Proof.
  intros cs. eexists. split.
  - apply (scoreFifteens_present cs). simpl. lia.
  - cbn [fifteens_points]. fold (count_fifteens cs).
    split; [reflexivity|]. split; [apply Z.even_mul; now left|].
    split; reflexivity.
Qed.

(** C6. For every 5-card hand and mode flag: when the 4 hand cards do not
    share one suit the flush score is 0; when they do, it is 5 if the cut
    card has that suit (in either mode), 0 in crib mode if it has not, and 4
    in hand mode if it has not. *)
Theorem scoreFlush_cases (c0 c1 c2 c3 c4 : card) (isCrib : bool) :
  (~ hand_flush c0 c1 c2 c3 ->
   scoreFlush (hand c0 c1 c2 c3 c4) isCrib = Ok {| flush_points := 0 |}) /\
  (hand_flush c0 c1 c2 c3 -> suit c4 = suit c0 ->
   scoreFlush (hand c0 c1 c2 c3 c4) isCrib = Ok {| flush_points := 5 |}) /\
  (hand_flush c0 c1 c2 c3 -> suit c4 <> suit c0 -> isCrib = true ->
   scoreFlush (hand c0 c1 c2 c3 c4) isCrib = Ok {| flush_points := 0 |}) /\
  (hand_flush c0 c1 c2 c3 -> suit c4 <> suit c0 -> isCrib = false ->
   scoreFlush (hand c0 c1 c2 c3 c4) isCrib = Ok {| flush_points := 4 |}).
Proof.
  unfold hand, hand_flush. rewrite scoreFlush_hand. cbn [cut_matches].
  destruct (suit_eqb_spec (suit c1) (suit c0));
    destruct (suit_eqb_spec (suit c2) (suit c0));
    destruct (suit_eqb_spec (suit c3) (suit c0));
    destruct (suit_eqb_spec (suit c4) (suit c0));
    cbn [andb]; repeat split; intros; subst;
      first [reflexivity | tauto | congruence].
Qed.

Lemma scoreFlush_cases_witness :
  (~ hand_flush (card_of RA Spades) (card_of R2 Spades) (card_of R3 Spades)
       (card_of R5 Hearts) /\
   scoreFlush (hand (card_of RA Spades) (card_of R2 Spades) (card_of R3 Spades)
                 (card_of R5 Hearts) (card_of R4 Spades)) false
   = Ok {| flush_points := 0 |}) /\
  (hand_flush (card_of RA Spades) (card_of R2 Spades) (card_of R3 Spades)
     (card_of R4 Spades) /\
   suit (card_of R6 Spades) = suit (card_of RA Spades) /\
   scoreFlush (hand (card_of RA Spades) (card_of R2 Spades) (card_of R3 Spades)
                 (card_of R4 Spades) (card_of R6 Spades)) true
   = Ok {| flush_points := 5 |}) /\
  (suit (card_of R5 Hearts) <> suit (card_of RA Spades) /\
   scoreFlush test5 true = Ok {| flush_points := 0 |} /\
   scoreFlush test5 false = Ok {| flush_points := 4 |}).
Proof.
  assert (Hn : ~ hand_flush (card_of RA Spades) (card_of R2 Spades)
                   (card_of R3 Spades) (card_of R5 Hearts))
    by (unfold hand_flush; simpl; intuition discriminate).
  assert (Hf : hand_flush (card_of RA Spades) (card_of R2 Spades)
                 (card_of R3 Spades) (card_of R4 Spades))
    by (unfold hand_flush; simpl; tauto).
  assert (Hs : suit (card_of R6 Spades) = suit (card_of RA Spades))
    by reflexivity.
  assert (Hd : suit (card_of R5 Hearts) <> suit (card_of RA Spades))
    by (simpl; discriminate).
  split; [split; [exact Hn|]|split; [split; [exact Hf|split; [exact Hs|]]|
          split; [exact Hd|split]]].
  - exact (proj1 (scoreFlush_cases _ _ _ _ _ false) Hn).
  - exact (proj1 (proj2 (scoreFlush_cases _ _ _ _ _ true)) Hf Hs).
  - exact (proj1 (proj2 (proj2 (scoreFlush_cases _ _ _ _ _ true))) Hf Hd eq_refl).
  - exact (proj2 (proj2 (proj2 (scoreFlush_cases _ _ _ _ _ false)))
             Hf Hd eq_refl).
Defined.

(** C7. For every 5-card hand the pairs evaluator returns a report whose
    points are the sum, over the 13 ranks, of the points of each rank, and
    the points of a rank depend on the number k of cards of that rank only:
    0, 0, 2, 6, 12 for k = 0, 1, 2, 3, 4. *)
Theorem scorePairs_per_rank (c0 c1 c2 c3 c4 : card) :
  let cs := [c0; c1; c2; c3; c4] in
  exists rep,
    scorePairs (hand c0 c1 c2 c3 c4) = Ok rep /\
    pairs_points rep = zsum (map (fun r => pair_table (rank_count r cs)) RANKS) /\
    map pair_table [0; 1; 2; 3; 4] = [0; 0; 2; 6; 12].
Proof.
  intros cs. destruct (scorePairs_present cs) as (rep & Hrep & Hpoints).
  exists rep. split; [exact Hrep|]. split; [exact Hpoints|reflexivity].
Qed.

(** C8. For every 5-card hand and mode flag the five evaluators return
    reports, and the top-level scorer returns the report made of these five
    whose total is the sum of their points. *)
Theorem scoreHand_total_is_sum (c0 c1 c2 c3 c4 : card) (isCrib : bool) :
  exists f p r fl n,
    scoreFifteens (hand c0 c1 c2 c3 c4) = Ok f /\
    scorePairs (hand c0 c1 c2 c3 c4) = Ok p /\
    scoreRuns (hand c0 c1 c2 c3 c4) = Ok r /\
    scoreFlush (hand c0 c1 c2 c3 c4) isCrib = Ok fl /\
    scoreNobs (hand c0 c1 c2 c3 c4) = Ok n /\
    exists rep,
      scoreHand (Some (hand c0 c1 c2 c3 c4)) isCrib = Ok (Some rep) /\
      fifteens rep = f /\ pairs rep = p /\ runs rep = r /\ flush rep = fl /\
      nobs rep = n /\
      total rep = fifteens_points f + pairs_points p + runs_points r
                  + flush_points fl + nobs_points n.
Proof.
  destruct (scoreHand_present c0 c1 c2 c3 c4 isCrib)
    as (f & p & r & fl & n & Hf & Hp & Hr & Hfl & Hn & H).
  exists f, p, r, fl, n. repeat (split; [assumption|]).
  eexists. split; [exact H|]. repeat split.
Qed.

(** On a missing input and on an array without holes, the top-level scorer
    returns its null result when the input is missing, has a length other
    than 5 or holds an absent slot, and a report otherwise; it does not
    throw. *)
Theorem scoreHand_null_iff (input : option (list slot)) (isCrib : bool) :
  (not_scorable input -> scoreHand input isCrib = Ok None) /\
  (~ not_scorable input -> exists rep, scoreHand input isCrib = Ok (Some rep)) /\
  (scoreHand input isCrib = Ok None -> not_scorable input) /\
  scoreHand input isCrib <> TypeError.
Proof.
  assert (Hyes : ~ not_scorable input ->
                 exists rep, scoreHand input isCrib = Ok (Some rep)).
  { destruct input as [cards|]; [|simpl; tauto]. intros H.
    destruct (Nat.eq_dec (length cards) 5) as [Hlen|Hlen];
      [|exfalso; apply H; now left].
    destruct (present_slots cards Hlen) as (c0 & c1 & c2 & c3 & c4 & ->).
    { intros Hnone. apply H. now right. }
    destruct (scoreHand_present c0 c1 c2 c3 c4 isCrib)
      as (f & p & r & fl & n & _ & _ & _ & _ & _ & E).
    eauto. }
  assert (Hdec : not_scorable input \/ ~ not_scorable input).
  { destruct input as [cards|]; [|left; exact I]. simpl.
    destruct (Nat.eq_dec (length cards) 5) as [Hlen|Hlen]; [|tauto].
    destruct (some absent cards) eqn:E.
    - left. right. now apply some_absent.
    - right. intros [H|H]; [tauto|]. apply some_absent in H. congruence. }
  split; [apply scoreHand_not_scorable|]. split; [exact Hyes|]. split.
  - intros H. destruct Hdec as [Hd|Hd]; [exact Hd|].
    destruct (Hyes Hd) as (rep & E). congruence.
  - destruct Hdec as [Hd|Hd].
    + rewrite (scoreHand_not_scorable input isCrib Hd). discriminate.
    + destruct (Hyes Hd) as (rep & ->). discriminate.
Qed.

Lemma scoreHand_null_iff_witness :
  (not_scorable (Some first_missing) /\
   scoreHand (Some first_missing) false = Ok None) /\
  (not_scorable (Some (firstn 4 test1)) /\
   scoreHand (Some (firstn 4 test1)) false = Ok None) /\
  (~ not_scorable (Some test1) /\
   exists rep, scoreHand (Some test1) false = Ok (Some rep)).
Proof.
  assert (H1 : not_scorable (Some first_missing)) by (right; simpl; tauto).
  assert (H2 : not_scorable (Some (firstn 4 test1))) by (left; simpl; lia).
  assert (H3 : ~ not_scorable (Some test1)).
  { intros [H|H]; [now apply H|]. simpl in H. intuition discriminate. }
  split; [split; [exact H1|]|split; [split; [exact H2|]|split; [exact H3|]]].
  - exact (proj1 (scoreHand_null_iff (Some first_missing) false) H1).
  - exact (proj1 (scoreHand_null_iff (Some (firstn 4 test1)) false) H2).
  - exact (proj1 (proj2 (scoreHand_null_iff (Some test1) false)) H3).
Defined.

(** ** The top-level scorer on arrays with holes *)

Lemma some_absent_elements (cards : list Sparse.Cell) :
  Sparse.some absent cards = true <-> In (Sparse.Elem None) cards.
Proof.
  unfold Sparse.some. rewrite existsb_exists. split.
  - intros ([|[c|]] & Hin & Hc); [discriminate|discriminate|exact Hin].
  - intros H. exists (Sparse.Elem None). now split.
Qed.

Lemma scoreHand_dense (cards : list slot) (isCrib : bool) :
  Sparse.scoreHand (Some (map Sparse.Elem cards)) isCrib
  = scoreHand (Some cards) isCrib.
Proof.
  unfold Sparse.scoreHand, scoreHand.
  rewrite length_map, map_map. cbn [Sparse.read]. rewrite map_id.
  replace (Sparse.some absent (map Sparse.Elem cards)) with (some absent cards);
    [reflexivity|].
  unfold Sparse.some, some. induction cards as [|c l IH]; [reflexivity|].
  cbn [map existsb]. now rewrite IH.
Qed.

Lemma scoreFifteens_reads_holes (cards : list Sparse.Cell) :
  length cards = 5%nat -> In Sparse.Hole cards ->
  scoreFifteens (map Sparse.read cards) = TypeError.
Proof.
  intros Hlen Hh. apply scoreFifteens_absent; [now rewrite length_map|].
  apply in_map_iff. now exists Sparse.Hole.
Qed.

Lemma cells_cases (cards : list Sparse.Cell) :
  In (Sparse.Elem None) cards \/
  (~ In (Sparse.Elem None) cards /\ In Sparse.Hole cards) \/
  exists cs, cards = map Sparse.Elem (map Some cs).
Proof.
  induction cards as [|x l IH].
  - right. right. now exists [].
  - destruct IH as [H|[[Hn Hh]|(cs & ->)]].
    + left. now right.
    + destruct x as [|[c|]].
      * right. left. split; [|now left]. intros [E|E]; [discriminate|tauto].
      * right. left. split; [|now right].
        intros [E|E]; [discriminate|tauto].
      * left. now left.
    + destruct x as [|[c|]].
      * right. left. split; [|now left].
        intros [E|E]; [discriminate|].
        apply in_map_iff in E as (s & E & Hs). injection E as ->.
        apply in_map_iff in Hs as (c & E & _). discriminate.
      * right. right. now exists (c :: cs).
      * left. now left.
Qed.

Lemma scoreHand_cases (input : option (list Sparse.Cell)) (isCrib : bool) :
  (rejected input /\ Sparse.scoreHand input isCrib = Ok None) \/
  (holed input /\ Sparse.scoreHand input isCrib = TypeError) \/
  (complete input /\ exists rep, Sparse.scoreHand input isCrib = Ok (Some rep)).
Proof.
  destruct input as [cards|]; [|left; split; [exact I|reflexivity]].
  destruct (Nat.eq_dec (length cards) 5) as [Hlen|Hlen].
  - destruct (cells_cases cards) as [H|[[Hn Hh]|(cs & ->)]].
    + left. split; [now right|]. unfold Sparse.scoreHand.
      apply some_absent_elements in H. rewrite H. now rewrite orb_true_r.
    + right. left. split; [now exists cards|]. unfold Sparse.scoreHand.
      destruct (Z.eqb_spec (Z.of_nat (length cards)) 5) as [_|]; [|lia].
      destruct (Sparse.some absent cards) eqn:E;
        [apply some_absent_elements in E; tauto|].
      cbn [negb orb]. now rewrite scoreFifteens_reads_holes.
    + right. right. rewrite !length_map in Hlen.
      destruct cs as [|c0 [|c1 [|c2 [|c3 [|c4 [|c5 cs]]]]]]; try discriminate.
      split; [now exists c0, c1, c2, c3, c4|].
      change (map Some [c0; c1; c2; c3; c4]) with (hand c0 c1 c2 c3 c4).
      rewrite scoreHand_dense.
      destruct (scoreHand_present c0 c1 c2 c3 c4 isCrib)
        as (f & p & r & fl & n & _ & _ & _ & _ & _ & E).
      eauto.
  - left. split; [now left|]. unfold Sparse.scoreHand.
    destruct (Z.eqb_spec (Z.of_nat (length cards)) 5); [lia|reflexivity].
Qed.

Lemma rejected_not_holed (input : option (list Sparse.Cell)) :
  rejected input -> ~ holed input.
Proof.
  intros Hr (cards & -> & Hlen & Hn & _). destruct Hr; tauto.
Qed.

Lemma complete_dense (input : option (list Sparse.Cell)) :
  complete input -> ~ rejected input /\ ~ holed input.
Proof.
  intros (c0 & c1 & c2 & c3 & c4 & ->). split.
  - intros [H|H]; [now apply H|]. cbn in H. intuition discriminate.
  - intros (cards & E & _ & _ & H). injection E as <-. cbn in H.
    intuition discriminate.
Qed.

(** C9, as stated, fails: on the array [[5♠, 5♥, 5♦, J♣, ,]], of length 5
    with a hole, the scorer returns neither its null result nor a report.
    The guard's [some] does not visit the hole, and the fifteens evaluator
    throws when it reads it. *)
Lemma scoreHand_throws_on_hole :
  length hole_at_cut = 5%nat /\
  Sparse.scoreHand (Some hole_at_cut) false = TypeError /\
  ~ (Sparse.scoreHand (Some hole_at_cut) false = Ok None \/
     exists rep, Sparse.scoreHand (Some hole_at_cut) false = Ok (Some rep)).
Proof.
  assert (E : Sparse.scoreHand (Some hole_at_cut) false = TypeError)
    by (vm_compute; reflexivity).
  split; [reflexivity|]. split; [exact E|].
  rewrite E. intros [H|(rep & H)]; discriminate H.
Qed.

(** C9, amended. On every input, an array with holes included, the
    top-level scorer returns its null result exactly when the input is
    missing, has a length other than 5 or has a [null] element; it returns
    a report exactly when the input is an array of five cards without
    holes; and it throws exactly in the case that is left, an array of
    length 5 with a hole and no [null] element.  So on a missing input and
    on an array without holes it never throws: it returns its null result
    when the input is rejected, and a report otherwise. *)
Theorem scoreHand_outcomes (input : option (list Sparse.Cell)) (isCrib : bool) :
  (Sparse.scoreHand input isCrib = Ok None <-> rejected input) /\
  ((exists rep, Sparse.scoreHand input isCrib = Ok (Some rep)) <->
   complete input) /\
  (Sparse.scoreHand input isCrib = TypeError <-> holed input) /\
  ((forall cards, input = Some cards -> ~ In Sparse.Hole cards) ->
   (rejected input /\ Sparse.scoreHand input isCrib = Ok None) \/
   (~ rejected input /\
    exists rep, Sparse.scoreHand input isCrib = Ok (Some rep))).
Proof.
  assert (Hthrow : Sparse.scoreHand input isCrib = TypeError <-> holed input).
  { destruct (scoreHand_cases input isCrib)
      as [[Hr E]|[[Hh E]|[Hc (rep & E)]]]; rewrite E.
    - split; [discriminate|]. intros H. now apply rejected_not_holed in H.
    - tauto.
    - split; [discriminate|]. intros H. now apply complete_dense in Hc. }
  split; [|split; [|split; [exact Hthrow|]]].
  - destruct (scoreHand_cases input isCrib)
      as [[Hr E]|[[Hh E]|[Hc (rep & E)]]]; rewrite E.
    + tauto.
    + split; [discriminate|]. intros H. now apply rejected_not_holed in H.
    + split; [discriminate|]. intros H. now apply complete_dense in Hc.
  - destruct (scoreHand_cases input isCrib)
      as [[Hr E]|[[Hh E]|[Hc (rep & E)]]]; rewrite E.
    + split; [intros (rep & H); discriminate H|].
      intros H. now apply complete_dense in H.
    + split; [intros (rep & H); discriminate H|].
      intros H. now apply complete_dense in H.
    + split; [tauto|eauto].
  - intros Hdense.
    destruct (scoreHand_cases input isCrib)
      as [[Hr E]|[[(cards & Hi & _ & _ & Hh) _]|[Hc (rep & E)]]].
    + now left.
    + destruct (Hdense cards Hi Hh).
    + right. split; [now apply complete_dense in Hc|eauto].
Qed.

Lemma scoreHand_outcomes_witness :
  (forall cards, Some (map Sparse.Elem test1) = Some cards ->
                 ~ In Sparse.Hole cards) /\
  ~ rejected (Some (map Sparse.Elem test1)) /\
  exists rep,
    Sparse.scoreHand (Some (map Sparse.Elem test1)) false = Ok (Some rep).
Proof.
  assert (H : forall cards, Some (map Sparse.Elem test1) = Some cards ->
                            ~ In Sparse.Hole cards).
  { intros cards E. injection E as <-. cbn. intuition discriminate. }
  split; [exact H|].
  destruct (proj2 (proj2 (proj2
              (scoreHand_outcomes (Some (map Sparse.Elem test1)) false))) H)
    as [[Hr _]|Hok]; [|exact Hok].
  exfalso. destruct Hr as [Hr|Hr]; [now apply Hr|].
  cbn in Hr. intuition discriminate.
Defined.

(** * Further properties of the program *)

(** ** Tokens *)

Lemma slice_split_last {A : Type} (x : A) (s : list A) :
  slice (x :: s) 0 (Some (-1)) ++ slice (x :: s) (-1) None = x :: s.
Proof.
  unfold slice, rel_index.
  set (l := x :: s). set (len := Z.of_nat (length l)).
  assert (Hlen : 1 <= len) by (unfold len, l; simpl length; lia).
  change (0 <? 0) with false. change (-1 <? 0) with true. cbv iota.
  rewrite Z.min_l, Z.max_l by lia.
  replace (Z.to_nat (len + -1 - 0)) with (length l - 1)%nat by lia.
  replace (Z.to_nat (len - (len + -1))) with 1%nat by lia.
  replace (Z.to_nat (len + -1)) with (length l - 1)%nat by lia.
  change (Z.to_nat 0) with 0%nat. cbn [skipn].
  rewrite (firstn_all2 (n := 1)); [apply firstn_skipn|].
  rewrite length_skipn. lia.
Qed.

Lemma parseCard_formatCard_slot (c : slot) :
  parseCard (Some (formatCard c)) = c.
Proof. destruct c as [[[] []]|]; reflexivity. Qed.

(** X1. [parseCard] accepts exactly the tokens that [formatCard] writes:
    a token parses to a card if and only if it is the formatted card. *)
Theorem parseCard_accepts_formatted (token : jsstring) (c : card) :
  parseCard (Some token) = Some c <-> token = formatCard (Some c).
Proof.
  split; [|intros ->; apply parseCard_formatCard_slot].
  destruct token as [|u token]; [discriminate|].
  unfold parseCard.
  destruct (rank_of_str (slice (u :: token) 0 (Some (-1)))) as [r|] eqn:Er;
    [|discriminate].
  destruct (suit_of_str (slice (u :: token) (-1) None)) as [v|] eqn:Ev;
    [|discriminate].
  intros H. injection H as <-. cbn [formatCard rank suit].
  apply rank_of_str_some in Er. apply suit_of_str_some in Ev.
  rewrite <- Er, <- Ev. symmetry. apply slice_split_last.
Qed.

(** X2. [formatCard] writes different tokens for different slots, and the
    empty token for the absent card only. *)
Theorem formatCard_injective (a b : slot) :
  (formatCard a = formatCard b -> a = b) /\
  (formatCard a = [] <-> a = None).
Proof.
  split.
  - intros H. rewrite <- (parseCard_formatCard_slot a), H.
    apply parseCard_formatCard_slot.
  - split; [|intros ->; reflexivity].
    destruct a as [[[] []]|]; [discriminate..|reflexivity].
Qed.

Lemma formatCard_injective_witness :
  formatCard (mk R10 Hearts) = formatCard (mk R10 Hearts) /\
  mk R10 Hearts = mk R10 Hearts.
Proof.
  assert (H : formatCard (mk R10 Hearts) = formatCard (mk R10 Hearts))
    by reflexivity.
  split; [exact H|].
  exact (proj1 (formatCard_injective (mk R10 Hearts) (mk R10 Hearts)) H).
Defined.

(** ** The deck *)

Lemma distinct_tokens_sound (l : list jsstring) :
  distinct_tokens l = true -> NoDup l.
Proof.
  induction l as [|x l IH]; [constructor|]. simpl.
  intros H. apply andb_true_iff in H as [Hx Hl].
  constructor; [|now apply IH].
  intros Hin. apply negb_true_iff in Hx.
  assert (E : existsb (str_eqb x) l = true).
  { apply existsb_exists. exists x. split; [exact Hin|now apply str_eqb_eq]. }
  congruence.
Qed.

Lemma NoDup_DECK_tokens : NoDup (map (fun c => formatCard (Some c)) DECK).
Proof. apply distinct_tokens_sound. vm_compute. reflexivity. Qed.

(** X3. [DECK] holds each of the 52 cards exactly once, rank by rank in the
    order of [RANKS] and, within a rank, in the order of [SUITS]; the tokens
    of its cards are pairwise different. *)
Theorem DECK_complete :
  length DECK = 52%nat /\
  NoDup DECK /\
  (forall c : card, In c DECK) /\
  DECK = flat_map (fun r => map (fun s => {| rank := r; suit := s |}) SUITS)
           RANKS /\
  NoDup (map (fun c => formatCard (Some c)) DECK).
Proof.
  split; [reflexivity|].
  split; [exact (NoDup_map_inv _ _ NoDup_DECK_tokens)|].
  split; [intros [[] []]; vm_compute; tauto|].
  split; [reflexivity|exact NoDup_DECK_tokens].
Qed.

(** ** Card values *)

(** X4. The sequence value of a card is the position of its rank in
    [RANKS], counted from 1 (so it lies between 1 and 13), and its
    fifteen-value is the sequence value capped at 10; both functions throw
    on an absent card. *)
Theorem card_values (c : card) :
  (exists k,
      getNumericRank (Some c) = Ok k /\ 1 <= k <= 13 /\
      nth_error RANKS (Z.to_nat (k - 1)) = Some (rank c) /\
      getCardValue (Some c) = Ok (Z.min k 10)) /\
  getNumericRank None = TypeError /\ getCardValue None = TypeError.
Proof.
  split; [|split; reflexivity].
  exists (sequenceValue (rank c)).
  split; [apply getNumericRank_present|].
  destruct c as [[] s]; cbn [rank sequenceValue];
    (split; [lia|]); split; reflexivity.
Qed.

(** ** Fifteens, for any number of cards *)

Lemma subsets_subseq {A : Type} (l s : list A) :
  In s (subsets l) <-> Subseq s l.
Proof.
  revert s. induction l as [|x l IH]; intros s; cbn [subsets].
  - split.
    + intros [<-|[]]. constructor.
    + intros H. inversion H. now left.
  - rewrite in_flat_map. split.
    + intros (t & Ht & [<-|[<-|[]]]); apply IH in Ht; now constructor.
    + intros H. inversion H as [|? ? ? H'|? t ? H']; subst.
      * exists s. split; [now apply IH|now left].
      * exists t. split; [now apply IH|right; now left].
Qed.

(** X5. For any list of at most 30 present cards, the fifteens evaluator
    reports exactly the non-empty subsequences of the cards whose
    fifteen-values sum to 15, as lists of tokens, and gives 2 points for
    each combination it reports. *)
Theorem scoreFifteens_combinations (cs : list card) :
  (length cs <= 30)%nat ->
  exists rep,
    scoreFifteens (map Some cs) = Ok rep /\
    fifteens_points rep = 2 * Z.of_nat (length (combinations rep)) /\
    combinations rep
    = map (fun s => map (fun c => formatCard (Some c)) s) (fifteen_subsets cs) /\
    (forall s, In s (fifteen_subsets cs) <->
               Subseq s cs /\ s <> [] /\ fifteen_sum s = 15).
Proof.
  intros Hlen. eexists. split; [now apply scoreFifteens_present|].
  cbn [fifteens_points combinations]. rewrite length_map.
  split; [reflexivity|]. split.
  - apply map_ext. intros s. now rewrite map_map.
  - intros s. unfold fifteen_subsets, nonempty_subsets.
    rewrite !filter_In, subsets_subseq, Z.eqb_eq.
    destruct s; simpl; intuition congruence.
Qed.

Lemma scoreFifteens_combinations_witness :
  (length [card_of R7 Clubs; card_of R8 Hearts] <= 30)%nat /\
  exists rep,
    scoreFifteens (map Some [card_of R7 Clubs; card_of R8 Hearts]) = Ok rep /\
    fifteens_points rep = 2 * Z.of_nat (length (combinations rep)).
Proof.
  assert (H : (length [card_of R7 Clubs; card_of R8 Hearts] <= 30)%nat)
    by (simpl; lia).
  split; [exact H|].
  destruct (scoreFifteens_combinations _ H) as (rep & Hrep & Hp & _).
  exists rep. split; [exact Hrep|exact Hp].
Defined.

(** X6. The subset masks are 32-bit integers.  On 31 slots the bound
    [1 << n] of the loop over the masks is -2147483648; on 32 slots the
    shift count wraps to 0 and the bound is 1, as it is on the empty array.
    In the three cases the loop, which starts at mask 1, visits no subset,
    and the evaluator returns 0 points whatever the slots hold. *)
Theorem scoreFifteens_mask_overflow (cards : list slot) :
  cards = [] \/ length cards = 31%nat \/ length cards = 32%nat ->
  shl 1 (Z.of_nat (length cards))
  = (if Nat.eqb (length cards) 31 then -2147483648 else 1) /\
  range 1 (shl 1 (Z.of_nat (length cards))) = [] /\
  scoreFifteens cards = Ok {| fifteens_points := 0; combinations := [] |}.
Proof.
  intros [->|[H|H]]; unfold scoreFifteens; [|rewrite H..].
  - repeat split; reflexivity.
  - change (shl 1 (Z.of_nat 31)) with (-2147483648).
    rewrite range_nil by lia. repeat split; reflexivity.
  - change (shl 1 (Z.of_nat 32)) with 1.
    rewrite range_nil by lia. repeat split; reflexivity.
Qed.

Lemma scoreFifteens_mask_overflow_witness :
  (thirty_one_fives = [] \/ length thirty_one_fives = 31%nat \/
   length thirty_one_fives = 32%nat) /\
  shl 1 (Z.of_nat (length thirty_one_fives)) = -2147483648 /\
  scoreFifteens thirty_one_fives
  = Ok {| fifteens_points := 0; combinations := [] |}.
Proof.
  assert (H : thirty_one_fives = [] \/ length thirty_one_fives = 31%nat \/
              length thirty_one_fives = 32%nat) by (right; left; reflexivity).
  split; [exact H|].
  destruct (scoreFifteens_mask_overflow thirty_one_fives H) as (Hb & _ & Hs).
  split; [exact Hb|exact Hs].
Defined.

(** ** Pairs, for any number of cards *)

Lemma pairs_fold_labels (es : list (Rank * Z)) (totalPoints : Z)
  (pairs : list jsstring) :
  snd (fold_left pairs_step es (totalPoints, pairs))
  = pairs ++ flat_map (fun e => pair_label (fst e) (snd e)) es.
Proof.
  revert totalPoints pairs.
  induction es as [|[r k] es IH]; intros totalPoints pairs.
  - simpl. now rewrite app_nil_r.
  - cbn [fold_left flat_map fst snd]. unfold pairs_step at 2, pair_label at 1.
    destruct (Z.geb_spec k 2) as [Hge|Hlt].
    + destruct (Z.eqb_spec k 2); [rewrite IH; now rewrite <- app_assoc|].
      destruct (Z.eqb_spec k 3); [rewrite IH; now rewrite <- app_assoc|].
      destruct (Z.eqb_spec k 4); rewrite IH;
        [now rewrite <- app_assoc|reflexivity].
    + destruct (Z.eqb_spec k 2); [lia|].
      destruct (Z.eqb_spec k 3); [lia|].
      destruct (Z.eqb_spec k 4); [lia|].
      rewrite IH. reflexivity.
Qed.

Lemma flat_map_keys {K B : Type} (g : K -> list B) (ks : list K) :
  forall R : list K,
    NoDup ks -> NoDup R -> incl ks R ->
    (forall r, In r R -> ~ In r ks -> g r = []) ->
    Permutation (flat_map g ks) (flat_map g R).
Proof.
  induction ks as [|k ks IH]; intros R Hks HR Hincl Hnil.
  - cbn [flat_map]. clear HR Hincl. induction R as [|r R IHR]; [constructor|].
    cbn [flat_map]. rewrite (Hnil r) by (simpl; tauto). cbn [app].
    apply IHR. intros r' Hr'. apply Hnil. now right.
  - inversion Hks as [|? ? Hk Hks']; subst.
    destruct (in_split k R) as (R1 & R2 & ->); [apply Hincl; now left|].
    rewrite flat_map_app. cbn [flat_map].
    rewrite (IH (R1 ++ R2)).
    + rewrite flat_map_app. apply Permutation_app_swap_app.
    + assumption.
    + now apply NoDup_remove_1 in HR.
    + intros x Hx.
      assert (Hx' : In x (R1 ++ k :: R2)) by (apply Hincl; now right).
      apply in_app_or in Hx' as [Hx'|[->|Hx']];
        [apply in_or_app; tauto|tauto|apply in_or_app; tauto].
    + intros r Hr Hnr. apply Hnil.
      * apply in_app_or in Hr. apply in_or_app. simpl. tauto.
      * intros [->|Hr']; [|tauto].
        apply NoDup_remove_2 in HR. tauto.
Qed.

(** X7. For any list of present cards, the pairs evaluator returns the sum
    of the points of the 13 ranks, and its labels are, up to their order,
    the labels of the 13 ranks: exactly one label for each rank that is held
    2, 3 or 4 times ("Pair of", "Three", "Four"), each once, and no other
    label; a rank held 5 times or more gets no label and no points. *)
Theorem scorePairs_labels (cs : list card) :
  exists rep,
    scorePairs (map Some cs) = Ok rep /\
    pairs_points rep = zsum (map (fun r => pair_table (rank_count r cs)) RANKS) /\
    Permutation (pairs_list rep)
      (flat_map (fun r => pair_label r (rank_count r cs)) RANKS) /\
    (forall r,
        length (pair_label r (rank_count r cs))
        = if (2 <=? rank_count r cs) && (rank_count r cs <=? 4)
          then 1%nat else 0%nat) /\
    (forall r, 5 <= rank_count r cs ->
               pair_table (rank_count r cs) = 0 /\
               pair_label r (rank_count r cs) = []).
Proof.
  destruct (scorePairs_present cs) as (rep & Hrep & Hpoints).
  exists rep. split; [exact Hrep|]. split; [exact Hpoints|].
  split; [|split].
  - destruct (count_loop cs [] []) as (o & Ho & Hnd & Hget).
    { split; [constructor|]. intros r. reflexivity. }
    cbn [app] in Hget. unfold scorePairs in Hrep. rewrite Ho in Hrep.
    cbn [bind] in Hrep.
    destruct (fold_left pairs_step (entries rank_index o) (0, []))
      as [totalPoints pairs] eqn:E.
    injection Hrep as <-. cbn [pairs_list].
    change pairs with (snd (totalPoints, pairs)).
    rewrite <- E, pairs_fold_labels. cbn [app].
    rewrite (entries_perm rank_index o).
    assert (Ekeys : flat_map (fun e => pair_label (fst e) (snd e)) o
                    = flat_map (fun r => pair_label r (rank_count r cs))
                        (map fst o)).
    { assert (Hin : forall e, In e o -> snd e = rank_count (fst e) cs).
      { intros [r k] Hin. cbn [fst snd].
        apply (get_in rank_eqb rank_eqb_eq _ _ _ Hnd) in Hin.
        rewrite Hget in Hin.
        destruct (rank_count r cs =? 0); [discriminate|congruence]. }
      clear - Hin. induction o as [|e o IH]; [reflexivity|].
      cbn [flat_map map]. rewrite (Hin e) by now left.
      f_equal. apply IH. intros e' He'. apply Hin. now right. }
    rewrite Ekeys. apply flat_map_keys.
    + exact Hnd.
    + exact NoDup_RANKS.
    + intros r _. apply in_RANKS.
    + intros r _ Hr. apply (get_none rank_eqb rank_eqb_eq) in Hr.
      rewrite Hget in Hr.
      destruct (Z.eqb_spec (rank_count r cs) 0) as [->|]; [reflexivity|discriminate].
  - intros r. unfold pair_label.
    destruct (Z.eqb_spec (rank_count r cs) 2) as [->|]; [reflexivity|].
    destruct (Z.eqb_spec (rank_count r cs) 3) as [->|]; [reflexivity|].
    destruct (Z.eqb_spec (rank_count r cs) 4) as [->|]; [reflexivity|].
    destruct (Z.leb_spec 2 (rank_count r cs)), (Z.leb_spec (rank_count r cs) 4);
      cbn [andb]; first [reflexivity|lia].
  - intros r Hr. rewrite pair_table_spec. unfold pair_label.
    destruct (Z.eqb_spec (rank_count r cs) 2); [lia|].
    destruct (Z.eqb_spec (rank_count r cs) 3); [lia|].
    destruct (Z.eqb_spec (rank_count r cs) 4); [lia|]. now split.
Qed.

Lemma scorePairs_labels_witness :
  5 <= rank_count R5 (repeat (card_of R5 Clubs) 5) /\
  pair_table (rank_count R5 (repeat (card_of R5 Clubs) 5)) = 0.
Proof.
  assert (H : 5 <= rank_count R5 (repeat (card_of R5 Clubs) 5))
    by (vm_compute; discriminate).
  split; [exact H|].
  destruct (scorePairs_labels (repeat (card_of R5 Clubs) 5))
    as (rep & _ & _ & _ & _ & H5).
  exact (proj1 (H5 R5 H)).
Defined.

(** ** Runs, for any number of cards *)


Lemma foldM_inv {A S : Type} (P : S -> Prop) (f : S -> A -> Exc S) (l : list A) :
  (forall s x s', In x l -> P s -> f s x = Ok s' -> P s') ->
  forall s s', P s -> foldM f l s = Ok s' -> P s'.
Proof.
  induction l as [|x l IH]; intros Hf s s' Hs H.
  - simpl in H. injection H as <-. exact Hs.
  - cbn [foldM] in H. destruct (f s x) as [s1|] eqn:E; [|discriminate].
    cbn [bind] in H. apply (IH (fun s0 y s0' Hy => Hf s0 y s0' (or_intror Hy)) s1);
      [|exact H].
    apply (Hf s x); [now left|exact Hs|exact E].
Qed.

(** The groups and the sorted ranks that [scoreRuns] hands to the search. *)
Lemma scoreRuns_groups (cs : list card) :
  (3 <= length cs)%nat ->
  exists G ranks,
    scoreRuns (map Some cs) = longest_run ranks G /\
    groups_ok G cs /\
    Sorted Z.lt ranks /\
    (forall v, In v ranks <-> In v (seq_values cs)).
Proof.
  intros Hlen. unfold scoreRuns. rewrite length_map.
  destruct (Z.ltb_spec (Z.of_nat (length cs)) 3); [lia|].
  destruct (group_loop cs [] []) as (G & HG & Hnd & Hget).
  { split; [constructor|]. intros v. reflexivity. }
  cbn [app] in Hget. rewrite HG. cbn [bind].
  exists G, (sort_by (fun a => a) (keys num_index G)).
  set (ranks := sort_by (fun a => a) (keys num_index G)).
  assert (Hperm : Permutation ranks (map fst G)).
  { unfold ranks, keys. rewrite sort_by_perm.
    apply Permutation_map, entries_perm. }
  split; [reflexivity|]. split; [now split|]. split.
  - apply sorted_strict; [apply sort_by_sorted|].
    apply (Permutation_NoDup (Permutation_sym Hperm)), Hnd.
  - intros v. rewrite in_seq_values_group. split.
    + intros Hv Hnil. apply (Permutation_in _ Hperm) in Hv.
      apply (get_none Z.eqb Z.eqb_eq G v); [|exact Hv].
      now rewrite Hget, Hnil.
    + intros Hv. apply (Permutation_in _ (Permutation_sym Hperm)).
      destruct (in_dec Z.eq_dec v (map fst G)) as [Hi|Hni]; [exact Hi|].
      apply (get_none Z.eqb Z.eqb_eq) in Hni. rewrite Hget in Hni.
      destruct (value_group v cs); [congruence|discriminate].
Qed.

Lemma report_window_shape (cs : list card) (G : list (Z * list slot))
  (ranks : list Z) (len i : Z) :
  groups_ok G cs ->
  (forall v, In v ranks <-> In v (seq_values cs)) ->
  0 <= i -> i + len <= Z.of_nat (length ranks) ->
  exists m cards,
    1 <= m /\
    report_window len ranks G i
    = Ok {| runs_points := len * m;
            runs_list := [ {| run_length := len; run_multiplier := m;
                              run_cards := cards |} ] |}.
Proof.
  intros [Hnd Hget] Hin Hi Hlen.
  assert (Hgroup : forall v, In v ranks ->
                     exists g, get Z.eqb G v = Some g /\ g <> []).
  { intros v Hv. rewrite Hget. apply Hin, in_seq_values_group in Hv.
    destruct (value_group v cs) as [|c g]; [congruence|].
    eexists. split; [reflexivity|discriminate]. }
  destruct (multiplier_of_ok ranks G) with (len := len) (i := i)
    as ([m rs] & Hm); [|assumption..|].
  { intros v Hv. destruct (Hgroup v Hv) as (g & Hg & _). eauto. }
  assert (Hinv : 1 <= m /\ forall r, In r rs -> In r ranks).
  { apply (foldM_inv (fun st => 1 <= fst st /\ forall r, In r (snd st) -> In r ranks)
             (mult_step ranks G i) (range 0 len)) with (s := (1, [])) (s' := (m, rs));
      [|simpl; split; [lia|tauto]|exact Hm].
    intros [m0 rs0] j [m1 rs1] Hj [Hm0 Hrs0] Hstep. cbn [fst snd] in *.
    unfold mult_step in Hstep.
    destruct (index ranks (i + j)) as [r|] eqn:Er; [|discriminate].
    assert (Hr : In r ranks).
    { unfold index in Er. destruct (i + j <? 0); [discriminate|].
      eapply nth_error_In; eauto. }
    destruct (Hgroup r Hr) as (g & Hg & Hne).
    unfold group_of in Hstep. rewrite Hg in Hstep. cbn [bind] in Hstep.
    injection Hstep as <- <-. split.
    - destruct g; [congruence|]. simpl length. nia.
    - intros r' Hr'. apply in_app_or in Hr' as [Hr'|[<-|[]]]; auto. }
  destruct Hinv as [Hm1 Hrs].
  destruct (foldM_ok (collect_step G) rs) with (s := @nil slot) as (cards & Hc).
  { intros s r Hr. unfold collect_step.
    destruct (Hgroup r (Hrs r Hr)) as (g & Hg & _).
    unfold group_of. rewrite Hg. simpl. eauto. }
  exists m, (map formatCard cards). split; [exact Hm1|].
  unfold report_window. rewrite Hm. cbn [bind]. unfold report_run.
  cbn [best_ranks best_length best_multiplier]. rewrite Hc. reflexivity.
Qed.

Lemma first_window_bounds (len : Z) (ranks : list Z) (i : Z) :
  first_window len ranks = Some i ->
  0 <= i /\ i + len <= Z.of_nat (length ranks).
Proof.
  unfold first_window.
  destruct (Z.of_nat (length ranks) >=? len); [|discriminate].
  intros H. apply find_some in H as [H _]. apply in_range in H. lia.
Qed.

(** X9. For any list of at least 3 present cards the runs evaluator returns
    either no run and 0 points, or one run whose length is 5, 4 or 3 (never
    more, however many consecutive ranks the cards hold), with a multiplier
    of at least 1 and the length times the multiplier as points. *)
Theorem scoreRuns_shape (cs : list card) :
  (3 <= length cs)%nat ->
  exists rep,
    scoreRuns (map Some cs) = Ok rep /\
    (rep = {| runs_points := 0; runs_list := [] |} \/
     exists len m cards,
       In len [5; 4; 3] /\ 1 <= m /\
       rep = {| runs_points := len * m;
                runs_list := [ {| run_length := len; run_multiplier := m;
                                  run_cards := cards |} ] |}).
Proof.
  intros Hlen.
  destruct (scoreRuns_groups cs Hlen) as (G & ranks & -> & HG & _ & Hin).
  rewrite longest_run_windows.
  2: { intros v Hv. destruct HG as [_ Hget]. rewrite Hget.
       apply Hin, in_seq_values_group in Hv.
       destruct (value_group v cs); [congruence|eauto]. }
  assert (Hw : forall len i, In len [5; 4; 3] ->
             first_window len ranks = Some i ->
             exists rep,
               report_window len ranks G i = Ok rep /\
               exists len m cards,
                 In len [5; 4; 3] /\ 1 <= m /\
                 rep = {| runs_points := len * m;
                          runs_list := [ {| run_length := len;
                                            run_multiplier := m;
                                            run_cards := cards |} ] |}).
  { intros len i Hl Hf. apply first_window_bounds in Hf as [Hi Hb].
    destruct (report_window_shape cs G ranks len i HG Hin Hi Hb)
      as (m & cards & Hm & ->).
    eexists. split; [reflexivity|]. now exists len, m, cards. }
  destruct (first_window 5 ranks) as [i|] eqn:F5.
  { destruct (Hw 5 i) as (rep & -> & H); [simpl; tauto|exact F5|]. eauto. }
  destruct (first_window 4 ranks) as [i|] eqn:F4.
  { destruct (Hw 4 i) as (rep & -> & H); [simpl; tauto|exact F4|]. eauto. }
  destruct (first_window 3 ranks) as [i|] eqn:F3.
  { destruct (Hw 3 i) as (rep & -> & H); [simpl; tauto|exact F3|]. eauto. }
  eexists. split; [reflexivity|]. now left.
Qed.

Lemma scoreRuns_shape_witness :
  (3 <= length [card_of RA Clubs; card_of R2 Clubs; card_of R3 Hearts;
                card_of R4 Clubs; card_of R5 Spades; card_of R6 Clubs])%nat /\
  exists rep,
    scoreRuns (map Some [card_of RA Clubs; card_of R2 Clubs; card_of R3 Hearts;
                         card_of R4 Clubs; card_of R5 Spades; card_of R6 Clubs])
    = Ok rep.
Proof.
  assert (H : (3 <= length [card_of RA Clubs; card_of R2 Clubs;
                            card_of R3 Hearts; card_of R4 Clubs;
                            card_of R5 Spades; card_of R6 Clubs])%nat)
    by (simpl; lia).
  split; [exact H|].
  destruct (scoreRuns_shape _ H) as (rep & Hrep & _).
  exists rep. exact Hrep.
Defined.




(** ** Flush and nobs at the edges *)

(** X10. On fewer than 4 slots the flush evaluator returns 0 points.  On 4
    present cards and no cut card it returns, in hand mode, 4 points when
    the cards share a suit and 0 otherwise, and 0 points in crib mode. *)
Theorem scoreFlush_without_cut :
  (forall cards isCrib,
      (length cards < 4)%nat ->
      scoreFlush cards isCrib = Ok {| flush_points := 0 |}) /\
  (forall c0 c1 c2 c3,
      scoreFlush [Some c0; Some c1; Some c2; Some c3] true
      = Ok {| flush_points := 0 |} /\
      (hand_flush c0 c1 c2 c3 ->
       scoreFlush [Some c0; Some c1; Some c2; Some c3] false
       = Ok {| flush_points := 4 |}) /\
      (~ hand_flush c0 c1 c2 c3 ->
       scoreFlush [Some c0; Some c1; Some c2; Some c3] false
       = Ok {| flush_points := 0 |})).
Proof.
  split.
  - intros cards isCrib H. unfold scoreFlush.
    destruct (Z.ltb_spec (Z.of_nat (length cards)) 4); [reflexivity|lia].
  - intros c0 c1 c2 c3.
    assert (E : forall isCrib,
               scoreFlush [Some c0; Some c1; Some c2; Some c3] isCrib
               = Ok {| flush_points :=
                         if suit_eqb (suit c1) (suit c0)
                            && suit_eqb (suit c2) (suit c0)
                            && suit_eqb (suit c3) (suit c0)
                         then if isCrib then 0 else 4 else 0 |}).
    { intros isCrib. unfold scoreFlush.
      change (Z.of_nat (length _) <? 4) with false. cbv iota.
      change (slice [Some c0; Some c1; Some c2; Some c3] 0 (Some 4))
        with [Some c0; Some c1; Some c2; Some c3].
      change (slot_at [Some c0; Some c1; Some c2; Some c3] 4) with (@None card).
      rewrite hand_first. cbn [get_suit bind every cut_matches].
      rewrite suit_eqb_refl.
      destruct (suit_eqb (suit c1) (suit c0)); [|reflexivity].
      destruct (suit_eqb (suit c2) (suit c0)); [|reflexivity].
      destruct (suit_eqb (suit c3) (suit c0)); [|reflexivity].
      now destruct isCrib. }
    rewrite !E. unfold hand_flush.
    destruct (suit_eqb_spec (suit c1) (suit c0));
      destruct (suit_eqb_spec (suit c2) (suit c0));
      destruct (suit_eqb_spec (suit c3) (suit c0));
      cbn [andb]; repeat split; intros; first [reflexivity | tauto].
Qed.

Lemma scoreFlush_without_cut_witness :
  (length [mk RA Hearts; mk R9 Hearts] < 4)%nat /\
  scoreFlush [mk RA Hearts; mk R9 Hearts] false = Ok {| flush_points := 0 |} /\
  hand_flush (card_of RA Hearts) (card_of R9 Hearts) (card_of RK Hearts)
    (card_of R2 Hearts) /\
  scoreFlush [mk RA Hearts; mk R9 Hearts; mk RK Hearts; mk R2 Hearts] false
  = Ok {| flush_points := 4 |}.
Proof.
  assert (H : (length [mk RA Hearts; mk R9 Hearts] < 4)%nat) by (simpl; lia).
  assert (F : hand_flush (card_of RA Hearts) (card_of R9 Hearts)
                (card_of RK Hearts) (card_of R2 Hearts))
    by (unfold hand_flush; simpl; tauto).
  split; [exact H|].
  split; [exact (proj1 scoreFlush_without_cut _ false H)|].
  split; [exact F|].
  exact (proj1 (proj2 (proj2 scoreFlush_without_cut _ _ _ _)) F).
Defined.

(** X11. The nobs evaluator returns 0 points on fewer than 5 slots.  On a
    hand of five cards it returns 0 or 1 point; when it gives the point, a
    Jack of the cut card's suit is among the 4 hand cards and is the card
    reported, and without the point no card is reported.  The cut card does
    not count: a hand without a Jack among its 4 hand cards gets 0.  When
    the hand cards hold at most one Jack, the point is given exactly when
    that Jack has the cut card's suit. *)
Theorem scoreNobs_sound (c0 c1 c2 c3 c4 : card) :
  (forall cards, (length cards < 5)%nat ->
     scoreNobs cards = Ok {| nobs_points := 0; nobs_card := None |}) /\
  exists rep,
    scoreNobs (hand c0 c1 c2 c3 c4) = Ok rep /\
    (nobs_points rep = 0 /\ nobs_card rep = None \/
     nobs_points rep = 1 /\
     exists jack, In jack [c0; c1; c2; c3] /\ rank jack = RJ /\
                  suit jack = suit c4 /\
                  nobs_card rep = Some (formatCard (Some jack))) /\
    ((forall c, In c [c0; c1; c2; c3] -> rank c <> RJ) ->
     nobs_points rep = 0) /\
    ((forall a b, In a [c0; c1; c2; c3] -> In b [c0; c1; c2; c3] ->
                  rank a = RJ -> rank b = RJ -> a = b) ->
     (nobs_points rep = 1 <->
      exists jack, In jack [c0; c1; c2; c3] /\ rank jack = RJ /\
                   suit jack = suit c4)).
Proof.
  split.
  { intros cards H. unfold scoreNobs.
    destruct (Z.ltb_spec (Z.of_nat (length cards)) 5); [reflexivity|lia]. }
  eexists. split; [apply scoreNobs_hand|]. unfold nobs_of.
  destruct (first_jack [c0; c1; c2; c3]) as [j|] eqn:Ej.
  - unfold first_jack in Ej. pose proof (find_some _ _ Ej) as [Hin Hj].
    apply rank_eqb_eq in Hj.
    destruct (suit_eqb_spec (suit j) (suit c4)) as [Hs|Hs];
      cbn [nobs_points nobs_card].
    + split; [right; split; [reflexivity|]; now exists j|].
      split; [intros H; exfalso; exact (H j Hin Hj)|].
      intros _. split; [intros _; now exists j|reflexivity].
    + split; [now left|]. split; [reflexivity|].
      intros Hone. split; [discriminate|].
      intros (j' & Hin' & Hj' & Hs'). exfalso. apply Hs.
      now rewrite (Hone j j' Hin Hin' Hj Hj').
  - cbn [nobs_points nobs_card]. split; [now left|].
    split; [reflexivity|]. intros _. split; [discriminate|].
    intros (j' & Hin' & Hj' & _). exfalso.
    apply (find_none _ _ Ej) in Hin'. apply rank_eqb_neq in Hin'. tauto.
Qed.

Lemma scoreNobs_sound_witness :
  (length (firstn 4 test1) < 5)%nat /\
  scoreNobs (firstn 4 test1) = Ok {| nobs_points := 0; nobs_card := None |}.
Proof.
  assert (H : (length (firstn 4 test1) < 5)%nat) by (simpl; lia).
  split; [exact H|].
  exact (proj1 (scoreNobs_sound (card_of R5 Spades) (card_of R5 Hearts)
                  (card_of R5 Diamonds) (card_of RJ Clubs) (card_of R5 Clubs))
           _ H).
Defined.

(** ** The mode flag *)

(** X12. Scoring the same five cards as a hand and as a crib gives the same
    fifteens, pairs, runs and nobs reports; the two totals are equal, except
    that the hand scores 4 more when its 4 hand cards share a suit that the
    cut card does not have. *)
Theorem scoreHand_mode_toggle (c0 c1 c2 c3 c4 : card) :
  exists h c,
    scoreHand (Some (hand c0 c1 c2 c3 c4)) false = Ok (Some h) /\
    scoreHand (Some (hand c0 c1 c2 c3 c4)) true = Ok (Some c) /\
    fifteens h = fifteens c /\ pairs h = pairs c /\ runs h = runs c /\
    nobs h = nobs c /\
    (hand_flush c0 c1 c2 c3 /\ suit c4 <> suit c0 -> total h = total c + 4) /\
    (~ (hand_flush c0 c1 c2 c3 /\ suit c4 <> suit c0) -> total h = total c).
Proof.
  destruct (scoreHand_present c0 c1 c2 c3 c4 false)
    as (f & p & r & fl & n & Hf & Hp & Hr & Hfl & Hn & Hh).
  destruct (scoreHand_present c0 c1 c2 c3 c4 true)
    as (f' & p' & r' & fl' & n' & Hf' & Hp' & Hr' & Hfl' & Hn' & Hc).
  rewrite Hf in Hf'. rewrite Hp in Hp'. rewrite Hr in Hr'. rewrite Hn in Hn'.
  injection Hf' as <-. injection Hp' as <-. injection Hr' as <-.
  injection Hn' as <-.
  unfold hand in Hfl, Hfl'. rewrite scoreFlush_hand in Hfl, Hfl'.
  injection Hfl as <-. injection Hfl' as <-.
  eexists. eexists. split; [exact Hh|]. split; [exact Hc|].
  cbn [fifteens pairs runs nobs total flush_points cut_matches].
  repeat (split; [reflexivity|]). unfold hand_flush.
  destruct (suit_eqb_spec (suit c1) (suit c0));
    destruct (suit_eqb_spec (suit c2) (suit c0));
    destruct (suit_eqb_spec (suit c3) (suit c0));
    destruct (suit_eqb_spec (suit c4) (suit c0));
    cbn [andb]; split; intros; first [lia | tauto].
Qed.

Lemma scoreHand_mode_toggle_witness :
  (hand_flush (card_of RA Spades) (card_of R2 Spades) (card_of R3 Spades)
     (card_of R4 Spades) /\
   suit (card_of R5 Hearts) <> suit (card_of RA Spades)) /\
  exists h c,
    scoreHand (Some test5) false = Ok (Some h) /\
    scoreHand (Some test5) true = Ok (Some c) /\
    total h = total c + 4.
Proof.
  assert (H : hand_flush (card_of RA Spades) (card_of R2 Spades)
                (card_of R3 Spades) (card_of R4 Spades) /\
              suit (card_of R5 Hearts) <> suit (card_of RA Spades)).
  { split; [unfold hand_flush; simpl; tauto|simpl; discriminate]. }
  split; [exact H|].
  destruct (scoreHand_mode_toggle (card_of RA Spades) (card_of R2 Spades)
              (card_of R3 Spades) (card_of R4 Spades) (card_of R5 Hearts))
    as (h & c & Hh & Hc & _ & _ & _ & _ & Ht & _).
  exists h, c. split; [exact Hh|]. split; [exact Hc|exact (Ht H)].
Defined.

(** ** The order of the cards *)

Lemma length_filter_with_head {A : Type} (P : list A -> bool) (x : A)
  (L : list (list A)) :
  length (filter P (flat_map (fun s => [s; x :: s]) L))
  = (length (filter P L) + length (filter (fun s => P (x :: s)) L))%nat.
Proof.
  induction L as [|s L IH]; [reflexivity|].
  cbn [flat_map app filter]. destruct (P s), (P (x :: s)); cbn [length];
    rewrite IH; lia.
Qed.

Lemma count_sum_cons (t : Z) (x : card) (l : list card) :
  count_sum t (x :: l)
  = (count_sum t l + count_sum (t - fifteenValue (rank x)) l)%nat.
Proof.
  unfold count_sum. cbn [subsets]. rewrite length_filter_with_head.
  do 2 f_equal. apply filter_ext. intros s.
  unfold fifteen_sum, zsum. cbn [map fold_right].
  apply eq_true_iff_eq. rewrite !Z.eqb_eq. lia.
Qed.

Lemma count_sum_perm (l l' : list card) :
  Permutation l l' -> forall t, count_sum t l = count_sum t l'.
Proof.
  induction 1 as [|x l l' _ IH|x y l|l l' l'' _ IH1 _ IH2]; intros t.
  - reflexivity.
  - now rewrite !count_sum_cons, !IH.
  - rewrite !count_sum_cons.
    replace (t - fifteenValue (rank x) - fifteenValue (rank y))
      with (t - fifteenValue (rank y) - fifteenValue (rank x)) by lia.
    lia.
  - now rewrite IH1.
Qed.

Lemma fifteen_subsets_count (cs : list card) :
  length (fifteen_subsets cs) = count_sum 15 cs.
Proof.
  unfold fifteen_subsets, nonempty_subsets, count_sum.
  now rewrite filter_filter_imp
    by (intros [|c s] H; [discriminate H|reflexivity]).
Qed.

Lemma rank_count_perm (r : Rank) (l l' : list card) :
  Permutation l l' -> rank_count r l = rank_count r l'.
Proof.
  unfold rank_count. induction 1 as [|x l l' _ IH|x y l|l l' l'' _ IH1 _ IH2].
  - reflexivity.
  - simpl. destruct (rank_eqb (rank x) r); simpl length; lia.
  - simpl. destruct (rank_eqb (rank x) r), (rank_eqb (rank y) r); reflexivity.
  - lia.
Qed.

Lemma value_count_perm (v : Z) (l l' : list card) :
  Permutation l l' -> value_count v l = value_count v l'.
Proof.
  unfold value_count, value_group.
  induction 1 as [|x l l' _ IH|x y l|l l' l'' _ IH1 _ IH2].
  - reflexivity.
  - simpl. destruct (sequenceValue (rank x) =? v); simpl length; lia.
  - simpl. destruct (sequenceValue (rank x) =? v),
             (sequenceValue (rank y) =? v); reflexivity.
  - lia.
Qed.

Lemma is_run_perm (l l' : list card) (s L : Z) :
  Permutation l l' -> is_run l s L -> is_run l' s L.
Proof.
  intros H Hr k Hk. unfold seq_values.
  apply (Permutation_in _ (Permutation_map _ H)). now apply Hr.
Qed.

Lemma run_product_perm (l l' : list card) (s L : Z) :
  Permutation l l' -> run_product l s L = run_product l' s L.
Proof.
  intros H. unfold run_product. f_equal. apply map_ext.
  intros k. now apply value_count_perm.
Qed.

(** X13. The fifteens, pairs and runs scores of a 5-card hand do not depend
    on the order of the cards: two hands made of the same five cards get
    the same fifteens points, the same pairs points, and the same runs
    points with a run of the same length and multiplier. *)
Theorem scores_ignore_order (c0 c1 c2 c3 c4 d0 d1 d2 d3 d4 : card) :
  Permutation [c0; c1; c2; c3; c4] [d0; d1; d2; d3; d4] ->
  exists f f' p p' r r',
    scoreFifteens (hand c0 c1 c2 c3 c4) = Ok f /\
    scoreFifteens (hand d0 d1 d2 d3 d4) = Ok f' /\
    scorePairs (hand c0 c1 c2 c3 c4) = Ok p /\
    scorePairs (hand d0 d1 d2 d3 d4) = Ok p' /\
    scoreRuns (hand c0 c1 c2 c3 c4) = Ok r /\
    scoreRuns (hand d0 d1 d2 d3 d4) = Ok r' /\
    fifteens_points f = fifteens_points f' /\
    pairs_points p = pairs_points p' /\
    runs_points r = runs_points r' /\
    map (fun x => (run_length x, run_multiplier x)) (runs_list r)
    = map (fun x => (run_length x, run_multiplier x)) (runs_list r').
Proof.
  intros Hperm.
  set (cs := [c0; c1; c2; c3; c4]) in *. set (ds := [d0; d1; d2; d3; d4]) in *.
  pose proof (scoreFifteens_present cs ltac:(simpl; lia)) as Hf.
  pose proof (scoreFifteens_present ds ltac:(simpl; lia)) as Hf'.
  destruct (scorePairs_present cs) as (p & Hp & Hpp).
  destruct (scorePairs_present ds) as (p' & Hp' & Hpp').
  destruct (scoreRuns_present cs eq_refl) as (r & Hr & Hout).
  destruct (scoreRuns_present ds eq_refl) as (r' & Hr' & Hout').
  do 2 eexists. exists p, p', r, r'.
  split; [exact Hf|]. split; [exact Hf'|].
  split; [exact Hp|]. split; [exact Hp'|].
  split; [exact Hr|]. split; [exact Hr'|].
  split; [|split].
  - cbn [fifteens_points]. rewrite !fifteen_subsets_count.
    now rewrite (count_sum_perm cs ds Hperm).
  - rewrite Hpp, Hpp'. f_equal. apply map_ext. intros x.
    now rewrite (rank_count_perm x cs ds Hperm).
  - assert (Hsym : Permutation ds cs) by now apply Permutation_sym.
    destruct Hout as [[-> Hno]|(s & L & HL & Hs & Hmax & ->)];
      destruct Hout' as [[-> Hno']|(s' & L' & HL' & Hs' & Hmax' & ->)].
    + split; reflexivity.
    + exfalso. apply (Hno s'). apply (is_run_perm ds cs); [exact Hsym|].
      apply (is_run_prefix ds s' L'); [lia|exact Hs'].
    + exfalso. apply (Hno' s). apply (is_run_perm cs ds); [exact Hperm|].
      apply (is_run_prefix cs s L); [lia|exact Hs].
    + assert (L = L').
      { destruct (Z.lt_trichotomy L L') as [Hlt|[Heq|Hgt]]; [|exact Heq|].
        - exfalso. apply (Hmax s'). apply (is_run_perm ds cs); [exact Hsym|].
          apply (is_run_prefix ds s' L'); [lia|exact Hs'].
        - exfalso. apply (Hmax' s). apply (is_run_perm cs ds); [exact Hperm|].
          apply (is_run_prefix cs s L); [lia|exact Hs]. }
      subst L'.
      assert (s = s').
      { apply (longest_run_unique cs s s' L);
          [simpl; lia|exact HL|exact Hs| |exact Hmax].
        now apply (is_run_perm ds cs). }
      subst s'. cbn [run_report runs_points runs_list map run_length run_multiplier].
      now rewrite (run_product_perm cs ds s L Hperm).
Qed.

Lemma scores_ignore_order_witness :
  Permutation
    [card_of R3 Spades; card_of R3 Hearts; card_of R4 Spades; card_of R5 Spades;
     card_of R6 Spades]
    [card_of R3 Hearts; card_of R3 Spades; card_of R4 Spades; card_of R5 Spades;
     card_of R6 Spades] /\
  exists r r',
    scoreRuns test2 = Ok r /\
    scoreRuns [mk R3 Hearts; mk R3 Spades; mk R4 Spades; mk R5 Spades; mk R6 Spades]
    = Ok r' /\
    runs_points r = runs_points r'.
Proof.
  assert (H : Permutation
                [card_of R3 Spades; card_of R3 Hearts; card_of R4 Spades;
                 card_of R5 Spades; card_of R6 Spades]
                [card_of R3 Hearts; card_of R3 Spades; card_of R4 Spades;
                 card_of R5 Spades; card_of R6 Spades])
    by apply perm_swap.
  split; [exact H|].
  destruct (scores_ignore_order _ _ _ _ _ _ _ _ _ _ H)
    as (f & f' & p & p' & r & r' & _ & _ & _ & _ & Hr & Hr' & _ & _ & Hp & _).
  exists r, r'. split; [exact Hr|]. split; [exact Hr'|exact Hp].
Defined.

(** ** The selection *)

Lemma slot_at_nth (a : list slot) (k : nat) :
  slot_at a (Z.of_nat k)
  = match nth_error a k with Some c => c | None => None end.
Proof.
  unfold slot_at, index. destruct (Z.ltb_spec (Z.of_nat k) 0); [lia|].
  now rewrite Nat2Z.id.
Qed.

Lemma slot_at_some (a : list slot) (i : Z) (c : card) :
  slot_at a i = Some c ->
  0 <= i < Z.of_nat (length a) /\ nth_error a (Z.to_nat i) = Some (Some c).
Proof.
  unfold slot_at, index. destruct (Z.ltb_spec i 0); [discriminate|].
  destruct (nth_error a (Z.to_nat i)) as [s|] eqn:E; [|discriminate].
  intros ->. split; [|reflexivity].
  assert (Z.to_nat i < length a)%nat by (apply nth_error_Some; congruence). lia.
Qed.

Lemma length_store (a : list slot) (i : Z) (v : slot) :
  i < Z.of_nat (length a) -> length (store a i v) = length a.
Proof.
  intros H. unfold store. destruct (Z.ltb_spec i 0); [reflexivity|].
  destruct (Z.ltb_spec i (Z.of_nat (length a))); [|lia].
  rewrite length_app. cbn [length]. rewrite length_firstn, length_skipn. lia.
Qed.

Lemma nth_store (a : list slot) (i : Z) (v : slot) (j : nat) :
  0 <= i < Z.of_nat (length a) ->
  nth_error (store a i v) j
  = if Nat.eqb j (Z.to_nat i) then Some v else nth_error a j.
Proof.
  intros H. unfold store. destruct (Z.ltb_spec i 0); [lia|].
  destruct (Z.ltb_spec i (Z.of_nat (length a))); [|lia].
  set (k := Z.to_nat i). assert (Hk : (k < length a)%nat) by lia.
  destruct (Nat.eqb_spec j k) as [->|Hne].
  - rewrite nth_error_app2 by (rewrite length_firstn; lia).
    rewrite length_firstn. replace (k - Nat.min k (length a))%nat with 0%nat by lia.
    reflexivity.
  - destruct (Nat.lt_ge_cases j k) as [Hlt|Hge].
    + rewrite nth_error_app1 by (rewrite length_firstn; lia).
      now rewrite nth_error_firstn, (proj2 (Nat.ltb_lt j k) Hlt).
    + rewrite nth_error_app2 by (rewrite length_firstn; lia).
      rewrite length_firstn. replace (Nat.min k (length a)) with k by lia.
      destruct (j - k)%nat as [|m] eqn:Em; [lia|]. cbn [nth_error].
      rewrite nth_error_skipn. f_equal. lia.
Qed.

Lemma first_null_spec (a : list slot) (i : Z) :
  0 <= i ->
  (first_null a i = -1 /\ ~ In None a) \/
  (exists k, first_null a i = i + Z.of_nat k /\ (k < length a)%nat /\
             nth_error a k = Some None /\
             forall j, (j < k)%nat -> exists c, nth_error a j = Some (Some c)).
Proof.
  revert i. induction a as [|[c|] a IH]; intros i Hi.
  - left. split; [reflexivity|tauto].
  - cbn [first_null]. destruct (IH (i + 1) ltac:(lia)) as [[E Hn]|(k & E & Hk & Hnull & Hbefore)].
    + left. split; [exact E|]. intros [H|H]; [discriminate|tauto].
    + right. exists (S k). split; [lia|]. split; [simpl; lia|].
      split; [exact Hnull|]. intros [|j] Hj; [now exists c|].
      apply Hbefore. lia.
  - right. exists 0%nat. cbn [first_null].
    split; [lia|]. split; [simpl; lia|]. split; [reflexivity|].
    intros j Hj. lia.
Qed.

Lemma format_inj (a b : card) :
  formatCard (Some a) = formatCard (Some b) -> a = b.
Proof.
  intros H.
  pose proof (parseCard_formatCard_slot (Some a)) as Ha.
  rewrite H, parseCard_formatCard_slot in Ha. congruence.
Qed.

Lemma has_usedCards (selected : list slot) (c : card) :
  has (usedCards selected) (formatCard (Some c)) = true <-> In (Some c) selected.
Proof.
  unfold has, usedCards. rewrite existsb_exists. split.
  - intros (t & Ht & E). apply str_eqb_eq in E. subst t.
    apply in_map_iff in Ht as ([c'|] & E & Hin).
    + apply format_inj in E. subst c'. now apply filter_In in Hin.
    + apply filter_In in Hin as [_ Hin]. discriminate.
  - intros H. exists (formatCard (Some c)). split; [|now apply str_eqb_eq].
    apply in_map. apply filter_In. now split.
Qed.

Lemma all_selected (selected : list slot) :
  forallb (fun c => negb (absent c)) selected = true <-> ~ In None selected.
Proof.
  rewrite forallb_forall. split.
  - intros H Hin. now apply H in Hin.
  - intros H [c|] Hin; [reflexivity|tauto].
Qed.

Lemma not_all_selected (selected : list slot) :
  forallb (fun c => negb (absent c)) selected = false -> In None selected.
Proof.
  induction selected as [|[c|] l IH]; simpl; [discriminate|auto|auto].
Qed.

(** ** The score shown *)

Lemma scoreHand_result (input : option (list slot)) (isCrib : bool) :
  (not_scorable input /\ scoreHand input isCrib = Ok None) \/
  (~ not_scorable input /\ exists rep, scoreHand input isCrib = Ok (Some rep)).
Proof.
  destruct input as [cards|]; [|left; split; [exact I|reflexivity]].
  destruct (Nat.eq_dec (length cards) 5) as [Hlen|Hlen].
  - destruct (some absent cards) eqn:E.
    + left. apply some_absent in E.
      assert (H : not_scorable (Some cards)) by (now right).
      split; [exact H|now apply scoreHand_not_scorable].
    + right. assert (Hn : ~ In None cards).
      { intros H. apply some_absent in H. congruence. }
      split; [intros [H|H]; tauto|].
      destruct (present_slots cards Hlen Hn) as (c0 & c1 & c2 & c3 & c4 & ->).
      destruct (scoreHand_present c0 c1 c2 c3 c4 isCrib)
        as (f & p & r & fl & n & _ & _ & _ & _ & _ & H).
      eauto.
  - left. assert (H : not_scorable (Some cards)) by (now left).
    split; [exact H|now apply scoreHand_not_scorable].
Qed.

Lemma updateScore_ok (p : Page) :
  modeValue p <> None ->
  exists p', updateScore p = Ok p' /\ same_document p p'.
Proof.
  intros Hm. unfold updateScore.
  destruct (modeValue p) as [value|] eqn:Em; [|congruence].
  destruct (forallb (fun c => negb (absent c)) (selectedCards p)); cbn [negb].
  - destruct (scoreHand_result (Some (selectedCards p))
                (str_eqb value (lit "crib"))) as [[_ ->]|[_ (rep & ->)]];
      cbn [bind].
    + eexists. split; [reflexivity|]. now repeat split.
    + destruct (total rep =? 0); (eexists; split; [reflexivity|]);
        now repeat split.
  - eexists. split; [reflexivity|]. now repeat split.
Qed.

Lemma updateScore_shows (p : Page) :
  modeValue p <> None -> length (selectedCards p) = 5%nat ->
  exists p', updateScore p = Ok p' /\ same_document p p' /\ score_shows p'.
Proof.
  intros Hm Hlen. unfold updateScore, score_shows.
  destruct (modeValue p) as [value|] eqn:Em; [|congruence].
  destruct (forallb (fun c => negb (absent c)) (selectedCards p)) eqn:Eall;
    cbn [negb].
  - apply all_selected in Eall.
    destruct (scoreHand_result (Some (selectedCards p))
                (str_eqb value (lit "crib"))) as [[[H|H] _]|[_ (rep & E)]];
      [congruence|tauto|].
    rewrite E. cbn [bind].
    destruct (total rep =? 0) eqn:Et;
      (eexists; split; [reflexivity|]; split; [now repeat split|]);
      exists value; cbn; (split; [exact Em|]); (split; [tauto|]);
      intros _; exists rep; rewrite Et; now repeat split.
  - apply not_all_selected in Eall.
    eexists. split; [reflexivity|]. split; [now repeat split|].
    exists value. cbn. split; [exact Em|]. split; [now repeat split|tauto].
Qed.


(** ** The deck grid, the slots and the displays *)

Lemma updateAvailableCards_shows (p : Page) :
  (forall token red rankText suitText c disabled,
      In (DeckCard token red rankText suitText c disabled) (deckGrid p) ->
      token = formatCard (Some c)) ->
  deck_shows (updateAvailableCards p).
Proof.
  intros Htok token red rankText suitText c disabled Hin.
  unfold updateAvailableCards in Hin. cbn [deckGrid set_deckGrid] in Hin.
  apply in_map_iff in Hin as (el & E & Hin).
  destruct el as [text r|token' red' rt st c' d']; [discriminate|].
  injection E as <- <- <- <- <- <-.
  pose proof (Htok _ _ _ _ _ _ Hin) as ->.
  split; [reflexivity|]. cbn [selectedCards set_deckGrid].
  apply has_usedCards.
Qed.

Lemma deck_shows_tokens (p : Page) :
  deck_shows p ->
  forall token red rankText suitText c disabled,
    In (DeckCard token red rankText suitText c disabled) (deckGrid p) ->
    token = formatCard (Some c).
Proof. intros H token red rt st c d Hin. exact (proj1 (H _ _ _ _ _ _ Hin)). Qed.

Lemma updateAvailableCards_tokens (p : Page) :
  (forall token red rankText suitText c disabled,
      In (DeckCard token red rankText suitText c disabled) (deckGrid p) ->
      token = formatCard (Some c)) ->
  forall token red rankText suitText c disabled,
    In (DeckCard token red rankText suitText c disabled)
       (deckGrid (updateAvailableCards p)) ->
    token = formatCard (Some c).
Proof.
  intros H. apply deck_shows_tokens. now apply updateAvailableCards_shows.
Qed.

Lemma nth_map_index {A B : Type} (f : Z -> A -> B) (l : list A) (i : Z) (k : nat) :
  nth_error (map_index f i l) k
  = option_map (f (i + Z.of_nat k)) (nth_error l k).
Proof.
  revert i k. induction l as [|x l IH]; intros i [|k]; cbn [map_index nth_error];
    try reflexivity.
  - cbn [option_map]. do 2 f_equal. lia.
  - rewrite IH. do 2 f_equal. lia.
Qed.

Lemma length_map_index {A B : Type} (f : Z -> A -> B) (l : list A) (i : Z) :
  length (map_index f i l) = length l.
Proof.
  revert i. induction l as [|x l IH]; intros i; [reflexivity|].
  cbn [map_index length]. now rewrite IH.
Qed.

Lemma displayed_shows (p : Page) :
  handDisplay (displayed p)
  = map formatCard
      (filter (fun c => negb (absent c)) (firstn 4 (selectedCards p))) /\
  cutDisplay (displayed p)
  = map formatCard
      (filter (fun c => negb (absent c)) (firstn 1 (skipn 4 (selectedCards p)))).
Proof.
  unfold displayed. cbn [handDisplay cutDisplay set_displays].
  change (range 0 4) with [0; 1; 2; 3]. cbn [flat_map].
  destruct (selectedCards p) as [|[c0|] [|[c1|] [|[c2|] [|[c3|] [|[c4|] l]]]]];
    split; reflexivity.
Qed.

(** The page before the score is written, after the three updates. *)
Lemma refresh_ok (p : Page) :
  modeValue p <> None ->
  exists p',
    refresh p = Ok p' /\
    updateScore (displayed (updateAvailableCards (updateSlots p))) = Ok p' /\
    same_document (displayed (updateAvailableCards (updateSlots p))) p'.
Proof.
  intros Hm. unfold refresh, updateDisplay.
  destruct (updateScore_ok (displayed (updateAvailableCards (updateSlots p))))
    as (p' & E & Hsame); [exact Hm|].
  exists p'. split; [exact E|]. split; [exact E|exact Hsame].
Qed.

Lemma updateSlots_shows (p : Page) (k : nat) (el : SlotEl) :
  nth_error (cardSlots (updateSlots p)) k = Some el ->
  match slot_at (selectedCards p) (Z.of_nat k) with
  | Some c =>
      slot_selected el = true /\
      slot_content el = CardDisplay (formatCard (Some c)) (Z.of_nat k)
  | None =>
      slot_selected el = false /\
      slot_content el
      = SlotPlaceholder
          (if (k <? 4)%nat then lit "Card " ++ num_str (Z.of_nat k + 1)
           else lit "Cut Card")
  end.
Proof.
  unfold updateSlots. cbn [cardSlots set_cardSlots].
  rewrite nth_map_index. destruct (nth_error (cardSlots p) k); [|discriminate].
  cbn [option_map Z.add]. intros H. injection H as <-.
  destruct (slot_at (selectedCards p) (Z.of_nat k)); [now split|].
  split; [reflexivity|]. cbn [slot_content]. f_equal.
  destruct (Nat.ltb_spec k 4); destruct (Z.ltb_spec (Z.of_nat k) 4);
    first [reflexivity | lia].
Qed.

(** After the three updates the page shows the selection and its score. *)
Lemma refresh_shows (p : Page) :
  modeValue p <> None -> length (selectedCards p) = 5%nat ->
  (forall token red rankText suitText c disabled,
      In (DeckCard token red rankText suitText c disabled) (deckGrid p) ->
      token = formatCard (Some c)) ->
  exists p',
    refresh p = Ok p' /\
    selectedCards p' = selectedCards p /\ modeValue p' = modeValue p /\
    length (cardSlots p') = length (cardSlots p) /\
    deck_shows p' /\ slots_show p' /\ score_shows p'.
Proof.
  intros Hm Hlen Htok. unfold refresh, updateDisplay.
  set (q := displayed (updateAvailableCards (updateSlots p))).
  destruct (updateScore_shows q) as (p' & E & Hsame & Hscore);
    [exact Hm|exact Hlen|].
  destruct Hsame as (Hsel & Hgrid & Hslots & Hhand & Hcut & Hmode).
  exists p'. split; [exact E|]. split; [exact Hsel|]. split; [exact Hmode|].
  split; [|split; [|split; [|exact Hscore]]].
  - rewrite Hslots. unfold q, displayed, updateAvailableCards, updateSlots.
    cbn [cardSlots set_displays set_deckGrid set_cardSlots].
    apply length_map_index.
  - intros token red rt st c d Hin. rewrite Hgrid in Hin. rewrite Hsel.
    change (deckGrid q) with (deckGrid (updateAvailableCards (updateSlots p))) in Hin.
    change (selectedCards q)
      with (selectedCards (updateAvailableCards (updateSlots p))).
    revert Hin. now apply updateAvailableCards_shows.
  - unfold slots_show. rewrite Hslots, Hhand, Hcut, Hsel.
    split; [|apply (displayed_shows (updateAvailableCards (updateSlots p)))].
    intros k el Hk. exact (updateSlots_shows p k el Hk).
Qed.

(** ** The handlers *)

Lemma target_slot_spec (selected : list slot) :
  length selected = 5%nat ->
  exists k,
    target_slot selected = Z.of_nat k /\ (k < 5)%nat /\
    ((nth_error selected k = Some None /\
      forall j, (j < k)%nat -> exists c, nth_error selected j = Some (Some c)) \/
     (k = 4%nat /\ ~ In None selected)).
Proof.
  intros Hlen. unfold target_slot.
  destruct (first_null_spec selected 0 ltac:(lia))
    as [[E Hn]|(k & E & Hk & Hnull & Hbefore)]; rewrite E.
  - change (-1 =? -1) with true. cbv iota. exists 4%nat.
    split; [lia|]. split; [lia|]. now right.
  - destruct (Z.eqb_spec (0 + Z.of_nat k) (-1)); [lia|].
    exists k. split; [lia|]. split; [lia|]. now left.
Qed.

Lemma handleCardClick_cases (c : card) (p : Page) :
  (In (Some c) (selectedCards p) /\ handleCardClick c p = Ok p) \/
  (~ In (Some c) (selectedCards p) /\
   handleCardClick c p
   = refresh (set_selectedCards p
                (store (selectedCards p) (target_slot (selectedCards p))
                   (Some c)))).
Proof.
  unfold handleCardClick.
  destruct (has (usedCards (selectedCards p)) (formatCard (Some c))) eqn:E.
  - left. split; [now apply has_usedCards|reflexivity].
  - right. split; [|reflexivity]. intros H. apply has_usedCards in H. congruence.
Qed.

Lemma store_click_well (selected : list slot) (c : card) :
  well_selected selected -> ~ In (Some c) selected ->
  well_selected (store selected (target_slot selected) (Some c)).
Proof.
  intros [Hlen Hdist] Hc.
  destruct (target_slot_spec selected Hlen) as (k & -> & Hk & _).
  split; [rewrite length_store; lia|].
  intros i j x. rewrite !nth_store, Nat2Z.id by lia.
  destruct (Nat.eqb_spec i k) as [->|Hi]; destruct (Nat.eqb_spec j k) as [->|Hj];
    intros Hx Hy.
  - reflexivity.
  - injection Hx as <-. exfalso. apply Hc. eapply nth_error_In; eauto.
  - injection Hy as <-. exfalso. apply Hc. eapply nth_error_In; eauto.
  - eapply Hdist; eauto.
Qed.

Lemma store_remove_well (selected : list slot) (index : Z) (c : card) :
  well_selected selected -> slot_at selected index = Some c ->
  well_selected (store selected index None).
Proof.
  intros [Hlen Hdist] Hc. apply slot_at_some in Hc as [Hi _].
  split; [rewrite length_store; lia|].
  intros i j x. rewrite !nth_store by lia.
  destruct (Nat.eqb_spec i (Z.to_nat index)); [discriminate|].
  destruct (Nat.eqb_spec j (Z.to_nat index)); [discriminate|].
  apply Hdist.
Qed.

Lemma grid_cards_update (used : list jsstring) (grid : list GridEl) :
  grid_cards
    (map (fun el =>
            match el with
            | SuitHeader text red => SuitHeader text red
            | DeckCard token red rankText suitText card _ =>
                DeckCard token red rankText suitText card (has used token)
            end)
       grid)
  = grid_cards grid.
Proof.
  induction grid as [|[text red|token red rt st c d] grid IH];
    cbn [map grid_cards flat_map]; [reflexivity|exact IH|].
  f_equal. exact IH.
Qed.

Lemma handle_ok (e : Event) (p : Page) :
  page_ok p ->
  exists p',
    handle e p = Ok p' /\ page_ok p' /\
    length (cardSlots p') = length (cardSlots p) /\
    (effective e p -> score_shows p') /\
    (selecting e p -> slots_show p') /\
    (score_shows p -> score_shows p') /\
    (slots_show p -> slots_show p').
Proof.
  intros Hp. pose proof Hp as (Hm & Hwell & Hdeck & Hgrid).
  assert (Hrefresh : forall q,
             modeValue q = modeValue p -> deckGrid q = deckGrid p ->
             cardSlots q = cardSlots p ->
             well_selected (selectedCards q) ->
             exists p',
               refresh q = Ok p' /\ page_ok p' /\
               length (cardSlots p') = length (cardSlots p) /\
               score_shows p' /\ slots_show p').
  { intros q Hqm Hqg Hqs Hqw.
    destruct (refresh_shows q) as (p' & E & Hsel & Hmode & Hlen & Hd & Hs & Hsc).
    - congruence.
    - exact (proj1 Hqw).
    - rewrite Hqg. now apply deck_shows_tokens.
    - exists p'. split; [exact E|]. split; [|rewrite Hlen, Hqs; tauto].
      split; [congruence|]. split; [now rewrite Hsel|]. split; [exact Hd|].
      destruct (refresh_ok q) as (p'' & E' & _ & Hsame); [congruence|].
      rewrite E in E'. injection E' as <-.
      destruct Hsame as (_ & Hg & _). rewrite Hg.
      unfold displayed, updateAvailableCards, updateSlots.
      cbn [deckGrid set_displays set_deckGrid set_cardSlots].
      now rewrite grid_cards_update, Hqg. }
  destruct e as [c|index| |value]; cbn [handle effective selecting].
  - destruct (handleCardClick_cases c p) as [[Hin ->]|[Hin ->]].
    + exists p. split; [reflexivity|]. split; [exact Hp|].
      split; [reflexivity|]. tauto.
    + destruct (Hrefresh (set_selectedCards p
                            (store (selectedCards p)
                               (target_slot (selectedCards p)) (Some c))))
        as (p' & E & Hok & Hlen & Hsc & Hs); try reflexivity.
      { now apply store_click_well. }
      exists p'. tauto.
  - destruct (slot_at (selectedCards p) index) as [c|] eqn:Ec.
    + destruct (Hrefresh (set_selectedCards p
                            (store (selectedCards p) index None)))
        as (p' & E & Hok & Hlen & Hsc & Hs); try reflexivity.
      { now apply (store_remove_well _ _ c). }
      exists p'. unfold removeCardFromSlot. tauto.
    + exists p. split; [reflexivity|]. split; [exact Hp|].
      split; [reflexivity|]. tauto.
  - destruct (Hrefresh (set_classes
                          (set_selectedCards p [None; None; None; None; None])
                          false))
      as (p' & E & Hok & Hlen & Hsc & Hs); try reflexivity.
    { split; [reflexivity|]. intros [|[|[|[|[|i]]]]] j c H; try discriminate H.
      destruct i; discriminate H. }
    exists p'. unfold reset. tauto.
  - destruct (updateScore_shows (set_modeValue p (Some value)))
      as (p' & E & Hsame & Hsc); [discriminate|exact (proj1 Hwell)|].
    destruct Hsame as (Hsel & Hg & Hs & Hh & Hc & Hmode).
    cbn [selectedCards deckGrid cardSlots handDisplay cutDisplay modeValue
         set_modeValue] in *.
    exists p'. split; [exact E|]. split.
    { split; [congruence|]. split; [now rewrite Hsel|]. split; [|congruence].
      intros token red rt st c d Hin. rewrite Hg in Hin. rewrite Hsel.
      now apply Hdeck in Hin. }
    split; [congruence|]. split; [tauto|]. split; [tauto|]. split; [tauto|].
    unfold slots_show. now rewrite Hs, Hh, Hc, Hsel.
Qed.

Lemma run_ok (es : list Event) (p : Page) :
  page_ok p ->
  exists p',
    run es p = Ok p' /\ page_ok p' /\
    length (cardSlots p') = length (cardSlots p) /\
    (score_shows p -> score_shows p') /\
    (slots_show p -> slots_show p').
Proof.
  revert p. induction es as [|e es IH]; intros p Hp.
  - exists p. split; [reflexivity|]. tauto.
  - destruct (handle_ok e p Hp) as (p1 & E & Hp1 & Hlen & _ & _ & Hsc & Hs).
    destruct (IH p1 Hp1) as (p' & E' & Hp' & Hlen' & Hsc' & Hs').
    exists p'. unfold run in *. cbn [foldM]. rewrite E. cbn [bind].
    split; [exact E'|]. split; [exact Hp'|]. split; [congruence|]. tauto.
Qed.

Lemma deck_grid_value : deck_grid = Ok deck_elements.
Proof. vm_compute. reflexivity. Qed.

Lemma deck_elements_tokens (token : jsstring) (red : bool)
  (rankText suitText : jsstring) (c : card) (disabled : bool) :
  In (DeckCard token red rankText suitText c disabled) deck_elements ->
  token = formatCard (Some c).
Proof.
  unfold deck_elements. intros H. apply in_app_or in H as [H|H].
  - apply in_map_iff in H as (s & E & _). discriminate.
  - apply in_map_iff in H as (c' & E & _). unfold deck_card_el in E.
    now injection E as <- _ _ _ <- _.
Qed.

Lemma load_ok (p : Page) :
  selectedCards p = [None; None; None; None; None] -> modeValue p <> None ->
  exists p',
    load p = Ok p' /\ page_ok p' /\ selectedCards p' = selectedCards p /\
    length (cardSlots p') = length (cardSlots p) /\
    (handDisplay p = [] -> cutDisplay p = [] -> slots_show p').
Proof.
  intros Hsel Hm. unfold load, initializeDeck. rewrite deck_grid_value.
  cbn [bind]. eexists. split; [reflexivity|].
  split; [|split; [reflexivity|split]].
  - split; [exact Hm|]. split; [|split].
    + cbn [selectedCards updateSlots updateAvailableCards set_cardSlots
           set_deckGrid]. rewrite Hsel. split; [reflexivity|].
      intros [|[|[|[|[|i]]]]] j c H; try discriminate H.
      destruct i; discriminate H.
    + intros token red rt st c d Hin.
      apply (updateAvailableCards_shows (set_deckGrid p deck_elements)
               deck_elements_tokens _ _ _ _ _ _ Hin).
    + cbn [deckGrid updateSlots updateAvailableCards set_cardSlots set_deckGrid].
      rewrite grid_cards_update. vm_compute. reflexivity.
  - cbn [cardSlots updateSlots set_cardSlots]. apply length_map_index.
  - intros Hh Hc. split; [|split].
    + intros k el Hk.
      exact (updateSlots_shows
               (updateAvailableCards (set_deckGrid p deck_elements)) k el Hk).
    + cbn [handDisplay selectedCards updateSlots updateAvailableCards
           set_cardSlots set_deckGrid]. now rewrite Hh, Hsel.
    + cbn [cutDisplay selectedCards updateSlots updateAvailableCards
           set_cardSlots set_deckGrid]. now rewrite Hc, Hsel.
Qed.

Lemma start_page_loaded : load blank_page = Ok start_page.
Proof. unfold load, initializeDeck. rewrite deck_grid_value. reflexivity. Qed.

Lemma start_page_ok : page_ok start_page /\ slots_show start_page.
Proof.
  destruct (load_ok blank_page eq_refl) as (p & E & Hp & _ & _ & Hs);
    [discriminate|].
  rewrite start_page_loaded in E. injection E as <-.
  split; [exact Hp|now apply Hs].
Qed.

Lemma in_DECK (c : card) : In c DECK.
Proof. destruct c as [[] []]; vm_compute; tauto. Qed.

Lemma grid_card_in (grid : list GridEl) (c : card) :
  In c (grid_cards grid) ->
  exists token red rankText suitText disabled,
    In (DeckCard token red rankText suitText c disabled) grid.
Proof.
  unfold grid_cards. intros H. apply in_flat_map in H as (el & Hin & Hc).
  destruct el as [text red|token red rt st c' d]; [destruct Hc|].
  destruct Hc as [->|[]]. eauto 6.
Qed.

(** X14. [handleCardClick] changes nothing at all when the card is selected
    already.  Otherwise it puts the card into the first empty slot and
    leaves the other slots as they are; when no slot is empty, it is the
    cut card (slot 4) that it replaces.  Either way the card is selected
    afterwards, and the selection keeps its 5 slots. *)
Theorem handleCardClick_selection (c : card) (p : Page) :
  page_ok p ->
  exists p',
    handleCardClick c p = Ok p' /\
    (In (Some c) (selectedCards p) -> p' = p) /\
    (~ In (Some c) (selectedCards p) ->
     exists k,
       (k < 5)%nat /\
       nth_error (selectedCards p') k = Some (Some c) /\
       (forall j, j <> k ->
          nth_error (selectedCards p') j = nth_error (selectedCards p) j) /\
       ((nth_error (selectedCards p) k = Some None /\
         forall j, (j < k)%nat -> nth_error (selectedCards p) j <> Some None) \/
        (k = 4%nat /\ ~ In None (selectedCards p)))) /\
    In (Some c) (selectedCards p') /\
    length (selectedCards p') = 5%nat.
Proof.
  intros Hp. pose proof Hp as (Hm & [Hlen Hdist] & _).
  destruct (handle_ok (ClickCard c) p Hp) as (p' & E & Hp' & _).
  cbn [handle] in E. exists p'. split; [exact E|].
  destruct (handleCardClick_cases c p) as [[Hin E']|[Hin E']];
    rewrite E' in E.
  - injection E as <-. split; [reflexivity|]. split; [tauto|].
    split; [exact Hin|exact Hlen].
  - destruct (refresh_ok
                (set_selectedCards p
                   (store (selectedCards p) (target_slot (selectedCards p))
                      (Some c))) Hm) as (q & Eq & _ & Hsame).
    rewrite Eq in E. injection E as <-.
    destruct Hsame as (Hsel & _). cbn in Hsel.
    destruct (target_slot_spec _ Hlen) as (k & Ek & Hk & Hcase).
    rewrite Ek in Hsel.
    assert (Hat : nth_error (selectedCards q) k = Some (Some c)).
    { rewrite Hsel, nth_store, Nat2Z.id, Nat.eqb_refl by lia. reflexivity. }
    split; [tauto|]. split.
    + intros _. exists k. split; [exact Hk|]. split; [exact Hat|]. split.
      * intros j Hj. rewrite Hsel, nth_store, Nat2Z.id by lia.
        now destruct (Nat.eqb_spec j k).
      * destruct Hcase as [[Hnull Hbefore]|Hfull]; [left|now right].
        split; [exact Hnull|]. intros j Hj.
        destruct (Hbefore j Hj) as (x & ->). discriminate.
    + split; [eapply nth_error_In; eauto|].
      rewrite Hsel, length_store; lia.
Qed.

Lemma handleCardClick_selection_witness :
  page_ok start_page /\
  exists p',
    handleCardClick (card_of R7 Hearts) start_page = Ok p' /\
    In (mk R7 Hearts) (selectedCards p').
Proof.
  split; [exact (proj1 start_page_ok)|].
  destruct (handleCardClick_selection (card_of R7 Hearts) start_page
              (proj1 start_page_ok)) as (p' & E & _ & _ & Hin & _).
  exists p'. split; [exact E|exact Hin].
Defined.

(** X15. Once the page is loaded (with the initial selection of five
    [null]s and a mode checked), no sequence of clicks and mode changes
    makes a listener throw, and after it the selection still has 5 slots
    and holds no card twice, a mode is checked, the grid still offers the
    52 cards of [DECK] in order, every card has a deck card that carries
    its token and is disabled exactly when the card is selected, and the
    slot elements are as many as before. *)
Theorem session_keeps_page (p0 : Page) (es : list Event) :
  selectedCards p0 = [None; None; None; None; None] ->
  modeValue p0 <> None ->
  exists p1 p',
    load p0 = Ok p1 /\ run es p1 = Ok p' /\
    modeValue p' <> None /\
    well_selected (selectedCards p') /\
    grid_cards (deckGrid p') = DECK /\
    (forall c, exists red rankText suitText disabled,
        In (DeckCard (formatCard (Some c)) red rankText suitText c disabled)
          (deckGrid p') /\
        (disabled = true <-> In (Some c) (selectedCards p'))) /\
    length (cardSlots p') = length (cardSlots p0).
Proof.
  intros Hsel Hm.
  destruct (load_ok p0 Hsel Hm) as (p1 & E1 & Hp1 & _ & Hlen1 & _).
  destruct (run_ok es p1 Hp1) as (p' & E & Hp' & Hlen & _).
  exists p1, p'. split; [exact E1|]. split; [exact E|].
  destruct Hp' as (Hm' & Hw & Hd & Hg).
  split; [exact Hm'|]. split; [exact Hw|]. split; [exact Hg|].
  split; [|congruence].
  intros c. pose proof (in_DECK c) as Hc. rewrite <- Hg in Hc.
  destruct (grid_card_in _ _ Hc) as (token & red & rt & st & d & Hin).
  destruct (Hd _ _ _ _ _ _ Hin) as [-> Hdis].
  exists red, rt, st, d. split; [exact Hin|exact Hdis].
Qed.

Lemma session_keeps_page_witness :
  exists p1 p',
    load blank_page = Ok p1 /\
    run [ClickCard (card_of R5 Hearts); ClickCard (card_of R5 Hearts);
         RemoveCard 3; RemoveCard 0; ChangeMode (lit "crib"); ClickReset]
      p1 = Ok p' /\
    well_selected (selectedCards p').
Proof.
  assert (Hm : modeValue blank_page <> None) by discriminate.
  destruct (session_keeps_page blank_page
              [ClickCard (card_of R5 Hearts); ClickCard (card_of R5 Hearts);
               RemoveCard 3; RemoveCard 0; ChangeMode (lit "crib"); ClickReset]
              eq_refl Hm) as (p1 & p' & E1 & E & _ & Hw & _).
  exists p1, p'. split; [exact E1|]. split; [exact E|exact Hw].
Defined.

(** X16. [initializeDeck] never throws.  It replaces the children of the
    grid by the four suit headers followed by one deck card for each card
    of [DECK], in the order of [DECK]: 56 children.  A deck card carries the
    token of the card that its listener passes on, which [parseCard] reads
    back as that card, is red exactly for hearts and diamonds, shows the
    rank and the suit of its card, and is disabled exactly when its card is
    selected.  The selection is not touched. *)
Theorem initializeDeck_grid (p : Page) :
  exists p',
    initializeDeck p = Ok p' /\
    selectedCards p' = selectedCards p /\
    firstn 4 (deckGrid p')
    = [SuitHeader (suit_str Spades) false; SuitHeader (suit_str Hearts) true;
       SuitHeader (suit_str Diamonds) true; SuitHeader (suit_str Clubs) false] /\
    grid_cards (deckGrid p') = DECK /\
    length (deckGrid p') = 56%nat /\
    forall token red rankText suitText c disabled,
      In (DeckCard token red rankText suitText c disabled) (deckGrid p') ->
      token = formatCard (Some c) /\
      parseCard (Some token) = Some c /\
      (red = true <-> suit c = Hearts \/ suit c = Diamonds) /\
      rankText = rank_str (rank c) /\
      suitText = suit_str (suit c) /\
      (disabled = true <-> In (Some c) (selectedCards p)).
Proof.
  unfold initializeDeck. rewrite deck_grid_value. cbn [bind].
  eexists. split; [reflexivity|]. split; [reflexivity|].
  cbn [deckGrid selectedCards updateAvailableCards set_deckGrid].
  split; [|split; [|split]].
  - assert (E : deck_elements
                = SuitHeader (suit_str Spades) false
                  :: SuitHeader (suit_str Hearts) true
                  :: SuitHeader (suit_str Diamonds) true
                  :: SuitHeader (suit_str Clubs) false
                  :: map deck_card_el DECK) by reflexivity.
    rewrite E. reflexivity.
  - rewrite grid_cards_update. vm_compute. reflexivity.
  - rewrite length_map. reflexivity.
  - intros token red rt st c d Hin.
    apply in_map_iff in Hin as (el & E & Hin).
    destruct el as [text r|token' red' rt' st' c' d']; [discriminate|].
    injection E as <- <- <- <- <- <-.
    unfold deck_elements in Hin. apply in_app_or in Hin as [Hin|Hin];
      apply in_map_iff in Hin as (x & E & _); [discriminate|].
    unfold deck_card_el in E. injection E as <- <- <- <- <- _.
    split; [reflexivity|].
    split; [exact (parseCard_formatCard_slot (Some x))|].
    split; [destruct x as [r []]; cbn; intuition discriminate|].
    split; [reflexivity|]. split; [reflexivity|]. apply has_usedCards.
Qed.

(** X17. The slot elements and the two displays follow the selection.  On a
    page in order, every listener that changes the selection leaves each
    slot element showing the card of its slot with a remove button for its
    index, or its placeholder ([Card k], or [Cut Card] for slot 4), the
    hand display showing the tokens of the cards of slots 0 to 3 and the
    cut display the token of the card of slot 4; and no listener breaks
    that once it holds. *)
Theorem slots_follow_selection (e : Event) (p : Page) :
  page_ok p ->
  exists p',
    handle e p = Ok p' /\
    (selecting e p -> slots_show p') /\
    (slots_show p -> slots_show p').
Proof.
  intros Hp.
  destruct (handle_ok e p Hp) as (p' & E & _ & _ & _ & Hsel & _ & Hs).
  exists p'. split; [exact E|]. split; [exact Hsel|exact Hs].
Qed.

Lemma slots_follow_selection_witness :
  page_ok start_page /\
  exists p',
    handle (ClickCard (card_of RK Clubs)) start_page = Ok p' /\
    slots_show p'.
Proof.
  split; [exact (proj1 start_page_ok)|].
  destruct (slots_follow_selection (ClickCard (card_of RK Clubs)) start_page
              (proj1 start_page_ok)) as (p' & E & _ & Hs).
  exists p'. split; [exact E|exact (Hs (proj2 start_page_ok))].
Defined.

(** X18. The score shown follows the selection and the mode.  On a page in
    order, after every listener that runs the updates the total is [0]
    with the request for 5 cards (and both classes removed) while a slot is
    empty; with 5 cards it is the total of [scoreHand] for the checked
    mode, with the items of the breakdown, or, for a total of 0, with the
    message of the hand worth nothing and both classes set.  The branch of
    [updateScore] for a hand that [scoreHand] rejects is never taken.  No
    listener breaks that once it holds. *)
Theorem score_follows_selection (e : Event) (p : Page) :
  page_ok p ->
  exists p',
    handle e p = Ok p' /\
    (effective e p -> score_shows p') /\
    (score_shows p -> score_shows p').
Proof.
  intros Hp.
  destruct (handle_ok e p Hp) as (p' & E & _ & _ & Heff & _ & Hsc & _).
  exists p'. split; [exact E|]. split; [exact Heff|exact Hsc].
Qed.

Lemma score_follows_selection_witness :
  page_ok start_page /\
  exists p',
    handle (ChangeMode (lit "crib")) start_page = Ok p' /\ score_shows p'.
Proof.
  split; [exact (proj1 start_page_ok)|].
  destruct (score_follows_selection (ChangeMode (lit "crib")) start_page
              (proj1 start_page_ok)) as (p' & E & Hs & _).
  exists p'. split; [exact E|exact (Hs I)].
Defined.

(** X19. [updateScore] throws exactly when no mode radio is checked:
    whatever the selection holds, and however long it is, the evaluators
    called through [scoreHand] do not throw.  When it returns, it has left
    the selection, the grid, the slots, the displays and the mode as they
    were. *)
Theorem updateScore_throws_iff (p : Page) :
  (updateScore p = TypeError <-> modeValue p = None) /\
  (forall p', updateScore p = Ok p' -> same_document p p').
Proof.
  split; [split|].
  - intros E. destruct (modeValue p) as [value|] eqn:Em; [|reflexivity].
    destruct (updateScore_ok p) as (p' & E' & _); congruence.
  - intros Em. unfold updateScore. now rewrite Em.
  - intros p' E. destruct (modeValue p) as [value|] eqn:Em.
    + destruct (updateScore_ok p) as (q & E' & Hsame); congruence.
    + unfold updateScore in E. rewrite Em in E. discriminate.
Qed.

(** ** The breakdown *)

Lemma zsum_nonneg (l : list Z) : (forall x, In x l -> 0 <= x) -> 0 <= zsum l.
Proof.
  induction l as [|x l IH]; intros H; cbn; [lia|].
  pose proof (H x (or_introl eq_refl)).
  assert (0 <= zsum l) by (apply IH; intros y Hy; apply H; now right).
  unfold zsum in *. lia.
Qed.

Lemma run_product_nonneg (cs : list card) (s L : Z) : 0 <= run_product cs s L.
Proof.
  unfold run_product. induction (range 0 L) as [|k l IH]; cbn; [lia|].
  apply Z.mul_nonneg_nonneg; [unfold value_count; lia|exact IH].
Qed.

Lemma points_nonneg (c0 c1 c2 c3 c4 : card) (isCrib : bool) :
  exists rep,
    scoreHand (Some (hand c0 c1 c2 c3 c4)) isCrib = Ok (Some rep) /\
    total rep
    = fifteens_points (fifteens rep) + pairs_points (pairs rep)
      + runs_points (runs rep) + flush_points (flush rep)
      + nobs_points (nobs rep) /\
    0 <= fifteens_points (fifteens rep) /\
    0 <= pairs_points (pairs rep) /\
    0 <= runs_points (runs rep) /\
    0 <= flush_points (flush rep) /\
    0 <= nobs_points (nobs rep).
Proof.
  destruct (scoreHand_present c0 c1 c2 c3 c4 isCrib)
    as (f & p & r & fl & n & Hf & Hp & Hr & Hfl & Hn & E).
  eexists. split; [exact E|]. cbn [total fifteens pairs runs flush nobs].
  split; [reflexivity|].
  change (hand c0 c1 c2 c3 c4) with (map Some [c0; c1; c2; c3; c4]) in Hf, Hp, Hr.
  split; [|split; [|split; [|split]]].
  - rewrite scoreFifteens_present in Hf by (cbn; lia).
    injection Hf as <-.
    change (0 <= 2 * Z.of_nat (length (fifteen_subsets [c0; c1; c2; c3; c4]))).
    lia.
  - destruct (scorePairs_present [c0; c1; c2; c3; c4]) as (p' & Hp' & Hpts).
    + rewrite Hp' in Hp. injection Hp as <-. rewrite Hpts.
      apply zsum_nonneg. intros x Hx. apply in_map_iff in Hx as (rk & <- & _).
      rewrite pair_table_spec.
      repeat match goal with |- context [if ?b then _ else _] => destruct b end;
        lia.
  - destruct (scoreRuns_present [c0; c1; c2; c3; c4] eq_refl)
      as (r' & Hr' & Hout).
    rewrite Hr' in Hr. injection Hr as <-.
    destruct Hout as [[-> _]|(s & L & HL & _ & _ & ->)].
    + unfold no_run_report. cbn [runs_points]. lia.
    + unfold run_report. cbn [runs_points].
      pose proof (run_product_nonneg [c0; c1; c2; c3; c4] s L). nia.
  - unfold hand in Hfl. rewrite scoreFlush_hand in Hfl. injection Hfl as <-.
    cbn [flush_points].
    repeat match goal with |- context [if ?b then _ else _] => destruct b end;
      lia.
  - rewrite scoreNobs_hand in Hn. injection Hn as <-. unfold nobs_of.
    destruct (first_jack [c0; c1; c2; c3]) as [jack|];
      [|cbn [nobs_points]; lia].
    destruct (suit_eqb (suit jack) (suit c4)); cbn [nobs_points]; lia.
Qed.

(** X20. For a hand of five cards, no rule ever gives negative points, so
    the total is 0 exactly when the five rules all give 0.  The breakdown
    gets one item for each rule that scores; hence the message of the hand
    worth nothing, which [updateScore] writes for a total of 0, replaces an
    empty breakdown and never an item. *)
Theorem nothing_scores_iff_total_zero (c0 c1 c2 c3 c4 : card) (isCrib : bool) :
  exists rep,
    scoreHand (Some (hand c0 c1 c2 c3 c4)) isCrib = Ok (Some rep) /\
    Forall (fun points => 0 <= points)
      [fifteens_points (fifteens rep); pairs_points (pairs rep);
       runs_points (runs rep); flush_points (flush rep);
       nobs_points (nobs rep)] /\
    (total rep = 0 <->
     Forall (fun points => points = 0)
       [fifteens_points (fifteens rep); pairs_points (pairs rep);
        runs_points (runs rep); flush_points (flush rep);
        nobs_points (nobs rep)]) /\
    length (breakdown_items rep isCrib)
    = length (filter (fun points => points >? 0)
                [fifteens_points (fifteens rep); pairs_points (pairs rep);
                 runs_points (runs rep); flush_points (flush rep);
                 nobs_points (nobs rep)]) /\
    (breakdown_items rep isCrib = [] <-> total rep = 0).
Proof.
  destruct (points_nonneg c0 c1 c2 c3 c4 isCrib)
    as (rep & E & Ht & Hf & Hp & Hr & Hfl & Hn).
  exists rep. split; [exact E|].
  split; [repeat constructor; assumption|].
  split; [|split].
  - split.
    + intros H. repeat constructor; lia.
    + intros H. rewrite !Forall_cons_iff in H. lia.
  - unfold breakdown_items. rewrite !length_app. cbn [filter].
    destruct (fifteens_points (fifteens rep) >? 0),
      (pairs_points (pairs rep) >? 0), (runs_points (runs rep) >? 0),
      (flush_points (flush rep) >? 0), (nobs_points (nobs rep) >? 0);
      reflexivity.
  - unfold breakdown_items.
    destruct (fifteens_points (fifteens rep) >? 0) eqn:E1,
      (pairs_points (pairs rep) >? 0) eqn:E2,
      (runs_points (runs rep) >? 0) eqn:E3,
      (flush_points (flush rep) >? 0) eqn:E4,
      (nobs_points (nobs rep) >? 0) eqn:E5;
      cbn [app]; (split; [try discriminate|]); intros;
      first [reflexivity|lia].
Qed.

Lemma map_index_map {A B C : Type} (f : Z -> B -> C) (g : A -> B) (l : list A)
  (i : Z) :
  map_index f i (map g l) = map_index (fun k x => f k (g x)) i l.
Proof.
  revert i. induction l as [|x l IH]; intros i; cbn; [reflexivity|].
  now rewrite IH.
Qed.

(** X21. When a hand of five cards holds a fifteen, the first item of the
    breakdown is the one of the fifteens: its label gives 2 points for
    each subset of cards that sums to 15, its details the number of these
    subsets, and each subset gets a line of its own with the tokens of its
    cards.  Every such line begins with [Run k: ], as the lines of the runs
    do: [createBreakdownItem] is given an array of arrays, and its branch
    for [Combinations: ...] is never taken. *)
Theorem fifteens_item (c0 c1 c2 c3 c4 : card) (isCrib : bool) :
  0 < count_fifteens [c0; c1; c2; c3; c4] ->
  exists rep rest,
    scoreHand (Some (hand c0 c1 c2 c3 c4)) isCrib = Ok (Some rep) /\
    breakdown_items rep isCrib
    = {| item_label :=
           lit "Fifteens: "
           ++ num_str (2 * count_fifteens [c0; c1; c2; c3; c4])
           ++ lit " points";
         item_details :=
           num_str (count_fifteens [c0; c1; c2; c3; c4])
           ++ lit " combination(s)";
         item_combos :=
           Some (map_index
                   (fun idx s =>
                      lit "Run " ++ num_str (idx + 1) ++ lit ": "
                      ++ join (lit ", ") (map (fun c => formatCard (Some c)) s))
                   0 (fifteen_subsets [c0; c1; c2; c3; c4])) |}
      :: rest.
Proof.
  intros Hpos.
  destruct (scoreHand_present c0 c1 c2 c3 c4 isCrib)
    as (f & p & r & fl & n & Hf & _ & _ & _ & _ & E).
  change (hand c0 c1 c2 c3 c4) with (map Some [c0; c1; c2; c3; c4]) in Hf.
  assert (Ef : f = {| fifteens_points :=
                        2 * Z.of_nat (length (fifteen_subsets [c0; c1; c2; c3; c4]));
                      combinations :=
                        map (fun s => map formatCard (map Some s))
                          (fifteen_subsets [c0; c1; c2; c3; c4]) |}).
  { rewrite scoreFifteens_present in Hf by (cbn; lia). congruence. }
  subst f. clear Hf.
  unfold count_fifteens in *.
  destruct (fifteen_subsets [c0; c1; c2; c3; c4]) as [|s ss] eqn:Es;
    [cbn in Hpos; lia|].
  eexists. eexists. split; [exact E|].
  unfold breakdown_items. cbn [fifteens fifteens_points combinations].
  replace (2 * Z.of_nat (length (s :: ss)) >? 0) with true by lia.
  cbn [app]. apply (f_equal2 cons); [|reflexivity].
  unfold createBreakdownItem.
  rewrite length_map. f_equal.
  cbn [map]. f_equal. cbn [map_index]. f_equal.
  - now rewrite map_map.
  - rewrite map_index_map. clear. generalize (0 + 1).
    induction ss as [|x l IH]; intros i; cbn [map_index]; [reflexivity|].
    rewrite map_map. f_equal. apply IH.
Qed.

Lemma fifteens_item_witness :
  0 < count_fifteens
        [card_of R5 Spades; card_of R5 Hearts; card_of R5 Diamonds;
         card_of RJ Clubs; card_of R5 Clubs] /\
  exists rep rest,
    scoreHand (Some test1) false = Ok (Some rep) /\
    map item_label (breakdown_items rep false)
    = (lit "Fifteens: 16 points") :: map item_label rest.
Proof.
  assert (H : 0 < count_fifteens
                    [card_of R5 Spades; card_of R5 Hearts; card_of R5 Diamonds;
                     card_of RJ Clubs; card_of R5 Clubs]) by (vm_compute; reflexivity).
  split; [exact H|].
  destruct (fifteens_item (card_of R5 Spades) (card_of R5 Hearts)
              (card_of R5 Diamonds) (card_of RJ Clubs) (card_of R5 Clubs)
              false H) as (rep & rest & E & Hitems).
  exists rep, rest. split; [exact E|]. rewrite Hitems. reflexivity.
Defined.

(** ** The page as a view of the selection and the mode *)

Lemma grid_frame_update (used : list jsstring) (grid : list GridEl) :
  grid_frame
    (map (fun el =>
            match el with
            | SuitHeader text red => SuitHeader text red
            | DeckCard token red rankText suitText card _ =>
                DeckCard token red rankText suitText card (has used token)
            end)
       grid)
  = grid_frame grid.
Proof.
  unfold grid_frame. rewrite map_map. apply map_ext. now intros [|].
Qed.

Lemma handle_state (e : Event) (p p' : Page) :
  page_ok p -> handle e p = Ok p' ->
  selectedCards p' = next_selection e (selectedCards p) /\
  modeValue p' = next_mode e (modeValue p) /\
  grid_frame (deckGrid p') = grid_frame (deckGrid p).
Proof.
  intros (Hm & _) E.
  assert (Hrefresh : forall q,
             modeValue q <> None -> refresh q = Ok p' ->
             selectedCards p' = selectedCards q /\
             modeValue p' = modeValue q /\
             grid_frame (deckGrid p') = grid_frame (deckGrid q)).
  { intros q Hq Eq. destruct (refresh_ok q Hq) as (q' & Eq' & _ & Hsame).
    rewrite Eq' in Eq. injection Eq as <-.
    destruct Hsame as (-> & -> & _ & _ & _ & ->).
    cbn [selectedCards modeValue deckGrid displayed set_displays
         updateAvailableCards set_deckGrid updateSlots set_cardSlots].
    split; [reflexivity|]. split; [reflexivity|apply grid_frame_update]. }
  destruct e as [c|index| |value]; cbn [handle next_selection next_mode] in *.
  - unfold handleCardClick in E.
    destruct (has (usedCards (selectedCards p)) (formatCard (Some c))).
    + injection E as <-. auto.
    + apply Hrefresh in E; [exact E|exact Hm].
  - destruct (slot_at (selectedCards p) index).
    + apply Hrefresh in E; [exact E|exact Hm].
    + injection E as <-. auto.
  - apply Hrefresh in E; [exact E|exact Hm].
  - destruct (updateScore_ok (set_modeValue p (Some value)))
      as (q & Eq & Hsame); [discriminate|].
    rewrite Eq in E. injection E as <-.
    destruct Hsame as (-> & -> & _ & _ & _ & ->). auto.
Qed.

Lemma run_frame (es : list Event) (p p' : Page) :
  page_ok p -> run es p = Ok p' ->
  grid_frame (deckGrid p') = grid_frame (deckGrid p).
Proof.
  revert p. induction es as [|e es IH]; intros p Hp E.
  - injection E as <-. reflexivity.
  - destruct (handle_ok e p Hp) as (p1 & E1 & Hp1 & _).
    unfold run in E. cbn [foldM] in E. rewrite E1 in E. cbn [bind] in E.
    rewrite (IH p1 Hp1 E). now apply (handle_state e p p1).
Qed.

Lemma grid_determined (selected : list slot) (g1 g2 : list GridEl) :
  grid_frame g1 = grid_frame g2 ->
  (forall token red rankText suitText c disabled,
      In (DeckCard token red rankText suitText c disabled) g1 ->
      (disabled = true <-> In (Some c) selected)) ->
  (forall token red rankText suitText c disabled,
      In (DeckCard token red rankText suitText c disabled) g2 ->
      (disabled = true <-> In (Some c) selected)) ->
  g1 = g2.
Proof.
  revert g2. induction g1 as [|a g1 IH]; intros [|b g2] E H1 H2;
    try discriminate; [reflexivity|].
  cbn [grid_frame map] in E. injection E as Ea Eg. f_equal.
  - destruct a as [t r|t r rt st c d], b as [t' r'|t' r' rt' st' c' d'];
      try discriminate; [exact Ea|].
    injection Ea as <- <- <- <- <-. f_equal.
    pose proof (H1 _ _ _ _ _ _ (or_introl eq_refl)) as A.
    pose proof (H2 _ _ _ _ _ _ (or_introl eq_refl)) as B.
    destruct d, d'; try reflexivity.
    + destruct B as [_ B]. symmetry. apply B, A. reflexivity.
    + destruct A as [_ A]. apply A, B. reflexivity.
  - apply IH; [exact Eg| |].
    + intros t r rt st c d H. apply (H1 t r rt st c d). now right.
    + intros t r rt st c d H. apply (H2 t r rt st c d). now right.
Qed.

Lemma slots_determined (p q : Page) :
  slots_show p -> slots_show q ->
  selectedCards p = selectedCards q ->
  length (cardSlots p) = length (cardSlots q) ->
  cardSlots p = cardSlots q.
Proof.
  intros (Hp & _) (Hq & _) Hsel Hlen. apply nth_error_ext. intros k.
  destruct (nth_error (cardSlots p) k) as [a|] eqn:Ea,
    (nth_error (cardSlots q) k) as [b|] eqn:Eb.
  - apply Hp in Ea. apply Hq in Eb. rewrite <- Hsel in Eb.
    destruct a as [sa ca], b as [sb cb]. cbn [slot_selected slot_content] in *.
    destruct (slot_at (selectedCards p) (Z.of_nat k));
      destruct Ea as [-> ->], Eb as [-> ->]; reflexivity.
  - apply nth_error_None in Eb.
    assert (k < length (cardSlots p))%nat by (apply nth_error_Some; congruence).
    lia.
  - apply nth_error_None in Ea.
    assert (k < length (cardSlots q))%nat by (apply nth_error_Some; congruence).
    lia.
  - reflexivity.
Qed.

Lemma pages_equal (p q : Page) :
  page_ok p -> page_ok q ->
  slots_show p -> slots_show q ->
  score_shows p -> score_shows q ->
  selectedCards p = selectedCards q ->
  modeValue p = modeValue q ->
  length (cardSlots p) = length (cardSlots q) ->
  grid_frame (deckGrid p) = grid_frame (deckGrid q) ->
  p = q.
Proof.
  intros (_ & _ & Hdp & _) (_ & _ & Hdq & _) Hsp Hsq Hscp Hscq Hsel Hmode
    Hlen Hframe.
  assert (Eg : deckGrid p = deckGrid q).
  { apply (grid_determined (selectedCards p)); [exact Hframe| |].
    - intros t r rt st c d H. exact (proj2 (Hdp t r rt st c d H)).
    - rewrite Hsel. intros t r rt st c d H. exact (proj2 (Hdq t r rt st c d H)). }
  pose proof (slots_determined p q Hsp Hsq Hsel Hlen) as Es.
  destruct Hsp as (_ & Hh & Hc), Hsq as (_ & Hh' & Hc').
  rewrite <- Hsel in Hh', Hc'.
  assert (Esc : totalScore p = totalScore q /\ noBlur p = noBlur q /\
                mondorState p = mondorState q /\
                scoreBreakdown p = scoreBreakdown q).
  { destruct Hscp as (v & Ev & Hn & Hf), Hscq as (v' & Ev' & Hn' & Hf').
    assert (v' = v) by congruence. subst v'. rewrite <- Hsel in Hn', Hf'.
    destruct (forallb (fun c => negb (absent c)) (selectedCards p)) eqn:Eall.
    - apply all_selected in Eall.
      destruct (Hf Eall) as (rep & Er & -> & -> & -> & ->).
      destruct (Hf' Eall) as (rep' & Er' & -> & -> & -> & ->).
      assert (rep' = rep) by congruence. subst rep'. auto.
    - apply not_all_selected in Eall.
      destruct (Hn Eall) as (-> & -> & -> & ->).
      destruct (Hn' Eall) as (-> & -> & -> & ->). auto. }
  destruct Esc as (Et & Eb & Em & Ebr).
  destruct p, q. cbn in *. congruence.
Qed.

Lemma ready_page_reset : reset start_page = Ok ready_page.
Proof. vm_compute. reflexivity. Qed.

Lemma ready_page_ok :
  page_ok ready_page /\ slots_show ready_page /\ score_shows ready_page.
Proof.
  destruct (handle_ok ClickReset start_page (proj1 start_page_ok))
    as (p & E & Hp & _ & Hsc & Hs & _).
  cbn [handle] in E. rewrite ready_page_reset in E. injection E as <-.
  split; [exact Hp|]. split; [exact (Hs I)|exact (Hsc I)].
Qed.

(** X22. The page depends on what the user did only through the selection
    and the checked mode.  From a page in order that shows its selection
    and its score, two sequences of clicks and mode changes that end with
    the same selection and the same mode end with the same page: the same
    grid, slots, displays, total, breakdown and classes. *)
Theorem page_follows_state (p : Page) (es1 es2 : list Event) (p1 p2 : Page) :
  page_ok p -> slots_show p -> score_shows p ->
  run es1 p = Ok p1 -> run es2 p = Ok p2 ->
  selectedCards p1 = selectedCards p2 ->
  modeValue p1 = modeValue p2 ->
  p1 = p2.
Proof.
  intros Hp Hs Hsc E1 E2 Hsel Hmode.
  destruct (run_ok es1 p Hp) as (q1 & F1 & Hp1 & Hl1 & Hsc1 & Hs1).
  destruct (run_ok es2 p Hp) as (q2 & F2 & Hp2 & Hl2 & Hsc2 & Hs2).
  assert (q1 = p1) by congruence. assert (q2 = p2) by congruence.
  subst q1 q2.
  apply pages_equal; auto; [congruence|].
  rewrite (run_frame es1 p p1 Hp E1), (run_frame es2 p p2 Hp E2). reflexivity.
Qed.

Lemma page_follows_state_witness :
  exists p1 p2,
    run [ClickCard (card_of R5 Hearts); ClickCard (card_of RJ Clubs);
         RemoveCard 0; ClickCard (card_of R5 Hearts)] ready_page = Ok p1 /\
    run [ChangeMode (lit "crib"); ClickCard (card_of R5 Hearts);
         ClickCard (card_of RJ Clubs); ChangeMode (lit "hand")] ready_page
    = Ok p2 /\
    p1 = p2.
Proof.
  destruct ready_page_ok as (Hp & Hs & Hsc).
  destruct (run_ok [ClickCard (card_of R5 Hearts); ClickCard (card_of RJ Clubs);
                    RemoveCard 0; ClickCard (card_of R5 Hearts)]
              ready_page Hp) as (p1 & E1 & _).
  destruct (run_ok [ChangeMode (lit "crib"); ClickCard (card_of R5 Hearts);
                    ClickCard (card_of RJ Clubs); ChangeMode (lit "hand")]
              ready_page Hp) as (p2 & E2 & _).
  exists p1, p2. split; [exact E1|]. split; [exact E2|].
  pose proof E1 as C1. pose proof E2 as C2.
  vm_compute in C1. vm_compute in C2.
  injection C1 as C1. injection C2 as C2.
  apply (page_follows_state ready_page _ _ p1 p2 Hp Hs Hsc E1 E2).
  - rewrite <- C1, <- C2. reflexivity.
  - rewrite <- C1, <- C2. reflexivity.
Defined.

Lemma has_usedCards_false (selected : list slot) (c : card) :
  ~ In (Some c) selected ->
  has (usedCards selected) (formatCard (Some c)) = false.
Proof.
  intros H. destruct (has (usedCards selected) (formatCard (Some c))) eqn:E;
    [|reflexivity].
  apply has_usedCards in E. tauto.
Qed.

Lemma click_step (c : card) (p : Page) :
  page_ok p -> ~ In (Some c) (selectedCards p) ->
  exists p',
    handle (ClickCard c) p = Ok p' /\ page_ok p' /\
    slots_show p' /\ score_shows p' /\
    selectedCards p'
    = store (selectedCards p) (target_slot (selectedCards p)) (Some c) /\
    modeValue p' = modeValue p /\
    length (cardSlots p') = length (cardSlots p) /\
    grid_frame (deckGrid p') = grid_frame (deckGrid p).
Proof.
  intros Hp Hc.
  destruct (handle_ok (ClickCard c) p Hp) as (p' & E & Hp' & Hlen & Hsc & Hs & _).
  destruct (handle_state _ _ _ Hp E) as (Hsel & Hmode & Hframe).
  cbn [next_selection next_mode] in Hsel, Hmode.
  rewrite (has_usedCards_false _ _ Hc) in Hsel.
  exists p'. split; [exact E|]. split; [exact Hp'|].
  split; [exact (Hs Hc)|]. split; [exact (Hsc Hc)|]. auto.
Qed.

Lemma store_back (a : list slot) (k : nat) (v : slot) :
  nth_error a k = Some None ->
  store (store a (Z.of_nat k) v) (Z.of_nat k) None = a.
Proof.
  intros H.
  assert (Hk : (k < length a)%nat) by (apply nth_error_Some; congruence).
  assert (Hl : length (store a (Z.of_nat k) v) = length a)
    by (apply length_store; lia).
  apply nth_error_ext. intros j.
  rewrite nth_store by lia. rewrite nth_store by lia. rewrite Nat2Z.id.
  destruct (Nat.eqb_spec j k) as [->|_]; [now rewrite H|reflexivity].
Qed.

(** X23. Taking out a card that was just put in undoes the click.  On a
    page in order that shows its selection and its score and has an empty
    slot, a click on a card that is not selected puts the card into the
    first empty slot [k], and removing the card from slot [k] then gives
    back the very page of before the click. *)
Theorem click_then_remove (c : card) (p : Page) :
  page_ok p -> slots_show p -> score_shows p ->
  In None (selectedCards p) -> ~ In (Some c) (selectedCards p) ->
  exists k p1,
    nth_error (selectedCards p) k = Some None /\
    handle (ClickCard c) p = Ok p1 /\
    nth_error (selectedCards p1) k = Some (Some c) /\
    handle (RemoveCard (Z.of_nat k)) p1 = Ok p.
Proof.
  intros Hp Hs Hsc Hnone Hc.
  pose proof Hp as (_ & [Hlen _] & _).
  destruct (click_step c p Hp Hc)
    as (p1 & E1 & Hp1 & Hs1 & Hsc1 & Hsel1 & Hmode1 & Hlen1 & Hframe1).
  destruct (target_slot_spec _ Hlen) as (k & Ek & Hk & [[Hnull _]|[_ Hfull]]);
    [|tauto].
  rewrite Ek in Hsel1.
  assert (Hat : nth_error (selectedCards p1) k = Some (Some c)).
  { rewrite Hsel1, nth_store, Nat2Z.id, Nat.eqb_refl by lia. reflexivity. }
  exists k, p1. split; [exact Hnull|]. split; [exact E1|]. split; [exact Hat|].
  assert (Hslot : slot_at (selectedCards p1) (Z.of_nat k) = Some c)
    by (now rewrite slot_at_nth, Hat).
  destruct (handle_ok (RemoveCard (Z.of_nat k)) p1 Hp1)
    as (p2 & E2 & Hp2 & Hlen2 & Hsc2 & Hs2 & _).
  destruct (handle_state _ _ _ Hp1 E2) as (Hsel2 & Hmode2 & Hframe2).
  cbn [next_selection next_mode effective selecting] in *.
  rewrite Hslot in Hsel2, Hsc2, Hs2.
  rewrite Hsel1, store_back in Hsel2 by exact Hnull.
  rewrite E2. f_equal.
  apply pages_equal; auto; try congruence.
  - apply Hs2. discriminate.
  - apply Hsc2. discriminate.
Qed.

Lemma click_then_remove_witness :
  exists k p1,
    nth_error (selectedCards ready_page) k = Some None /\
    handle (ClickCard (card_of RQ Diamonds)) ready_page = Ok p1 /\
    nth_error (selectedCards p1) k = Some (mk RQ Diamonds) /\
    handle (RemoveCard (Z.of_nat k)) p1 = Ok ready_page.
Proof.
  destruct ready_page_ok as (Hp & Hs & Hsc).
  apply (click_then_remove (card_of RQ Diamonds) ready_page Hp Hs Hsc).
  - vm_compute. tauto.
  - vm_compute. intuition discriminate.
Defined.

(** X24. Clicking five different cards on a page in order whose slots are
    all empty fills the slots in the order of the clicks, the fifth card
    being the cut card, and the total shown is then the total that
    [scoreHand] gives for this hand in the checked mode.  A click on a
    sixth card replaces the cut card and leaves the four hand cards. *)
Theorem five_clicks (c0 c1 c2 c3 c4 : card) (p : Page) :
  page_ok p ->
  selectedCards p = [None; None; None; None; None] ->
  NoDup [c0; c1; c2; c3; c4] ->
  exists p' value rep,
    run [ClickCard c0; ClickCard c1; ClickCard c2; ClickCard c3; ClickCard c4] p
    = Ok p' /\
    selectedCards p' = hand c0 c1 c2 c3 c4 /\
    modeValue p' = Some value /\ modeValue p = Some value /\
    scoreHand (Some (hand c0 c1 c2 c3 c4)) (str_eqb value (lit "crib"))
    = Ok (Some rep) /\
    totalScore p' = num_str (total rep) /\
    forall c5, ~ In c5 [c0; c1; c2; c3; c4] ->
      exists p'',
        handleCardClick c5 p' = Ok p'' /\
        selectedCards p'' = hand c0 c1 c2 c3 c5.
Proof.
  intros Hp Hsel Hnd.
  rewrite !NoDup_cons_iff in Hnd. cbn [In] in Hnd.
  destruct (click_step c0 p Hp) as (p1 & E1 & Hp1 & _ & _ & S1 & M1 & _).
  { rewrite Hsel. cbn [In]. intuition discriminate. }
  rewrite Hsel in S1.
  change (selectedCards p1 = [Some c0; None; None; None; None]) in S1.
  destruct (click_step c1 p1 Hp1) as (p2 & E2 & Hp2 & _ & _ & S2 & M2 & _).
  { rewrite S1. cbn [In]. intuition congruence. }
  rewrite S1 in S2.
  change (selectedCards p2 = [Some c0; Some c1; None; None; None]) in S2.
  destruct (click_step c2 p2 Hp2) as (p3 & E3 & Hp3 & _ & _ & S3 & M3 & _).
  { rewrite S2. cbn [In]. intuition congruence. }
  rewrite S2 in S3.
  change (selectedCards p3 = [Some c0; Some c1; Some c2; None; None]) in S3.
  destruct (click_step c3 p3 Hp3) as (p4 & E4 & Hp4 & _ & _ & S4 & M4 & _).
  { rewrite S3. cbn [In]. intuition congruence. }
  rewrite S3 in S4.
  change (selectedCards p4 = [Some c0; Some c1; Some c2; Some c3; None]) in S4.
  destruct (click_step c4 p4 Hp4) as (p5 & E5 & Hp5 & _ & Hsc & S5 & M5 & _).
  { rewrite S4. cbn [In]. intuition congruence. }
  rewrite S4 in S5.
  change (selectedCards p5 = hand c0 c1 c2 c3 c4) in S5.
  destruct Hsc as (value & Ev & _ & Hfull).
  destruct Hfull as (rep & Er & Et & _).
  { rewrite S5. cbn [hand In]. intuition discriminate. }
  rewrite S5 in Er.
  exists p5, value, rep.
  split.
  { unfold run. cbn [foldM]. rewrite E1. cbn [bind]. rewrite E2. cbn [bind].
    rewrite E3. cbn [bind]. rewrite E4. cbn [bind]. rewrite E5. reflexivity. }
  split; [exact S5|]. split; [exact Ev|]. split; [congruence|].
  split; [exact Er|]. split; [exact Et|].
  intros c5 Hc5. cbn [In] in Hc5.
  destruct (click_step c5 p5 Hp5) as (p6 & E6 & _ & _ & _ & S6 & _).
  { rewrite S5. cbn [hand In]. intuition congruence. }
  exists p6. split; [exact E6|]. rewrite S5 in S6. exact S6.
Qed.

Lemma five_clicks_witness :
  exists p' rep,
    run [ClickCard (card_of R5 Spades); ClickCard (card_of R5 Hearts);
         ClickCard (card_of R5 Diamonds); ClickCard (card_of RJ Clubs);
         ClickCard (card_of R5 Clubs)] start_page = Ok p' /\
    selectedCards p' = test1 /\
    scoreHand (Some test1) false = Ok (Some rep) /\
    totalScore p' = num_str (total rep).
Proof.
  assert (Hnd : NoDup [card_of R5 Spades; card_of R5 Hearts;
                       card_of R5 Diamonds; card_of RJ Clubs;
                       card_of R5 Clubs]).
  { rewrite !NoDup_cons_iff. cbn [In].
    repeat split; try apply NoDup_nil; intuition discriminate. }
  destruct (five_clicks (card_of R5 Spades) (card_of R5 Hearts)
              (card_of R5 Diamonds) (card_of RJ Clubs) (card_of R5 Clubs)
              start_page (proj1 start_page_ok) eq_refl Hnd)
    as (p' & value & rep & E & S & _ & Ev & Er & Et & _).
  injection Ev as <-.
  exists p', rep. split; [exact E|]. split; [exact S|]. split; [exact Er|exact Et].
Defined.

(** X25. With a mode checked, [reset] does not throw, whatever the page
    was: afterwards the five slots are empty and show their placeholders,
    no deck card is disabled, the hand and cut displays are empty, the
    total is [0] with the request for 5 cards, and both classes are
    removed.  The deck cards themselves and the mode are as before. *)
Theorem reset_clears (p : Page) :
  modeValue p <> None ->
  exists p',
    reset p = Ok p' /\
    selectedCards p' = [None; None; None; None; None] /\
    modeValue p' = modeValue p /\
    grid_frame (deckGrid p') = grid_frame (deckGrid p) /\
    (forall token red rankText suitText c disabled,
        In (DeckCard token red rankText suitText c disabled) (deckGrid p') ->
        disabled = false) /\
    length (cardSlots p') = length (cardSlots p) /\
    (forall k el,
        nth_error (cardSlots p') k = Some el ->
        slot_selected el = false /\
        slot_content el
        = SlotPlaceholder
            (if (k <? 4)%nat then lit "Card " ++ num_str (Z.of_nat k + 1)
             else lit "Cut Card")) /\
    handDisplay p' = [] /\ cutDisplay p' = [] /\
    totalScore p' = lit "0" /\ scoreBreakdown p' = SelectAllMessage /\
    noBlur p' = false /\ mondorState p' = false.
Proof.
  intros Hm. unfold reset.
  set (q := set_classes (set_selectedCards p [None; None; None; None; None])
              false).
  destruct (refresh_ok q Hm) as (p' & E & E' & Hsame).
  exists p'. split; [exact E|].
  pose proof Hsame as (Hsel & Hg & Hslots & Hh & Hc & Hmode).
  split; [exact Hsel|]. split; [exact Hmode|].
  split; [rewrite Hg; apply grid_frame_update|].
  split.
  { rewrite Hg. intros t r rt st c d Hin.
    cbn [deckGrid displayed set_displays updateAvailableCards set_deckGrid] in Hin.
    apply in_map_iff in Hin as ([t' r'|t' r' rt' st' c' d'] & Eel & _);
      [discriminate|].
    injection Eel as _ _ _ _ _ <-. reflexivity. }
  split.
  { rewrite Hslots. apply length_map_index. }
  split.
  { intros k el Hk. rewrite Hslots in Hk.
    pose proof (updateSlots_shows q k el Hk) as H.
    assert (Es : slot_at (selectedCards q) (Z.of_nat k) = None).
    { rewrite slot_at_nth. cbn [selectedCards q set_classes set_selectedCards].
      destruct k as [|[|[|[|[|[|k]]]]]]; reflexivity. }
    rewrite Es in H. exact H. }
  split; [rewrite Hh; reflexivity|]. split; [rewrite Hc; reflexivity|].
  unfold updateScore in E'.
  destruct (modeValue (displayed (updateAvailableCards (updateSlots q))))
    as [value|]; [|discriminate].
  cbn in E'. injection E' as <-. cbn. auto.
Qed.

Lemma reset_clears_witness :
  modeValue blank_page <> None /\
  exists p', reset blank_page = Ok p' /\ totalScore p' = lit "0".
Proof.
  assert (H : modeValue blank_page <> None) by discriminate.
  split; [exact H|].
  destruct (reset_clears blank_page H) as (p' & E & _ & _ & _ & _ & _ & _ & _ & _ & Et & _).
  exists p'. split; [exact E|exact Et].
Defined.

(** X26. The listeners implement a small machine on the selection and the
    mode.  On a page in order, no sequence of events throws, and the
    selection and the mode that it leaves are those that the events give
    one after the other: a click on a selected card, or the removal from an
    empty slot, changes nothing; a click on another card stores it in the
    first empty slot, or in the last slot; a removal empties its slot; the
    reset button empties all five; a mode change touches the mode only.
    The updates of the document never change the selection. *)
Theorem run_follows_machine (es : list Event) (p : Page) :
  page_ok p ->
  exists p',
    run es p = Ok p' /\
    selectedCards p'
    = fold_left (fun selected e => next_selection e selected) es
        (selectedCards p) /\
    modeValue p' = fold_left (fun mode e => next_mode e mode) es (modeValue p).
Proof.
  revert p. induction es as [|e es IH]; intros p Hp.
  - exists p. now split.
  - destruct (handle_ok e p Hp) as (p1 & E1 & Hp1 & _).
    destruct (handle_state e p p1 Hp E1) as (Hsel & Hmode & _).
    destruct (IH p1 Hp1) as (p' & E & Hsel' & Hmode').
    exists p'. unfold run in *. cbn [foldM fold_left]. rewrite E1. cbn [bind].
    split; [exact E|]. now rewrite <- Hsel, <- Hmode.
Qed.

Lemma run_follows_machine_witness :
  exists p',
    run [ClickCard (card_of R5 Hearts); ClickCard (card_of RJ Clubs);
         ClickCard (card_of R5 Hearts); RemoveCard 0; RemoveCard 3;
         ChangeMode (lit "crib")] start_page = Ok p' /\
    selectedCards p' = [None; mk RJ Clubs; None; None; None] /\
    modeValue p' = Some (lit "crib").
Proof.
  destruct (run_follows_machine
              [ClickCard (card_of R5 Hearts); ClickCard (card_of RJ Clubs);
               ClickCard (card_of R5 Hearts); RemoveCard 0; RemoveCard 3;
               ChangeMode (lit "crib")] start_page (proj1 start_page_ok))
    as (p' & E & Hsel & Hmode).
  exists p'. split; [exact E|]. split; [exact Hsel|exact Hmode].
Defined.
